(** * Dependency and import-usage extraction: a shallow embedding

    This development embeds the extraction core of the repository
    (tools/dependency_tools.py and tools/analyze_python_ast.py) and proves
    properties of it.

    Conventions of the embedding.

    - A Python [str] is a Rocq [string]; one [ascii] stands for one code point
      below 256, classified the way Python classifies it ([str.isspace], the
      [\s], [\w] and [\d] classes of [re] on [str] patterns, [str.lower]).
    - A Python exception is represented by its message, [str(e)]; a
      computation that may raise has a result in [res].
    - The file system and the external parsers ([ast.parse], [yaml.safe_load],
      the text reader) are not re-implemented: a [file] of the model carries
      what each of them yields for that file. *)

From Stdlib Require Import String Ascii List ZArith NArith Bool Lia.
Import ListNotations.

Local Open Scope string_scope.
Local Open Scope list_scope.

(* ================================================================== *)
(** * Python strings *)
(* ================================================================== *)

Module PyStr.

Definition code (c : ascii) : N := N_of_ascii c.

Definition between (lo hi : N) (c : ascii) : bool :=
  ((lo <=? code c) && (code c <=? hi))%N.

(** [str.isspace] on one code point, which is also the class [\s]. *)
Definition isspace (c : ascii) : bool :=
  between 9 13 c || between 28 32 c || (code c =? 133)%N || (code c =? 160)%N.

(** The class [\d]. *)
Definition isdecimal (c : ascii) : bool := between 48 57 c.

(** The class [\w]: alphanumeric code points and the underscore. *)
Definition isword (c : ascii) : bool :=
  between 48 57 c || between 65 90 c || (code c =? 95)%N || between 97 122 c
  || (code c =? 170)%N || between 178 179 c || (code c =? 181)%N
  || between 185 186 c || between 188 190 c
  || between 192 214 c || between 216 246 c || between 248 255 c.

(** [str.lower] on one code point. *)
Definition lower_char (c : ascii) : ascii :=
  if between 65 90 c || between 192 214 c || between 216 222 c
  then ascii_of_N (code c + 32) else c.

Fixpoint lower (s : string) : string :=
  match s with
  | EmptyString => EmptyString
  | String c r => String (lower_char c) (lower r)
  end.

Fixpoint lstrip (s : string) : string :=
  match s with
  | EmptyString => EmptyString
  | String c r => if isspace c then lstrip r else s
  end.

Fixpoint rstrip (s : string) : string :=
  match s with
  | EmptyString => EmptyString
  | String c r =>
      match rstrip r with
      | EmptyString => if isspace c then EmptyString else String c EmptyString
      | r' => String c r'
      end
  end.

(** [s.strip()] *)
Definition strip (s : string) : string := rstrip (lstrip s).

(** [c in s] for a one-character [c]. *)
Fixpoint contains (c : ascii) (s : string) : bool :=
  match s with
  | EmptyString => false
  | String a r => Ascii.eqb a c || contains c r
  end.

(** [s.split(c, 1)] for a one-character separator: the text before the first
    [c] and the text after it.  When [c] does not occur the first component is
    the whole of [s], as [s.split(c, 1)[0]] is. *)
Fixpoint split1 (c : ascii) (s : string) : string * string :=
  match s with
  | EmptyString => (EmptyString, EmptyString)
  | String a r =>
      if Ascii.eqb a c then (EmptyString, r)
      else let (l, r') := split1 c r in (String a l, r')
  end.

(** The longest prefix whose characters satisfy [p], and the rest. *)
Fixpoint span (p : ascii -> bool) (s : string) : string * string :=
  match s with
  | EmptyString => (EmptyString, EmptyString)
  | String a r =>
      if p a then let (l, r') := span p r in (String a l, r') else (EmptyString, s)
  end.

(** [s.startswith(p)]: the rest of [s] after the prefix [p], if [p] is one. *)
Fixpoint strip_prefix (p s : string) : option string :=
  match p, s with
  | EmptyString, _ => Some s
  | String a p', String b s' => if Ascii.eqb a b then strip_prefix p' s' else None
  | String _ _, EmptyString => None
  end.

Definition startswith (s p : string) : bool :=
  match strip_prefix p s with Some _ => true | None => false end.

Fixpoint rev_string (acc s : string) : string :=
  match s with
  | EmptyString => acc
  | String c r => rev_string (String c acc) r
  end.

(** [s.endswith(p)] *)
Definition endswith (s p : string) : bool :=
  startswith (rev_string EmptyString s) (rev_string EmptyString p).

(** [x or y] on strings: the empty string is the falsy one. *)
Definition or_else (x y : string) : string :=
  match x with EmptyString => y | _ => x end.

(** [x or ""] for a regex group, which is [None] when it did not take part. *)
Definition group_or (g : option string) (d : string) : string :=
  match g with Some x => or_else x d | None => d end.

Definition nonempty (s : string) : bool :=
  match s with EmptyString => false | _ => true end.

Definition not_space (c : ascii) : bool := negb (isspace c).

(** Every character of [s] satisfies [p]. *)
Fixpoint all_chars (p : ascii -> bool) (s : string) : bool :=
  match s with
  | EmptyString => true
  | String c r => p c && all_chars p r
  end.

End PyStr.

(* ================================================================== *)
(** * Python run-time notions: exceptions, indexing, dictionaries *)
(* ================================================================== *)

Module Py.

(** The outcome of a computation that may raise: the value returned, or the
    message [str(e)] of the exception raised. *)
Inductive res (A : Type) : Type :=
| Return (a : A)
| Raise (msg : string).

Arguments Return {A} a.
Arguments Raise {A} msg.

Definition bind {A B : Type} (m : res A) (k : A -> res B) : res B :=
  match m with
  | Return a => k a
  | Raise msg => Raise msg
  end.

Notation "x <- m ;; k" := (bind m (fun x => k))
  (at level 61, m at next level, right associativity).

(** A loop [for a in l: s = f(a, s)] whose body may raise. *)
Definition for_each {A S : Type} (f : A -> S -> res S) : list A -> S -> res S :=
  fix go (l : list A) (s : S) : res S :=
    match l with
    | [] => Return s
    | a :: l' => s' <- f a s ;; go l' s'
    end.

(** [l[i]]: a negative index counts from the end. *)
Definition index {A : Type} (l : list A) (i : Z) : res A :=
  let n := Z.of_nat (length l) in
  let j := if (i <? 0)%Z then (i + n)%Z else i in
  if (j <? 0)%Z then Raise "list index out of range"
  else match nth_error l (Z.to_nat j) with
       | Some a => Return a
       | None => Raise "list index out of range"
       end.

(** A [dict] with [str] keys: an association list in insertion order.
    Built with [dict_set], it holds every key once. *)
Definition dict (V : Type) : Type := list (string * V).

Fixpoint dict_get {V : Type} (k : string) (d : dict V) : option V :=
  match d with
  | [] => None
  | (k', v) :: d' => if String.eqb k k' then Some v else dict_get k d'
  end.

(** [k in d] *)
Definition dict_mem {V : Type} (k : string) (d : dict V) : bool :=
  match dict_get k d with Some _ => true | None => false end.

(** [d[k] = v]: a key that is present keeps its place, a new one goes last. *)
Fixpoint dict_set {V : Type} (k : string) (v : V) (d : dict V) : dict V :=
  match d with
  | [] => [(k, v)]
  | (k', v') :: d' =>
      if String.eqb k k' then (k', v) :: d' else (k', v') :: dict_set k v d'
  end.

Definition dict_keys {V : Type} (d : dict V) : list string := map fst d.

End Py.

(* ================================================================== *)
(** * Syntax trees, YAML documents and files *)
(* ================================================================== *)

Module Ast.

(** [ast.alias] *)
Record alias : Type := { name : string; asname : option string }.

(** The nodes of a syntax tree, by what the visitor of the scanner does with
    them.  [Call] keeps its [func] and, in [rest], its [args] followed by its
    [keywords]; [Other] is a node of any other class with its child nodes in
    the order of [_fields], the order in which [generic_visit] visits them. *)
#[warning="-register-all"]
Inductive node : Type :=
| Import (lineno : Z) (names : list alias)
| ImportFrom (lineno : Z) (module : option string) (names : list alias)
| Call (lineno : Z) (func : node) (rest : list node)
| Attribute (lineno : Z) (value : node) (attr : string)
| Name (id : string)
| Other (children : list node).

(** Induction on trees, with the hypothesis for every child of a node. *)
Section Induction.

Context (P : node -> Prop).
Context (import_case : forall lineno names, P (Import lineno names)).
Context (import_from_case : forall lineno module names,
            P (ImportFrom lineno module names)).
Context (call_case : forall lineno func rest,
            P func -> Forall P rest -> P (Call lineno func rest)).
Context (attribute_case : forall lineno value attr,
            P value -> P (Attribute lineno value attr)).
Context (name_case : forall id, P (Name id)).
Context (other_case : forall children, Forall P children -> P (Other children)).

Fixpoint node_induction (n : node) : P n :=
  let all := fix all (l : list node) : Forall P l :=
               match l with
               | [] => Forall_nil P
               | c :: l' => Forall_cons c (node_induction c) (all l')
               end in
  match n with
  | Import lineno names => import_case lineno names
  | ImportFrom lineno module names => import_from_case lineno module names
  | Call lineno func rest =>
      call_case lineno func rest (node_induction func) (all rest)
  | Attribute lineno value attr =>
      attribute_case lineno value attr (node_induction value)
  | Name id => name_case id
  | Other children => other_case children (all children)
  end.

End Induction.

(** [n] occurs in [t]: it is [t] or it occurs in a child of [t]. *)
Inductive occurs (n : node) : node -> Prop :=
| occurs_here : occurs n n
| occurs_func lineno func rest :
    occurs n func -> occurs n (Call lineno func rest)
| occurs_rest lineno func rest c :
    In c rest -> occurs n c -> occurs n (Call lineno func rest)
| occurs_value lineno value attr :
    occurs n value -> occurs n (Attribute lineno value attr)
| occurs_child children c :
    In c children -> occurs n c -> occurs n (Other children).

Definition is_import_statement (n : node) : bool :=
  match n with
  | Import _ _ | ImportFrom _ _ _ => true
  | _ => false
  end.

(** The line and the names of an import statement. *)
Definition statement_lineno (n : node) : Z :=
  match n with
  | Import lineno _ | ImportFrom lineno _ _ => lineno
  | _ => 0%Z
  end.

Definition statement_names (n : node) : list alias :=
  match n with
  | Import _ names | ImportFrom _ _ names => names
  | _ => []
  end.

(** An [Import] or [ImportFrom] occurs in the tree. *)
Fixpoint has_import (n : node) : bool :=
  match n with
  | Import _ _ | ImportFrom _ _ _ => true
  | Call _ func rest => has_import func || existsb has_import rest
  | Attribute _ value _ => has_import value
  | Name _ => false
  | Other children => existsb has_import children
  end.

End Ast.

Module Yaml.

(** A mapping key: a string, a bytes object of [size] bytes (a [!!binary]
    scalar), or another scalar (a number, a boolean, [None], a date), which
    is not iterable. *)
Inductive key : Type :=
| KStr (s : string)
| KBytes (size : nat)
| KOther.

(** A document as [yaml.safe_load] returns it.  [YIter] stands for a value
    that is iterable without being a string, a list or a mapping, with the
    items that iterating over it yields: a set ([!!set]), in the order in
    which the iteration meets its members, a pair of an [!!omap] or
    [!!pairs] list, a bytes object ([!!binary]), whose items are integers.
    [YScalar] stands for every other value: [None], a boolean, a number, a
    date. *)
#[warning="-register-all"]
Inductive yaml : Type :=
| YStr (s : string)
| YList (items : list yaml)
| YDict (entries : list (key * yaml))
| YIter (items : list yaml)
| YScalar.

Definition key_value (k : key) : yaml :=
  match k with
  | KStr s => YStr s
  | KBytes size => YIter (repeat YScalar size)
  | KOther => YScalar
  end.

Definition key_is (k : string) (k' : key) : bool :=
  match k' with KStr s => String.eqb k s | _ => false end.

(** [d.get(k)] on the entries of a mapping. *)
Fixpoint lookup (k : string) (entries : list (key * yaml)) : option yaml :=
  match entries with
  | [] => None
  | (k', v) :: es => if key_is k k' then Some v else lookup k es
  end.

Fixpoint chars (s : string) : list yaml :=
  match s with
  | EmptyString => []
  | String c r => YStr (String c EmptyString) :: chars r
  end.

(** What [for x in v] iterates over: the items of a list, the characters of
    a string, the keys of a mapping, the items of another iterable; a scalar
    is not iterable. *)
Definition iter (v : yaml) : Py.res (list yaml) :=
  match v with
  | YList items => Py.Return items
  | YStr s => Py.Return (chars s)
  | YDict entries => Py.Return (map (fun e => key_value (fst e)) entries)
  | YIter items => Py.Return items
  | YScalar => Py.Raise "object is not iterable"
  end.

End Yaml.

Module Fs.

(** One file met by [os.walk], in the order of the walk, with what the
    readers of the two pipelines get from it. *)
Record file : Type := {
  f_root : string;                       (* the directory [os.walk] yields *)
  f_name : string;                       (* the entry of its [files] *)
  f_text : list string * option string;  (* the lines that iterating over the
                                            opened file yields, line ends
                                            included, and the exception that
                                            [open] or a later read raises *)
  f_yaml : Py.res Yaml.yaml;             (* [open] then [yaml.safe_load] *)
  f_ast : Py.res (list string * Ast.node) (* [read], [splitlines] and
                                            [ast.parse]: the lines of the
                                            source and its tree *)
}.

End Fs.

(* ================================================================== *)
(** * tools/dependency_tools.py *)
(* ================================================================== *)

Module DependencyTools.
Import PyStr.

(** ** The pattern of [split_dependency]

    [([\w\-\.]+)(?:\[[^\]]+\])?\s*(==|>=|<=|>|<|~=)?\s*([\d\w\.\*]+)?]

    Every item after group 1 is optional, so the first (all-greedy) path of
    the backtracking matcher succeeds as soon as group 1 takes one character:
    the match is computed left to right without backtracking. *)

Definition name_char (c : ascii) : bool :=
  isword c || Ascii.eqb c "-" || Ascii.eqb c ".".

Definition version_char (c : ascii) : bool :=
  isdecimal c || isword c || Ascii.eqb c "." || Ascii.eqb c "*".

Definition not_rbracket (c : ascii) : bool := negb (Ascii.eqb c "]").

(** [(?:\[[^\]]+\])?]: skips a bracketed, non-empty extras list if one starts
    here, and nothing otherwise. *)
Definition skip_extras (s : string) : string :=
  match s with
  | String "[" r =>
      match span not_rbracket r with
      | (String _ _, String "]" r') => r'
      | _ => s
      end
  | _ => s
  end.

Definition operators : list string := ["=="; ">="; "<="; ">"; "<"; "~="].

(** [(==|>=|<=|>|<|~=)?]: the first alternative that is a prefix. *)
Fixpoint match_operator (ops : list string) (s : string) : option string * string :=
  match ops with
  | [] => (None, s)
  | op :: ops' =>
      match strip_prefix op s with
      | Some r => (Some op, r)
      | None => match_operator ops' s
      end
  end.

(** [re.match(pattern, dep)]: groups 1, 2 and 3 of the match, or [None]. *)
Definition re_match_dependency (dep : string)
  : option (string * option string * option string) :=
  match span name_char dep with
  | (EmptyString, _) => None
  | (g1, r1) =>
      let r2 := skip_extras r1 in
      let r3 := snd (span isspace r2) in
      let (g2, r4) := match_operator operators r3 in
      let r5 := snd (span isspace r4) in
      let g3 := match fst (span version_char r5) with
                | EmptyString => None
                | v => Some v
                end in
      Some (g1, g2, g3)
  end.

(** A version constraint: an operator or none, then version characters,
    and not empty as a whole. *)
Definition constraint (v : string) : Prop :=
  exists op num,
    v = (op ++ num)%string /\ (op = EmptyString \/ In op operators) /\
    all_chars version_char num = true /\ v <> EmptyString.

(** The specifier trimmed and without its environment marker: what the
    first two statements of [split_dependency] leave in [dep]. *)
Definition without_marker (dep : string) : string :=
  let dep := strip dep in
  if contains ";" dep then strip (fst (split1 ";" dep)) else dep.

Definition split_dependency (dep : string) : string * string :=
  let dep := without_marker dep in
  if contains "@" dep then
    let (package, version) := split1 "@" dep in
    (strip package, ("@ " ++ strip version)%string)
  else
    match re_match_dependency dep with
    | Some (package, g2, g3) =>
        let version_operator := group_or g2 "" in
        let version_number := group_or g3 "" in
        let version := or_else (strip (version_operator ++ version_number)%string) "latest" in
        (package, version)
    | None => (dep, "latest")
    end.

(** ** Extractors *)

(** A [(path, package, version)] row. *)
Definition dependency : Type := string * string * string.

(** The body of a [try] block that appends to [dependencies]: the rows it
    appended and the exception that ended it, if one did.  What was appended
    before the exception stays appended. *)
Definition appending : Type := list dependency * option string.

Definition skip : appending := ([], None).
Definition append (d : dependency) : appending := ([d], None).
Definition raise (msg : string) : appending := ([], Some msg).

Definition and_then (a b : appending) : appending :=
  match a with
  | (ds, Some e) => (ds, Some e)
  | (ds, None) => (ds ++ fst b, snd b)
  end.

Notation "a ;;; b" := (and_then a b) (at level 62, right associativity).

Fixpoint for_appending {A : Type} (f : A -> appending) (l : list A) : appending :=
  match l with
  | [] => skip
  | a :: l' => f a ;;; for_appending f l'
  end.

(** [for x in v: body(x)] where evaluating the iterable may raise. *)
Definition for_iter (v : Py.res (list Yaml.yaml)) (f : Yaml.yaml -> appending) : appending :=
  match v with
  | Py.Return items => for_appending f items
  | Py.Raise msg => raise msg
  end.

(** [split_dependency(v)] on a value of a document: a value that is not a
    string has no [strip]. *)
Definition split_value (env_file : string) (v : Yaml.yaml) : appending :=
  match v with
  | Yaml.YStr s => let (package, version) := split_dependency s in
                   append (env_file, package, version)
  | _ => raise "object has no attribute 'strip'"
  end.

(** [env_data.get("dependencies", [])] *)
Definition get_dependencies (env_data : Yaml.yaml) : Py.res Yaml.yaml :=
  match env_data with
  | Yaml.YDict entries =>
      match Yaml.lookup "dependencies" entries with
      | Some v => Py.Return v
      | None => Py.Return (Yaml.YList [])
      end
  | _ => Py.Raise "object has no attribute 'get'"
  end.

(** The first loop of [get_conda_dependencies]. *)
Definition python_entry (env_file : string) (item : Yaml.yaml) : appending :=
  match item with
  | Yaml.YStr s =>
      if startswith s "python"
      then append (env_file, "python", snd (split_dependency s))
      else skip
  | _ => skip
  end.

(** The second loop of [get_conda_dependencies]. *)
Definition conda_entry (env_file : string) (dep : Yaml.yaml) : appending :=
  match dep with
  | Yaml.YStr s => split_value env_file dep
  | Yaml.YDict entries =>
      match Yaml.lookup "pip" entries with
      | Some pip => for_iter (Yaml.iter pip) (split_value env_file)
      | None => skip
      end
  | _ => skip
  end.

Definition conda_body (env_file : string) (doc : Py.res Yaml.yaml) : appending :=
  match doc with
  | Py.Raise msg => raise msg
  | Py.Return env_data =>
      match get_dependencies env_data with
      | Py.Raise msg => raise msg
      | Py.Return python_version =>
          (match python_version with
           | Yaml.YList items => for_appending (python_entry env_file) items
           | _ => skip
           end) ;;;
          for_iter (Yaml.iter python_version) (conda_entry env_file)
      end
  end.

Definition get_conda_dependencies (env_file : string) (doc : Py.res Yaml.yaml)
  : list dependency :=
  fst (conda_body env_file doc).

(** *** The rows of an environment file, in words

    [claimed_conda_rows] follows the wording of the specification: an entry that
    starts with the python-version marker becomes one synthetic row, every
    other string entry one row, every entry of a [pip:] sub-list one row.
    [conda_rows] is the reading that the extractor bears out: the synthetic
    rows come first, then every string entry gives a row, the entries that
    start with the marker too. *)

Definition row (env_file : string) (s : string) : dependency :=
  (env_file, fst (split_dependency s), snd (split_dependency s)).

Definition python_row (env_file : string) (s : string) : dependency :=
  (env_file, "python", snd (split_dependency s)).

Definition string_rows (env_file : string) (v : Yaml.yaml) : list dependency :=
  match v with Yaml.YStr s => [row env_file s] | _ => [] end.

Definition pip_rows (env_file : string) (entries : list (Yaml.key * Yaml.yaml))
  : list dependency :=
  match Yaml.lookup "pip" entries with
  | Some (Yaml.YList items) => flat_map (string_rows env_file) items
  | _ => []
  end.

Definition claimed_conda_entry (env_file : string) (dep : Yaml.yaml) : list dependency :=
  match dep with
  | Yaml.YStr s =>
      if startswith s "python" then [python_row env_file s] else [row env_file s]
  | Yaml.YDict entries => pip_rows env_file entries
  | _ => []
  end.

Definition claimed_conda_rows (env_file : string) (items : list Yaml.yaml)
  : list dependency :=
  flat_map (claimed_conda_entry env_file) items.

Definition synthetic_rows (env_file : string) (dep : Yaml.yaml) : list dependency :=
  match dep with
  | Yaml.YStr s => if startswith s "python" then [python_row env_file s] else []
  | _ => []
  end.

Definition entry_rows (env_file : string) (dep : Yaml.yaml) : list dependency :=
  match dep with
  | Yaml.YStr s => [row env_file s]
  | Yaml.YDict entries => pip_rows env_file entries
  | _ => []
  end.

Definition conda_rows (env_file : string) (items : list Yaml.yaml) : list dependency :=
  flat_map (synthetic_rows env_file) items ++ flat_map (entry_rows env_file) items.

Definition is_string (v : Yaml.yaml) : bool :=
  match v with Yaml.YStr _ => true | _ => false end.

(** An entry whose [pip] value, if it has one, is a list of strings. *)
Definition plain_entry (dep : Yaml.yaml) : bool :=
  match dep with
  | Yaml.YDict entries =>
      match Yaml.lookup "pip" entries with
      | Some (Yaml.YList items) => forallb is_string items
      | Some _ => false
      | None => true
      end
  | _ => true
  end.

(** An environment file with [python=3.9], [numpy=1.21] and a [pip:]
    sub-list. *)
Definition environment_items : list Yaml.yaml :=
  [ Yaml.YStr "python=3.9"; Yaml.YStr "numpy=1.21";
    Yaml.YDict [ (Yaml.KStr "pip", Yaml.YList [Yaml.YStr "flask==2.0.1"]) ] ].

Definition environment_entries : list (Yaml.key * Yaml.yaml) :=
  [ (Yaml.KStr "name", Yaml.YStr "demo");
    (Yaml.KStr "dependencies", Yaml.YList environment_items) ].

Definition environment_yml : Yaml.yaml := Yaml.YDict environment_entries.

(** The loop of [get_pip_dependencies] over the lines read. *)
Definition pip_line (requirements_file : string) (line : string) : appending :=
  let line := strip line in
  if nonempty line && negb (startswith line "#")
  then let (package, version) := split_dependency line in
       append (requirements_file, package, version)
  else skip.

Definition reading {A : Type} (text : list A * option string) (f : A -> appending)
  : appending :=
  for_appending f (fst text) ;;;
  match snd text with Some msg => raise msg | None => skip end.

Definition get_pip_dependencies (requirements_file : string)
  (text : list string * option string) : list dependency :=
  fst (reading text (pip_line requirements_file)).

(** ** The imports of source files

    [^\s*(?:import|from)\s+([\w\d_\.]+)]: group 1 of the match, or [None]. *)
Definition module_char (c : ascii) : bool :=
  isword c || isdecimal c || Ascii.eqb c "_" || Ascii.eqb c ".".

Definition after_keyword (s : string) : option string :=
  match strip_prefix "import" s with
  | Some r => Some r
  | None => strip_prefix "from" s
  end.

Definition re_match_import (line : string) : option string :=
  match after_keyword (snd (span isspace line)) with
  | None => None
  | Some r =>
      match span isspace r with
      | (EmptyString, _) => None
      | (_, r') =>
          match fst (span module_char r') with
          | EmptyString => None
          | g => Some g
          end
      end
  end.

(** [dependencies.add(d)]; the model lists a set in insertion order, the
    order in which [list(dependencies)] yields it being unspecified. *)
Definition dependency_eqb (a b : dependency) : bool :=
  let '(p, m, v) := a in
  let '(p', m', v') := b in
  String.eqb p p' && String.eqb m m' && String.eqb v v'.

Definition set_add (d : dependency) (s : list dependency) : list dependency :=
  if existsb (dependency_eqb d) s then s else s ++ [d].

(** ** The driver *)

(** An extractor reads the file at [file_path]; it returns rows or raises. *)
Definition extractor : Type := string -> Fs.file -> Py.res (list dependency).

(** The body of an extractor, and what becomes of an exception in it:
    [extract_poetry_lock_dependencies], [extract_pipfile_dependencies],
    [get_conda_dependencies] and [get_pip_dependencies] wrap their body in
    [try: ... except Exception: print(...)] and return the rows appended so
    far; [extract_pyproject_dependencies] and [parse_setup_py] let it
    propagate to the caller. *)
Definition body : Type := string -> Fs.file -> appending.

Inductive handling : Type := catching | propagating.

Definition run (h : handling) (b : body) : extractor :=
  fun file_path f =>
    match h, b file_path f with
    | catching, (rows, _) => Py.Return rows
    | propagating, (rows, None) => Py.Return rows
    | propagating, (_, Some msg) => Py.Raise msg
    end.

Section Driver.

Context (path_join : string -> string -> string).

(** [is_builtin_module] looks at the interpreter and its search path; the
    probe [importlib.util.find_spec] may raise. *)
Context (is_builtin_module : string -> Py.res bool).

(** The bodies of the four extractors that no property below looks into. *)
Context (pyproject_body poetry_lock_body pipfile_body setup_py_body : body).

(** The body of the loop over the lines of one source file. *)
Definition scan_line (file_path python_version : string) (line : string)
  (s : list dependency) : Py.res (list dependency) :=
  match re_match_import line with
  | Some g =>
      let module := fst (split1 "." g) in
      Py.bind (is_builtin_module module)
        (fun builtin =>
           Py.Return (if builtin then s
                      else set_add (file_path, module, python_version) s))
  | None => Py.Return s
  end.

(** The [try] block for one source file: an exception ends the reading of
    the file and leaves in the set what was added. *)
Fixpoint scan_lines (file_path python_version : string) (lines : list string)
  (s : list dependency) : list dependency :=
  match lines with
  | [] => s
  | line :: lines' =>
      match scan_line file_path python_version line s with
      | Py.Return s' => scan_lines file_path python_version lines' s'
      | Py.Raise _ => s
      end
  end.

Definition manifest_path (f : Fs.file) : string :=
  path_join (Fs.f_root f) (Fs.f_name f).

Definition extract_python_file_dependencies (tree : list Fs.file)
  (python_version : string) : list dependency :=
  fold_left
    (fun s f =>
       if endswith (Fs.f_name f) ".py"
       then scan_lines (manifest_path f) python_version (fst (Fs.f_text f)) s
       else s)
    tree [].

(** [f.lower() == filename.lower()] *)
Definition named (filename : string) (f : Fs.file) : bool :=
  String.eqb (lower (Fs.f_name f)) (lower filename).

Definition find_all_files (tree : list Fs.file) (filename : string) : list Fs.file :=
  filter (named filename) tree.

Definition dependency_files : list (string * (handling * body)) :=
  [ ("pyproject.toml", (propagating, pyproject_body));
    ("poetry.lock", (catching, poetry_lock_body));
    ("Pipfile", (catching, pipfile_body));
    ("environment.yml", (catching, fun p f => conda_body p (Fs.f_yaml f)));
    ("requirements.txt", (catching, fun p f => reading (Fs.f_text f) (pip_line p)));
    ("setup.py", (propagating, setup_py_body)) ].

(** [try: all_dependencies.extend(extractor(file_path)) except: print(...)] *)
Definition contribution (ex : extractor) (f : Fs.file) : list dependency :=
  match ex (manifest_path f) f with
  | Py.Return rows => rows
  | Py.Raise _ => []
  end.

Definition manifest_dependencies (tree : list Fs.file) : list dependency :=
  flat_map (fun entry : string * (handling * body) =>
              flat_map (contribution (run (fst (snd entry)) (snd (snd entry))))
                       (find_all_files tree (fst entry)))
           dependency_files.

Definition csv_header : dependency := ("Source Path", "Package", "Version").

(** The table written to [csv_file] and the string returned.  The directory
    [project_path] exists and [tree] is what [os.walk] finds below it. *)
Definition extract_project_dependencies (project_path : string) (tree : list Fs.file)
  : list dependency * string :=
  let all_dependencies :=
    manifest_dependencies tree ++ extract_python_file_dependencies tree "latest" in
  let csv_file := path_join project_path "all_dependencies_with_paths.csv" in
  (csv_header :: all_dependencies,
   ("Dependencies extracted and saved to " ++ csv_file)%string).

(** A manifest file fails to parse: the body of every extractor chosen for
    it by its name ends in an exception before it has appended a row. *)
Definition fails_to_parse (f : Fs.file) : Prop :=
  forall filename h b,
    In (filename, (h, b)) dependency_files ->
    named filename f = true ->
    exists msg, b (manifest_path f) f = ([], Some msg).

End Driver.

End DependencyTools.

(* ================================================================== *)
(** * tools/analyze_python_ast.py *)
(* ================================================================== *)

Module AnalyzePythonAst.
Import PyStr Py Ast.

(** An entry of [visitor.imports]. *)
Record import_entry : Type := {
  im_module : string;
  im_alias : string;
  im_lineno : Z;
  im_code : string
}.

(** An entry of [visitor.usage]: [(full_name, line, code_line)]. *)
Definition usage_entry : Type := string * Z * string.

(** The two lists of an [ImportUsageVisitor]. *)
Record visitor : Type := {
  imports : list import_entry;
  usage : list usage_entry
}.

Definition new_visitor : visitor := {| imports := []; usage := [] |}.

Definition add_import (i : import_entry) (v : visitor) : visitor :=
  {| imports := imports v ++ [i]; usage := usage v |}.

Definition add_usage (u : usage_entry) (v : visitor) : visitor :=
  {| imports := imports v; usage := usage v ++ [u] |}.

(** [alias.asname or alias.name] *)
Definition bound_name (a : alias) : string :=
  match asname a with
  | Some n => or_else n (name a)
  | None => name a
  end.

(** The aliases that an import statement binds, in the order of its names. *)
Definition statement_aliases (n : node) : list string :=
  map bound_name (statement_names n).

(** [f"{module}"] for the [module] of an [ImportFrom], which may be [None]. *)
Definition module_text (module : option string) : string :=
  match module with Some m => m | None => "None" end.

Fixpoint get_full_attribute_name (n : node) : string :=
  match n with
  | Name id => id
  | Attribute _ value attr => (get_full_attribute_name value ++ "." ++ attr)%string
  | _ => ""
  end.

(** The node at which the [while] loop of [visit_Attribute] stops. *)
Fixpoint chain_root (n : node) : node :=
  match n with
  | Attribute _ value _ => chain_root value
  | _ => n
  end.

Definition is_name (n : node) : bool :=
  match n with Name _ => true | _ => false end.

Section Visit.

Context (source_lines : list string).

Definition visit_Import (lineno : Z) (names : list alias) : visitor -> res visitor :=
  for_each
    (fun a v =>
       code_line <- index source_lines (lineno - 1) ;;
       Return (add_import {| im_module := name a; im_alias := bound_name a;
                             im_lineno := lineno; im_code := code_line |} v))
    names.

Definition visit_ImportFrom (lineno : Z) (module : option string) (names : list alias)
  : visitor -> res visitor :=
  for_each
    (fun a v =>
       let full_name := (module_text module ++ "." ++ name a)%string in
       code_line <- index source_lines (lineno - 1) ;;
       Return (add_import {| im_module := full_name; im_alias := bound_name a;
                             im_lineno := lineno; im_code := code_line |} v))
    names.

(** The part of [visit_Call] before [generic_visit]. *)
Definition record_call (lineno : Z) (func : node) (v : visitor) : res visitor :=
  let full_name := get_full_attribute_name func in
  if nonempty full_name then
    code_line <- index source_lines (lineno - 1) ;;
    Return (add_usage (full_name, lineno, code_line) v)
  else Return v.

(** The part of [visit_Attribute] before [generic_visit]. *)
Definition record_attribute (lineno : Z) (n : node) (v : visitor) : res visitor :=
  if is_name (chain_root n) then
    let full_name := get_full_attribute_name n in
    code_line <- index source_lines (lineno - 1) ;;
    Return (add_usage (full_name, lineno, code_line) v)
  else Return v.

(** [visitor.visit(node)].  The children of an [Import] or [ImportFrom] are
    [alias] nodes and that of a [Name] is its context: visiting them changes
    nothing. *)
Fixpoint visit (n : node) (v : visitor) {struct n} : res visitor :=
  match n with
  | Import lineno names => visit_Import lineno names v
  | ImportFrom lineno module names => visit_ImportFrom lineno module names v
  | Call lineno func rest =>
      v1 <- record_call lineno func v ;;
      v2 <- visit func v1 ;;
      for_each visit rest v2
  | Attribute lineno value _ =>
      v1 <- record_attribute lineno n v ;;
      visit value v1
  | Name _ => Return v
  | Other children => for_each visit children v
  end.

End Visit.

(** [v'] holds what [v] holds and what was appended since. *)
Definition extends (v v' : visitor) : Prop :=
  exists ims us, imports v' = imports v ++ ims /\ usage v' = usage v ++ us.

(** [v] with [ims] and [us] appended to its lists. *)
Definition appended (v : visitor) (ims : list import_entry) (us : list usage_entry)
  : visitor :=
  {| imports := imports v ++ ims; usage := usage v ++ us |}.

(** The step appends the same entries whatever the state it starts from. *)
Definition uniform (f : visitor -> res visitor) : Prop :=
  forall v0 w0, f v0 = Return w0 ->
  exists ims us, forall v, f v = Return (appended v ims us).

(** ** Records *)

(** An element of [results]; [r_type] is ["import"], ["usage"] or ["error"]. *)
Record record : Type := {
  r_file : string;
  r_type : string;
  r_symbol : string;
  r_alias : string;
  r_lineno : Z;
  r_code : string
}.

Definition import_record (file_path : string) (alias : string) (imp : import_entry)
  : record :=
  {| r_file := file_path; r_type := "import"; r_symbol := im_module imp;
     r_alias := alias; r_lineno := im_lineno imp; r_code := im_code imp |}.

Definition usage_record (file_path : string) (alias : string) (u : usage_entry)
  : record :=
  let '(symbol, lineno, code) := u in
  {| r_file := file_path; r_type := "usage"; r_symbol := symbol;
     r_alias := alias; r_lineno := lineno; r_code := code |}.

Definition error_record (file_path : string) (msg : string) : record :=
  {| r_file := file_path; r_type := "error"; r_symbol := msg;
     r_alias := ""; r_lineno := (-1)%Z; r_code := "" |}.

(** [{imp['alias']: imp for imp in visitor.imports}] *)
Definition import_map_of (imps : list import_entry) : dict import_entry :=
  fold_left (fun d imp => dict_set (im_alias imp) imp d) imps [].

(** [{alias: [] for alias in import_map}] *)
Definition empty_usage_map (import_map : dict import_entry) : dict (list usage_entry) :=
  map (fun e => (fst e, [])) import_map.

(** [d[k].append(x)] for a key that is present. *)
Fixpoint dict_append {V : Type} (k : string) (x : V) (d : dict (list V))
  : dict (list V) :=
  match d with
  | [] => []
  | (k', l) :: d' =>
      if String.eqb k k' then (k', l ++ [x]) :: d' else (k', l) :: dict_append k x d'
  end.

(** [usage.split('.')[0]] *)
Definition root_name (u : usage_entry) : string := fst (split1 "." (fst (fst u))).

Definition usage_map_of (import_map : dict import_entry) (us : list usage_entry)
  : dict (list usage_entry) :=
  fold_left
    (fun m u => if dict_mem (root_name u) m then dict_append (root_name u) u m else m)
    us (empty_usage_map import_map).

(** [usage_map[alias]] for an alias of [import_map]; the key is always there
    (lemma [usage_map_has_alias]). *)
Definition usages_of (alias : string) (usage_map : dict (list usage_entry))
  : list usage_entry :=
  match dict_get alias usage_map with Some l => l | None => [] end.

(** The records appended for one file whose visit has ended. *)
Definition emit (file_path : string) (v : visitor) : list record :=
  let import_map := import_map_of (imports v) in
  let usage_map := usage_map_of import_map (usage v) in
  flat_map
    (fun e : string * import_entry =>
       let (alias, imp) := e in
       import_record file_path alias imp
       :: map (usage_record file_path alias) (usages_of alias usage_map))
    import_map.

(** The body of the loop of [analyze_repo] for one [.py] file: what it
    appends to [results]. *)
Definition analyze_file (file_path : string) (source : res (list string * node))
  : list record :=
  match (x <- source ;; visit (fst x) (snd x) new_visitor) with
  | Return v => emit file_path v
  | Raise msg => [error_record file_path msg]
  end.

(** ** The order of the records, in words *)

(** The entry is a usage of [alias]: its first dotted component is it. *)
Definition rooted_at (alias : string) (u : usage_entry) : bool :=
  String.eqb (root_name u) alias.

Definition is_usage_of (alias : string) (r : record) : Prop :=
  r_type r = "usage" /\ r_alias r = alias.

(** The records of one import: the import and the usages rooted at its
    alias, in the order in which the visitor met them. *)
Definition group (file_path : string) (us : list usage_entry)
  (e : string * import_entry) : list record :=
  import_record file_path (fst e) (snd e)
  :: map (usage_record file_path (fst e)) (filter (rooted_at (fst e)) us).

Fixpoint ascending (l : list Z) : bool :=
  match l with
  | a :: (b :: _) as t => (a <=? b)%Z && ascending t
  | _ => true
  end.

(** Every import record is immediately followed by a run [us] of usage
    records of its alias, and no other record is a usage of that alias. *)
Definition followed_by_usages (out : list record)
  (run : record -> list record -> Prop) : Prop :=
  forall pre r post,
    out = pre ++ r :: post -> r_type r = "import" ->
    exists us rest,
      post = us ++ rest /\
      Forall (is_usage_of (r_alias r)) us /\
      (forall x, In x pre \/ In x rest -> ~ is_usage_of (r_alias r) x) /\
      run r us.

(** The ordering invariant in the wording of the specification: the run
    is in ascending line order. *)
Definition claimed_ordering (out : list record) : Prop :=
  followed_by_usages out (fun _ us => ascending (map r_lineno us) = true).

Definition is_import (r : record) : bool := String.eqb (r_type r) "import".
Definition is_usage (r : record) : bool := String.eqb (r_type r) "usage".

(** The root of the entry is the alias of a recorded import. *)
Definition known_alias (imps : list import_entry) (u : usage_entry) : bool :=
  existsb (String.eqb (root_name u)) (map im_alias imps).

(** U+274C, the one code point above 255 in the messages, is kept as the
    three bytes of its UTF-8 encoding. *)
Definition cross_mark : string :=
  String (ascii_of_N 226) (String (ascii_of_N 157) (String (ascii_of_N 140) EmptyString)).

Section Scanner.

Context (path_join : string -> string -> string).
Context (normpath : string -> string).

(** [generate_pdf_report(results, project_path, output_file)]: it raises,
    or it returns and the output file exists afterwards or does not. *)
Context (generate_pdf_report : list record -> string -> string -> res bool).

Definition scan_path (f : Fs.file) : string :=
  normpath (path_join (Fs.f_root f) (Fs.f_name f)).

(** [tree] is what [os.walk(repo_path)] finds. *)
Definition analyze_repo (tree : list Fs.file) : list record :=
  flat_map
    (fun f => if endswith (Fs.f_name f) ".py"
              then analyze_file (scan_path f) (Fs.f_ast f)
              else [])
    tree.

(** [tree] is [None] when [project_path] does not exist; [os.walk] then
    finds nothing. *)
Definition walk (tree : option (list Fs.file)) : list Fs.file :=
  match tree with Some fs => fs | None => [] end.

Definition generate_ast_usage_pdf_body (project_path : string)
  (tree : option (list Fs.file)) : res string :=
  match tree with
  | None => Raise ("Project path does not exist: " ++ project_path)%string
  | Some _ =>
      let results := analyze_repo (walk tree) in
      match results with
      | [] => Raise "No Python files or analysis results found in the project path."
      | _ =>
          let output_pdf := path_join project_path "ast_report.pdf" in
          created <- generate_pdf_report results project_path output_pdf ;;
          if created
          then Return ("AST usage report saved to: " ++ output_pdf)%string
          else Raise "PDF file was not created."
      end
  end.

Definition generate_ast_usage_pdf (project_path : string)
  (tree : option (list Fs.file)) : string :=
  match generate_ast_usage_pdf_body project_path tree with
  | Return message => message
  | Raise msg => (cross_mark ++ " Error generating PDF: " ++ msg)%string
  end.

End Scanner.

End AnalyzePythonAst.

(* ================================================================== *)
(** * Sample files *)
(* ================================================================== *)

Module Samples.
Import Py Ast.

Definition plain (n : string) : alias := {| name := n; asname := None |}.

(** A constant, or any other leaf that the visitor has no rule for. *)
Definition leaf : node := Other [].

(** A statement or expression that wraps one child, such as [Expr]. *)
Definition wrap (n : node) : node := Other [n].

(** [import pandas as pd], a call of [pd.read_csv] and the bare attribute
    [pd.DataFrame]. *)
Definition pandas_lines : list string :=
  [ "import pandas as pd"; "pd.read_csv('data.csv')"; "pd.DataFrame" ].

Definition pandas_tree : node :=
  Other [ Import 1 [ {| name := "pandas"; asname := Some "pd" |} ];
          wrap (Call 2 (Attribute 2 (Name "pd") "read_csv") [leaf]);
          wrap (Attribute 3 (Name "pd") "DataFrame") ].

(** A decorated function.  A [FunctionDef] has its fields in the order
    [name], [args], [body], [decorator_list], [returns]: the visitor reaches
    the body, on line 4, before the decorator, on line 2. *)
Definition decorated_lines : list string :=
  [ "import functools"; "@functools.wraps"; "def f():"; "    functools.partial" ].

Definition decorated_tree : node :=
  Other [ Import 1 [ plain "functools" ];
          Other [ Other [];                                           (* args *)
                  wrap (Attribute 4 (Name "functools") "partial");    (* body *)
                  Attribute 2 (Name "functools") "wraps" ] ].         (* decorator_list *)

(** Two statements that bind the same alias. *)
Definition twice_lines : list string := [ "import os"; "import os" ].

Definition twice_body : list node :=
  [ Import 1 [ plain "os" ]; Import 2 [ plain "os" ] ].

(** One statement that names two modules. *)
Definition pair_lines : list string := [ "import os, sys" ].

Definition pair_body : list node := [ Import 1 [ plain "os"; plain "sys" ] ].

(** Three single-name imports and a statement that uses none of them. *)
Definition imports_lines : list string :=
  [ "import os"; "from typing import List as L"; "import sys"; "print('x')" ].

Definition imports_body : list node :=
  [ Import 1 [ plain "os" ];
    ImportFrom 2 (Some "typing") [ {| name := "List"; asname := Some "L" |} ];
    Import 3 [ plain "sys" ];
    wrap (Call 4 (Name "print") [leaf]) ].

(** Path functions for the samples: POSIX [join] of two relative parts and
    a path that [normpath] leaves as it is. *)
Definition join (a b : string) : string := (a ++ "/" ++ b)%string.
Definition same (p : string) : string := p.

Definition no_yaml : res Yaml.yaml := Raise "not read".
Definition no_ast : res (list string * node) := Raise "not read".

Definition source_file (root name : string) (lines : list string) (tree : node)
  : Fs.file :=
  {| Fs.f_root := root; Fs.f_name := name; Fs.f_text := ([], None);
     Fs.f_yaml := no_yaml; Fs.f_ast := Return (lines, tree) |}.

(** A source file that [ast.parse] rejects. *)
Definition broken_source (root name : string) : Fs.file :=
  {| Fs.f_root := root; Fs.f_name := name; Fs.f_text := (["def f(:"], None);
     Fs.f_yaml := no_yaml; Fs.f_ast := Raise "invalid syntax (broken.py, line 1)" |}.

Definition requirements (root : string) (lines : list string) : Fs.file :=
  {| Fs.f_root := root; Fs.f_name := "requirements.txt"; Fs.f_text := (lines, None);
     Fs.f_yaml := no_yaml; Fs.f_ast := no_ast |}.

(** An environment file that [yaml.safe_load] rejects. *)
Definition broken_environment (root : string) : Fs.file :=
  {| Fs.f_root := root; Fs.f_name := "environment.yml"; Fs.f_text := ([], None);
     Fs.f_yaml := Raise "mapping values are not allowed here"; Fs.f_ast := no_ast |}.

(** A requirements file of which the reader yields [lines] and then fails
    to decode what follows. *)
Definition half_read_requirements (root : string) (lines : list string) : Fs.file :=
  {| Fs.f_root := root; Fs.f_name := "requirements.txt";
     Fs.f_text := (lines, Some "'utf-8' codec can't decode byte 0xff");
     Fs.f_yaml := no_yaml; Fs.f_ast := no_ast |}.

Definition no_rows : DependencyTools.body := fun _ _ => DependencyTools.skip.

(** A line end. *)
Definition nl : string := String (ascii_of_N 10) EmptyString.

(** The lines of a requirements file: a pin, a comment, a blank line and
    a bare name. *)
Definition requirements_lines : list string :=
  [ ("flask==2.0.1" ++ nl)%string; ("# comment" ++ nl)%string; nl;
    ("requests" ++ nl)%string ].

Definition never_builtin (m : string) : res bool := Return false.

End Samples.

(* ================================================================== *)
(** * Shapes of specifiers and of import lines *)
(* ================================================================== *)

Module Formats.
Import PyStr DependencyTools.

(** The bracketed list of extras of a specifier, when it has one. *)
Definition extras_text (extras : option string) : string :=
  match extras with
  | Some ex => ("[" ++ ex ++ "]")%string
  | None => EmptyString
  end.

(** A character of an extras list that neither closes the list nor sends
    the splitter to its marker or reference branch. *)
Definition extras_char (c : ascii) : bool :=
  negb (Ascii.eqb c "]") && negb (Ascii.eqb c "@") && negb (Ascii.eqb c ";").

Definition plain_extras (extras : option string) : bool :=
  match extras with
  | Some ex => nonempty ex && all_chars extras_char ex
  | None => true
  end.

(** [s] is empty or its first character fails [p]. *)
Definition stops (p : ascii -> bool) (s : string) : bool :=
  match s with
  | EmptyString => true
  | String c _ => negb (p c)
  end.

(** [s] has a first character and it satisfies [p]. *)
Definition starts_with_char (p : ascii -> bool) (s : string) : bool :=
  match s with
  | EmptyString => false
  | String c _ => p c
  end.

(** The characters that open an operator. *)
Definition operator_char (c : ascii) : bool :=
  Ascii.eqb c "=" || Ascii.eqb c ">" || Ascii.eqb c "<" || Ascii.eqb c "~".

Definition blank_or_operator (c : ascii) : bool := isspace c || operator_char c.
Definition blank_or_version (c : ascii) : bool := isspace c || version_char c.

(** A line of a requirements file that gives a row: not blank, no comment. *)
Definition is_requirement (line : string) : bool :=
  nonempty (strip line) && negb (startswith (strip line) "#").

End Formats.

(* ================================================================== *)
(** * What a row of the table holds *)
(* ================================================================== *)

Module Rows.
Import PyStr DependencyTools.

Definition row_path (r : dependency) : string := fst (fst r).
Definition row_package (r : dependency) : string := snd (fst r).
Definition row_version (r : dependency) : string := snd r.

(** A row of the file at [path] with a version that is not empty. *)
Definition row_of (path : string) (r : dependency) : Prop :=
  row_path r = path /\ row_version r <> EmptyString.

(** Every row that the computation appended satisfies [P]. *)
Definition keeps (P : dependency -> Prop) (a : appending) : Prop := Forall P (fst a).

Section Scan.

Context (path_join : string -> string -> string).
Context (is_builtin_module : string -> Py.res bool).

(** A row of the line scan: the first dotted component of what follows
    [import] or [from] on a line of a [.py] file of the tree, for a module
    that the probe does not take for a builtin. *)
Definition scanned (tree : list Fs.file) (python_version : string) (r : dependency)
  : Prop :=
  exists f line g,
    In f tree /\ endswith (Fs.f_name f) ".py" = true /\
    In line (fst (Fs.f_text f)) /\
    re_match_import line = Some g /\
    is_builtin_module (fst (split1 "." g)) = Py.Return false /\
    r = (manifest_path path_join f, fst (split1 "." g), python_version).

(** The line is not an import line, or the probe of its module returns. *)
Definition probed (line : string) : Prop :=
  match re_match_import line with
  | Some g => exists builtin, is_builtin_module (fst (split1 "." g)) = Py.Return builtin
  | None => True
  end.

End Scan.

(** The file with [lines] for the lines that are read from it. *)
Definition with_lines (lines : list string) (f : Fs.file) : Fs.file :=
  {| Fs.f_root := Fs.f_root f; Fs.f_name := Fs.f_name f;
     Fs.f_text := (lines, snd (Fs.f_text f));
     Fs.f_yaml := Fs.f_yaml f; Fs.f_ast := Fs.f_ast f |}.

End Rows.

(* ================================================================== *)
(** * Aliases and attribute chains *)
(* ================================================================== *)

Module Chains.
Import PyStr Py Ast AnalyzePythonAst.

(** The elements of a list without their repetitions, each at the place
    where it comes first. *)
Fixpoint distinct (l : list string) : list string :=
  match l with
  | [] => []
  | x :: l' => x :: filter (fun y => negb (String.eqb y x)) (distinct l')
  end.

(** The last entry of [visitor.imports] that binds [alias]. *)
Definition last_import (alias : string) (imps : list import_entry)
  : option import_entry :=
  find (fun i => String.eqb (im_alias i) alias) (rev imps).

(** The expression [id.a1. ... .an], given its attributes from the last,
    [an], to the first, [a1], each with the line of its [Attribute] node. *)
Fixpoint chain_of (id : string) (attrs : list (Z * string)) : node :=
  match attrs with
  | [] => Name id
  | (lineno, attr) :: inner => Attribute lineno (chain_of id inner) attr
  end.

(** The list and its tails that are not empty, longest first. *)
Fixpoint tails {A : Type} (l : list A) : list (list A) :=
  match l with
  | [] => []
  | x :: l' => (x :: l') :: tails l'
  end.

Definition usage_symbol (u : usage_entry) : string := fst (fst u).
Definition usage_line (u : usage_entry) : Z := snd (fst u).

(** Every line number of the chain is that of a line of the source. *)
Definition lines_exist (lines : list string) (attrs : list (Z * string)) : Prop :=
  Forall (fun la => exists c, index lines (fst la - 1) = Return c) attrs.

(** The file is a [.py] file that is read, parsed and visited without an
    exception and imports nothing. *)
Definition import_free (f : Fs.file) : Prop :=
  exists lines tree v,
    Fs.f_ast f = Return (lines, tree) /\
    visit lines tree new_visitor = Return v /\
    imports v = [].

End Chains.

(* ================================================================== *)
(** * More sample files *)
(* ================================================================== *)

Module MoreSamples.
Import Py Ast Samples.

(** A script that calls a builtin and imports nothing. *)
Definition script_lines : list string := [ "print('x')" ].

Definition script_tree : node := Other [ wrap (Call 1 (Name "print") [leaf]) ].

(** Two imports that bind the same alias around one that does not. *)
Definition rebound_lines : list string :=
  [ "import json as j"; "import os"; "import simplejson as j" ].

Definition rebound_tree : node :=
  Other [ Import 1 [ {| name := "json"; asname := Some "j" |} ];
          Import 2 [ plain "os" ];
          Import 3 [ {| name := "simplejson"; asname := Some "j" |} ] ].

(** The bare attribute chain [os.path.sep] on one line. *)
Definition chain_lines : list string := [ "import os"; "os.path.sep" ].

(** A file of which only the lines are read. *)
Definition text_file (root name : string) (lines : list string) : Fs.file :=
  {| Fs.f_root := root; Fs.f_name := name; Fs.f_text := (lines, None);
     Fs.f_yaml := no_yaml; Fs.f_ast := no_ast |}.

(** A probe that knows [os] for a builtin, and one that raises as
    [find_spec] does for [__main__]. *)
Definition os_is_builtin (m : string) : res bool := Return (String.eqb m "os").

Definition main_has_no_spec (m : string) : res bool :=
  if String.eqb m "__main__" then Raise "__main__.__spec__ is None"
  else Return false.

Definition app_lines : list string :=
  [ ("import os" ++ nl)%string; "import requests.adapters" ].

Definition main_lines : list string :=
  [ ("import numpy" ++ nl)%string; ("import __main__" ++ nl)%string;
    "import requests" ].

End MoreSamples.

(* ================================================================== *)
(** * tools/analyze_python_ast.py: the report *)
(* ================================================================== *)

From Stdlib Require DecimalString.

Module Report.
Import PyStr Py AnalyzePythonAst.

(** [str(n)] for an [int]. *)
Definition str_int (n : Z) : string :=
  DecimalString.NilZero.string_of_int (Z.to_int n).

(** [s.replace(c, t)] for a one-character [c]. *)
Fixpoint replace_char (c : ascii) (t : string) (s : string) : string :=
  match s with
  | EmptyString => EmptyString
  | String a r =>
      if Ascii.eqb a c then (t ++ replace_char c t r)%string
      else String a (replace_char c t r)
  end.

Definition backslash : ascii := ascii_of_N 92.

(** A Python [str] by its code points, of any size: the texts of a report
    may leave Latin-1. *)
Definition text : Type := list N.

(** The code points of a string of the model, each below 256. *)
Fixpoint code_points (s : string) : text :=
  match s with
  | EmptyString => []
  | String a r => N_of_ascii a :: code_points r
  end.

(** [text.replace('\t', '    ')] *)
Definition replace_tabs (t : text) : text :=
  flat_map (fun c => if (c =? 9)%N then [32; 32; 32; 32]%N else [c]) t.

(** [text.encode("latin-1", errors="replace").decode("latin-1")]: a code
    point above 255 has no Latin-1 byte and becomes [?]. *)
Definition latin1_char (c : N) : ascii :=
  if (c <? 256)%N then ascii_of_N c else "?"%char.

Fixpoint latin1 (t : text) : string :=
  match t with
  | [] => EmptyString
  | c :: r => String (latin1_char c) (latin1 r)
  end.

(** [safe_text(text)]; [str(text)] is [text] for the strings it is given. *)
Definition safe_text (t : text) : string := latin1 (replace_tabs t).

(** ** [load_dependency_versions_with_resolution]

    [table] is what [pd.read_csv] returns or raises: for each row, its
    [Package] cell, a string, and [str] of its [Version] cell.
    [metadata_version] is [importlib.metadata.version]: [Return (Some v)]
    when it returns [v], [Return None] when it raises
    [PackageNotFoundError], [Raise] for any other exception. *)

Definition sentinels : list string := [ "latest"; "python"; "" ].

Section Versions.

Context (metadata_version : string -> res (option string)).

Definition resolve_row (row : string * string) (resolved_versions : dict string)
  : res (dict string) :=
  let (package, version_cell) := row in
  let version := lower (strip version_cell) in
  if existsb (String.eqb version) sentinels then
    found <- metadata_version package ;;
    Return (dict_set package
              (match found with Some v => v | None => "latest" end)
              resolved_versions)
  else Return (dict_set package version resolved_versions).

Definition load_dependency_versions_with_resolution
  (table : res (list (string * string))) : res (dict string) :=
  rows <- table ;; for_each resolve_row rows [].

End Versions.

(** ** [generate_pdf_report]: the calls made on the [FPDF] object *)

Inductive call : Type :=
| add_page
| set_font (family style : string) (size : Z)
| set_text_color (r g b : Z)
| cell (w h : Z) (txt : string)          (* [cell(w, h, txt, ln=True)] *)
| multi_cell (w h : Z) (txt : string)
| ln (h : Z)
| output (name : string).

Section Draw.

Context (dependency_versions : dict string).

(** [dependency_versions.get(package, "unknown")] *)
Definition version_of (package : string) : string :=
  match dict_get package dependency_versions with
  | Some v => v
  | None => "unknown"
  end.

(** What the outer loop draws for an import record. *)
Definition heading (count : Z) (item : record) : list call :=
  let symbol := safe_text (code_points (r_symbol item)) in
  let package := fst (split1 "." symbol) in
  let version := version_of package in
  let path := replace_char backslash "/" (safe_text (code_points (r_file item))) in
  [ set_font "Arial" "B" 11;
    set_text_color 0 0 255;
    cell 0 7 (str_int count ++ ". " ++ symbol ++ " (version: " ++ version ++ ")");
    set_font "Arial" "" 10;
    set_text_color 0 0 0;
    cell 0 6 ("File Path: " ++ path);
    cell 0 6 "Type: IMPORT";
    cell 0 6 ("Line: " ++ str_int (r_lineno item));
    cell 0 6 ("Code: " ++ safe_text (code_points (r_code item)));
    ln 1 ].

Definition usage_header (usage_count : Z) : list call :=
  if (usage_count =? 0)%Z then [ set_font "Arial" "B" 10; cell 0 6 "USAGE" ] else [].

Definition usage_cells (u : record) : list call :=
  [ set_font "Arial" "" 10;
    cell 0 6 ("Line: " ++ str_int (r_lineno u));
    cell 0 6 ("Code: " ++ safe_text (code_points (r_code u)));
    ln 1 ].

(** The condition of the inner [while] on the record at [j]. *)
Definition continues (item u : record) : bool :=
  String.eqb (r_type u) "usage" && String.eqb (r_alias u) (r_alias item).

(** The inner [while] loop from [results[j:]], then [pdf.ln(2)] and the
    rest of the outer loop, [continue], from where the inner loop stopped. *)
Definition usage_run (item : record) (continue : list record -> list call)
  : Z -> list record -> list call :=
  fix inner (usage_count : Z) (js : list record) {struct js} : list call :=
    match js with
    | u :: js' =>
        if continues item u
        then usage_header usage_count ++ usage_cells u
             ++ inner (if (usage_count =? 0)%Z then (usage_count + 1)%Z else usage_count) js'
        else ln 2 :: continue js
    | [] => [ ln 2 ]      (* [j = len(results)]: both loops end *)
    end.

(** The outer [while] loop from [results[i:]]. *)
Fixpoint report_loop (count : Z) (results : list record) {struct results} : list call :=
  match results with
  | [] => []
  | item :: rest =>
      if String.eqb (r_type item) "import"
      then heading count item ++ usage_run item (report_loop (count + 1)) 0 rest
      else report_loop count rest
  end.

(** An import record with the usage records listed under it. *)
Definition section : Type := record * list record.

Definition usage_block (us : list record) : list call :=
  match us with
  | [] => []
  | _ => usage_header 0 ++ flat_map usage_cells us
  end.

(** The drawing of numbered sections. *)
Fixpoint draw_sections (count : Z) (sections : list section) : list call :=
  match sections with
  | [] => []
  | (item, us) :: sections' =>
      heading count item ++ usage_block us ++ ln 2
      :: draw_sections (count + 1) sections'
  end.

End Draw.

(** [generate_pdf_report(results, project_path, output_file)], given the
    table read from the CSV file of the project: the calls on the [FPDF]
    object, in order. *)
Definition generate_pdf_report (metadata_version : string -> res (option string))
  (table : res (list (string * string))) (results : list record)
  (output_file : string) : res (list call) :=
  dependency_versions <- load_dependency_versions_with_resolution metadata_version table ;;
  Return ([ add_page;
            set_font "Arial" "B" 14;
            cell 0 10 "SCA Report";
            set_font "Arial" "" 11;
            multi_cell 0 7 "Static analysis of Python imports and their usage.";
            ln 5 ]
          ++ report_loop dependency_versions 1 results
          ++ [ output output_file ]).

(** The sections that the records of a file stand for: one for each
    import record, with the usage records of its alias. *)
Definition file_sections (file_path : string) (source : res (list string * Ast.node))
  : list section :=
  match (x <- source ;; visit (fst x) (snd x) new_visitor) with
  | Return v =>
      map (fun e : string * import_entry =>
             (import_record file_path (fst e) (snd e),
              map (usage_record file_path (fst e))
                  (filter (rooted_at (fst e)) (usage v))))
          (import_map_of (imports v))
  | Raise _ => []
  end.

Definition repo_sections (path_join : string -> string -> string)
  (normpath : string -> string) (tree : list Fs.file) : list section :=
  flat_map (fun f => if endswith (Fs.f_name f) ".py"
                     then file_sections (scan_path path_join normpath f) (Fs.f_ast f)
                     else [])
           tree.

(** The records of sections, one section after the other. *)
Definition section_records (sections : list section) : list record :=
  flat_map (fun s : section => fst s :: snd s) sections.

(** A section as the scanner makes them: an import record and usage records
    of its alias. *)
Definition well_grouped (s : section) : Prop :=
  r_type (fst s) = "import" /\ Forall (fun u => continues (fst s) u = true) (snd s).

(** The list is empty or starts with a record that is not a usage record. *)
Definition starts_clean (l : list record) : Prop :=
  match l with
  | [] => True
  | r :: _ => r_type r <> "usage"
  end.

(** The last row of the table for a package, and the version that the
    loader keeps for a row. *)
Definition last_row (package : string) (rows : list (string * string))
  : option (string * string) :=
  find (fun row => String.eqb (fst row) package) (rev rows).

Definition kept_version (metadata_version : string -> res (option string))
  (row : string * string) : string :=
  let version := lower (strip (snd row)) in
  if existsb (String.eqb version) sentinels then
    match metadata_version (fst row) with
    | Return (Some installed) => installed
    | _ => "latest"
    end
  else version.

End Report.

(* ================================================================== *)
(** * The model at work *)
(* ================================================================== *)

Module Checks.
Import PyStr Py Ast DependencyTools AnalyzePythonAst Samples.

Example split_with_extras_and_marker :
  split_dependency "requests[security] >= 2.0 ; python_version < '3'"
  = ("requests", ">=2.0").
Proof. reflexivity. Qed.

Example split_compatible_release :
  split_dependency "  django~=4.2  " = ("django", "~=4.2").
Proof. reflexivity. Qed.

Example split_single_equals : split_dependency "python=3.9" = ("python", "latest").
Proof. reflexivity. Qed.

Example split_nothing : split_dependency "" = ("", "latest").
Proof. reflexivity. Qed.

Example requirements_rows :
  get_pip_dependencies "requirements.txt" (requirements_lines, None)
  = [ ("requirements.txt", "flask", "==2.0.1");
      ("requirements.txt", "requests", "latest") ].
Proof. reflexivity. Qed.

Example import_line : re_match_import "  from os.path import join" = Some "os.path".
Proof. reflexivity. Qed.

Example importlib_line : re_match_import "importlib.reload(m)" = None.
Proof. reflexivity. Qed.

Example pipfile_is_found : lower "Pipfile" = lower "PIPFILE".
Proof. reflexivity. Qed.

Example last_line : index ["a"; "b"; "c"] (-1) = Return "c".
Proof. reflexivity. Qed.

Example past_the_end : index ["a"; "b"; "c"] 3 = @Raise string "list index out of range".
Proof. reflexivity. Qed.

Example relative_import :
  analyze_file "pkg/m.py"
    (Return (["from . import x"], Other [ImportFrom 1 None [plain "x"]]))
  = [ {| r_file := "pkg/m.py"; r_type := "import"; r_symbol := "None.x";
         r_alias := "x"; r_lineno := 1; r_code := "from . import x" |} ].
Proof. reflexivity. Qed.

Example line_out_of_range :
  analyze_file "m.py" (Return (["import os"], Other [Import 7 [plain "os"]]))
  = [ error_record "m.py" "list index out of range" ].
Proof. reflexivity. Qed.

(** The fourth and fifth extractors of [dependency_files] are
    [get_conda_dependencies] and [get_pip_dependencies]. *)
Example run_conda_body (p : string) (f : Fs.file) :
  run catching (fun p f => conda_body p (Fs.f_yaml f)) p f
  = Return (get_conda_dependencies p (Fs.f_yaml f)).
Proof.
  unfold run, get_conda_dependencies. now destruct (conda_body p (Fs.f_yaml f)).
Qed.

Example run_pip_body (p : string) (f : Fs.file) :
  run catching (fun p f => reading (Fs.f_text f) (pip_line p)) p f
  = Return (get_pip_dependencies p (Fs.f_text f)).
Proof.
  unfold run, get_pip_dependencies.
  now destruct (reading (Fs.f_text f) (pip_line p)).
Qed.

End Checks.

(* ================================================================== *)
(** * Properties of Python strings *)
(* ================================================================== *)

Module PyStrFacts.
Import PyStr.

Ltac each_char c :=
  destruct c as [[] [] [] [] [] [] [] []]; vm_compute; try reflexivity; try discriminate.

Lemma eqb_char_eq (a b : ascii) : Ascii.eqb a b = true -> a = b.
Proof. apply Ascii.eqb_eq. Qed.

Lemma all_chars_app (p : ascii -> bool) (s t : string) :
  all_chars p (s ++ t) = all_chars p s && all_chars p t.
Proof.
  induction s as [|c s IH]; simpl; [reflexivity|].
  now rewrite IH, andb_assoc.
Qed.

Lemma all_chars_impl (p q : ascii -> bool) (s : string) :
  (forall c, p c = true -> q c = true) ->
  all_chars p s = true -> all_chars q s = true.
Proof.
  intros Hpq. induction s as [|c s IH]; simpl; [reflexivity|].
  intros H. apply andb_true_iff in H as [Hc Hs].
  now rewrite (Hpq _ Hc), (IH Hs).
Qed.

Lemma contains_false_of_all (p : ascii -> bool) (c : ascii) (s : string) :
  p c = false -> all_chars p s = true -> contains c s = false.
Proof.
  intros Hc. induction s as [|a s IH]; simpl; [reflexivity|].
  intros H. apply andb_true_iff in H as [Ha Hs].
  rewrite (IH Hs), orb_false_r.
  destruct (Ascii.eqb a c) eqn:E; [|reflexivity].
  apply eqb_char_eq in E. congruence.
Qed.

(** ** [span] *)

Lemma span_app (p : ascii -> bool) (s : string) :
  (fst (span p s) ++ snd (span p s))%string = s.
Proof.
  induction s as [|c s IH]; simpl; [reflexivity|].
  destruct (p c); [|reflexivity].
  destruct (span p s) as [l r]; simpl in *. now rewrite IH.
Qed.

Lemma span_all (p : ascii -> bool) (s : string) :
  all_chars p (fst (span p s)) = true.
Proof.
  induction s as [|c s IH]; simpl; [reflexivity|].
  destruct (p c) eqn:E; [|reflexivity].
  destruct (span p s) as [l r]; simpl in *. now rewrite E, IH.
Qed.

Lemma span_whole (p : ascii -> bool) (s : string) :
  all_chars p s = true -> span p s = (s, EmptyString).
Proof.
  induction s as [|c s IH]; simpl; [reflexivity|].
  intros H. apply andb_true_iff in H as [Hc Hs].
  now rewrite Hc, (IH Hs).
Qed.

(** ** [split1] *)

Lemma split1_app (c : ascii) (s : string) :
  contains c s = true ->
  s = (fst (split1 c s) ++ String c (snd (split1 c s)))%string.
Proof.
  induction s as [|a s IH]; simpl; [discriminate|].
  destruct (Ascii.eqb a c) eqn:E; simpl.
  - intros _. apply eqb_char_eq in E. now subst.
  - intros H. destruct (split1 c s) as [l r]; simpl in *. now rewrite <- (IH H).
Qed.

Lemma split1_first (c : ascii) (s : string) :
  contains c (fst (split1 c s)) = false.
Proof.
  induction s as [|a s IH]; simpl; [reflexivity|].
  destruct (Ascii.eqb a c) eqn:E; simpl; [reflexivity|].
  destruct (split1 c s) as [l r]; simpl in *. now rewrite E, IH.
Qed.

Lemma split1_absent (c : ascii) (s : string) :
  contains c s = false -> fst (split1 c s) = s.
Proof.
  induction s as [|a s IH]; simpl; [reflexivity|].
  destruct (Ascii.eqb a c); simpl; [discriminate|].
  intros H. destruct (split1 c s) as [l r]; simpl in *. now rewrite (IH H).
Qed.

Lemma split1_before (c : ascii) (s t : string) :
  contains c s = false -> fst (split1 c (s ++ String c t)) = s.
Proof.
  induction s as [|a s IH]; simpl.
  - now rewrite Ascii.eqb_refl.
  - destruct (Ascii.eqb a c); [discriminate|]. simpl. intros H.
    destruct (split1 c (s ++ String c t)) as [l r]; simpl in *. now rewrite (IH H).
Qed.

Lemma append_assoc (s t u : string) : ((s ++ t) ++ u = s ++ (t ++ u))%string.
Proof. induction s as [|a s IH]; simpl; [reflexivity|now rewrite IH]. Qed.

(** ** [strip] *)

Lemma contains_lstrip (c : ascii) (s : string) :
  isspace c = false -> contains c (lstrip s) = contains c s.
Proof.
  intros Hc. induction s as [|a s IH]; simpl; [reflexivity|].
  destruct (isspace a) eqn:Ea; [|reflexivity].
  rewrite IH. destruct (Ascii.eqb a c) eqn:E; [|reflexivity].
  apply eqb_char_eq in E. congruence.
Qed.

Lemma contains_rstrip (c : ascii) (s : string) :
  isspace c = false -> contains c (rstrip s) = contains c s.
Proof.
  intros Hc. induction s as [|a s IH]; simpl; [reflexivity|].
  rewrite <- IH.
  destruct (rstrip s) as [|b t] eqn:Er; [|reflexivity].
  destruct (isspace a) eqn:Ea; simpl; [|reflexivity].
  destruct (Ascii.eqb a c) eqn:E; [|reflexivity].
  apply eqb_char_eq in E. congruence.
Qed.

Lemma contains_strip (c : ascii) (s : string) :
  isspace c = false -> contains c (strip s) = contains c s.
Proof.
  intros Hc. unfold strip. now rewrite contains_rstrip, contains_lstrip.
Qed.

Lemma lstrip_no_space (s : string) :
  all_chars not_space s = true -> lstrip s = s.
Proof.
  destruct s as [|a s]; simpl; [reflexivity|].
  unfold not_space at 1. destruct (isspace a); [discriminate|reflexivity].
Qed.

Lemma rstrip_no_space (s : string) :
  all_chars not_space s = true -> rstrip s = s.
Proof.
  induction s as [|a s IH]; simpl; [reflexivity|].
  intros H. apply andb_true_iff in H as [Ha Hs].
  rewrite (IH Hs). unfold not_space in Ha.
  destruct s; [|reflexivity].
  now destruct (isspace a).
Qed.

Lemma strip_no_space (s : string) :
  all_chars not_space s = true -> strip s = s.
Proof.
  intros H. unfold strip. now rewrite (lstrip_no_space _ H), (rstrip_no_space _ H).
Qed.

End PyStrFacts.

(* ================================================================== *)
(** * The dependency-spec splitter *)
(* ================================================================== *)

Module SplitDependency.
Import PyStr PyStrFacts DependencyTools.

Lemma name_char_not_space (c : ascii) : name_char c = true -> not_space c = true.
Proof. each_char c. Qed.

Lemma version_char_not_space (c : ascii) : version_char c = true -> not_space c = true.
Proof. each_char c. Qed.

Lemma without_marker_plain (dep : string) :
  contains ";" dep = false -> without_marker dep = strip dep.
Proof.
  intros H. unfold without_marker.
  now rewrite (contains_strip ";" dep eq_refl), H.
Qed.

(** What group 2 can be: one of the six operators. *)
Lemma match_operator_in (ops : list string) (s : string) (op : string) :
  fst (match_operator ops s) = Some op -> In op ops.
Proof.
  induction ops as [|o ops IH]; simpl; [discriminate|].
  destruct (strip_prefix o s); simpl.
  - intros [= ->]. now left.
  - intros H. right. now apply IH.
Qed.

Lemma operator_no_space (op : string) :
  In op operators -> all_chars not_space op = true.
Proof.
  unfold operators. simpl.
  intros [<-|[<-|[<-|[<-|[<-|[<-|[]]]]]]]; reflexivity.
Qed.

Lemma version_of_groups (g2 : option string) (r : string) :
  (forall op, g2 = Some op -> In op operators) ->
  let g3 := match fst (span version_char r) with
            | EmptyString => None
            | v => Some v
            end in
  let v := or_else (strip (group_or g2 "" ++ group_or g3 "")%string) "latest" in
  v = "latest" \/ constraint v.
Proof.
  intros Hop g3 v.
  set (op := group_or g2 "") in *. set (num := group_or g3 "") in *.
  assert (Hop' : op = EmptyString \/ In op operators).
  { subst op. destruct g2 as [o|]; simpl; [|now left].
    right. destruct o; simpl; [|now apply Hop].
    exfalso. specialize (Hop _ eq_refl). unfold operators in Hop. simpl in Hop.
    intuition discriminate. }
  assert (Hnum : all_chars version_char num = true).
  { subst num g3. pose proof (span_all version_char r) as H.
    destruct (fst (span version_char r)) as [|c t]; simpl; [reflexivity|].
    exact H. }
  assert (Hns : all_chars not_space (op ++ num) = true).
  { rewrite all_chars_app. apply andb_true_iff. split.
    - destruct Hop' as [->|Hin]; [reflexivity|now apply operator_no_space].
    - eapply all_chars_impl; [apply version_char_not_space|exact Hnum]. }
  subst v. rewrite (strip_no_space _ Hns).
  destruct (op ++ num)%string as [|c t] eqn:E; simpl; [now left|].
  right. exists op, num. rewrite E. repeat split; try assumption. discriminate.
Qed.

Lemma re_match_groups (dep p : string) (g2 g3 : option string) :
  re_match_dependency dep = Some (p, g2, g3) ->
  (forall op, g2 = Some op -> In op operators) /\
  exists r, g3 = match fst (span version_char r) with
                 | EmptyString => None
                 | v => Some v
                 end.
Proof.
  unfold re_match_dependency.
  destruct (span name_char dep) as [g1 r1].
  destruct g1 as [|c g1]; [discriminate|].
  remember (snd (span isspace (skip_extras r1))) as r3 eqn:E3.
  destruct (match_operator operators r3) as [o r4] eqn:E2.
  intros [= _ <- <-]. split.
  - intros op ->. apply (match_operator_in operators r3). now rewrite E2.
  - now exists (snd (span isspace r4)).
Qed.

(** C1.  The splitter returns [("name", "==1.2.3")] for ["name==1.2.3"],
    [("name", "latest")] for ["name"] and [("pkg", "@ git+https://x")] for
    ["pkg @ git+https://x"].  Whenever the specifier, once trimmed and freed
    of its environment marker, contains ['@'], it is split once, at its
    first ['@']: the trimmed left side is the package and the version is
    ["@ "] followed by the trimmed right side.  A specifier without [';']
    has no marker to remove: it is tested as it is. *)
Theorem split_dependency_reference :
  split_dependency "name==1.2.3" = ("name", "==1.2.3") /\
  split_dependency "name" = ("name", "latest") /\
  split_dependency "pkg @ git+https://x" = ("pkg", "@ git+https://x") /\
  (forall dep,
     contains "@" (without_marker dep) = true ->
     exists l r,
       without_marker dep = (l ++ "@" ++ r)%string /\
       contains "@" l = false /\
       split_dependency dep = (strip l, ("@ " ++ strip r)%string)) /\
  (forall dep,
     contains ";" dep = false ->
     without_marker dep = strip dep /\
     contains "@" (without_marker dep) = contains "@" dep).
Proof.
  repeat split; try reflexivity.
  - intros dep H.
    exists (fst (split1 "@" (without_marker dep))), (snd (split1 "@" (without_marker dep))).
    split; [|split].
    + exact (split1_app "@" _ H).
    + apply split1_first.
    + unfold split_dependency. rewrite H.
      now destruct (split1 "@" (without_marker dep)).
  - now apply without_marker_plain.
  - rewrite (without_marker_plain _ H). now apply contains_strip.
Qed.

Lemma split_dependency_reference_witness :
  (contains "@" (without_marker "requests @ https://host/r.zip ; extra == 'x'") = true /\
   exists l r,
     without_marker "requests @ https://host/r.zip ; extra == 'x'" = (l ++ "@" ++ r)%string /\
     contains "@" l = false /\
     split_dependency "requests @ https://host/r.zip ; extra == 'x'"
     = (strip l, ("@ " ++ strip r)%string)) /\
  (contains ";" " pkg@1.0 " = false /\
   without_marker " pkg@1.0 " = strip " pkg@1.0 " /\
   contains "@" (without_marker " pkg@1.0 ") = contains "@" " pkg@1.0 ").
Proof.
  split; (split; [reflexivity|]).
  - apply (proj1 (proj2 (proj2 (proj2 split_dependency_reference)))).
    reflexivity.
  - apply (proj2 (proj2 (proj2 (proj2 split_dependency_reference)))).
    reflexivity.
Defined.

(** C10.  The version that the splitter returns is never empty: it is
    ["latest"], or it begins with ["@ "], or it is a non-empty constraint
    made of an optional operator and version characters.  A specifier that
    is a bare name yields ["latest"]. *)
Theorem split_dependency_version_not_empty (dep : string) :
  let v := snd (split_dependency dep) in
  v <> EmptyString /\
  (v = "latest" \/ startswith v "@ " = true \/ constraint v) /\
  (dep <> EmptyString -> all_chars name_char dep = true ->
   split_dependency dep = (dep, "latest")).
Proof.
  assert (Hshape : let v := snd (split_dependency dep) in
                   v = "latest" \/ startswith v "@ " = true \/ constraint v).
  { unfold split_dependency.
    destruct (contains "@" (without_marker dep)).
    - destruct (split1 "@" (without_marker dep)) as [l r]. simpl. right. now left.
    - destruct (re_match_dependency (without_marker dep)) as [[[p g2] g3]|] eqn:E;
        [|now left].
      destruct (re_match_groups _ _ _ _ E) as (Hop & r & ->).
      destruct (version_of_groups g2 r Hop) as [H|H]; [now left|right; now right]. }
  simpl in *. split; [|split].
  - destruct Hshape as [H|[H|(op & num & _ & _ & _ & H)]].
    + rewrite H. discriminate.
    + intros E. rewrite E in H. discriminate.
    + exact H.
  - exact Hshape.
  - intros Hne Hall.
    assert (Hns : all_chars not_space dep = true)
      by (eapply all_chars_impl; [apply name_char_not_space|exact Hall]).
    assert (Hwm : without_marker dep = dep).
    { rewrite without_marker_plain.
      - now apply strip_no_space.
      - now apply (contains_false_of_all name_char). }
    unfold split_dependency. rewrite Hwm.
    rewrite (contains_false_of_all name_char "@" dep eq_refl Hall).
    unfold re_match_dependency. rewrite (span_whole _ _ Hall).
    destruct dep as [|c dep]; [congruence|reflexivity].
Qed.

Lemma split_dependency_version_not_empty_witness :
  "requests" <> EmptyString /\ all_chars name_char "requests" = true /\
  split_dependency "requests" = ("requests", "latest").
Proof.
  split; [discriminate|]. split; [reflexivity|].
  apply (proj2 (proj2 (split_dependency_version_not_empty "requests")));
    [discriminate|reflexivity].
Defined.

End SplitDependency.

(* ================================================================== *)
(** * The environment-file extractor *)
(* ================================================================== *)

Module Conda.
Import PyStr DependencyTools Yaml.

Lemma and_then_completed (ds : list dependency) (b : appending) :
  (ds, None) ;;; b = (ds ++ fst b, snd b).
Proof. reflexivity. Qed.

(** A loop whose body never raises appends the rows of every item. *)
Lemma for_appending_completed {A : Type} (f : A -> appending)
  (g : A -> list dependency) (l : list A) :
  Forall (fun a => f a = (g a, None)) l ->
  for_appending f l = (flat_map g l, None).
Proof.
  induction 1 as [|a l Ha _ IH]; simpl; [reflexivity|].
  now rewrite Ha, IH.
Qed.

Lemma split_value_string (env_file s : string) :
  split_value env_file (YStr s) = ([row env_file s], None).
Proof.
  unfold split_value, row, append. now destruct (split_dependency s).
Qed.

Lemma python_entry_rows (env_file : string) (item : yaml) :
  python_entry env_file item = (synthetic_rows env_file item, None).
Proof.
  destruct item as [s| | | |]; simpl; try reflexivity.
  now destruct (startswith s "python").
Qed.

Lemma pip_loop_rows (env_file : string) (items : list yaml) :
  forallb is_string items = true ->
  for_appending (split_value env_file) items
  = (flat_map (string_rows env_file) items, None).
Proof.
  intros H. apply for_appending_completed.
  rewrite forallb_forall in H. apply Forall_forall. intros v Hv.
  specialize (H v Hv). destruct v; try discriminate.
  apply split_value_string.
Qed.

Lemma conda_entry_rows (env_file : string) (dep : yaml) :
  plain_entry dep = true ->
  conda_entry env_file dep = (entry_rows env_file dep, None).
Proof.
  destruct dep as [s|items|entries|items|]; simpl; try reflexivity.
  - intros _. apply split_value_string.
  - unfold pip_rows. destruct (lookup "pip" entries) as [[| ps| | |]|];
      try discriminate; try reflexivity.
    intros H. simpl. now apply pip_loop_rows.
Qed.

(** C8, as amended.  For an environment file whose document is a mapping
    with a [dependencies] list, in which every [pip] value is a list of
    strings, the extractor first appends one synthetic row, with package
    ["python"] and the version that the splitter parses, for each string
    entry that starts with ["python"]; it then appends, in the order of the
    list, one row from the splitter for every string entry, those that start
    with ["python"] included, and one row for every entry of a [pip]
    sub-list. *)
Theorem get_conda_dependencies_rows
  (env_file : string) (entries : list (key * yaml)) (items : list yaml) :
  lookup "dependencies" entries = Some (YList items) ->
  forallb plain_entry items = true ->
  get_conda_dependencies env_file (Py.Return (YDict entries))
  = conda_rows env_file items.
Proof.
  intros Hdeps Hplain.
  unfold get_conda_dependencies, conda_body, get_dependencies.
  rewrite Hdeps. cbn [iter for_iter].
  rewrite (for_appending_completed _ (synthetic_rows env_file)).
  - rewrite and_then_completed.
    rewrite (for_appending_completed _ (entry_rows env_file)); [reflexivity|].
    rewrite forallb_forall in Hplain. apply Forall_forall. intros dep Hdep.
    apply conda_entry_rows. now apply Hplain.
  - apply Forall_forall. intros item _. apply python_entry_rows.
Qed.

Lemma get_conda_dependencies_rows_witness :
  forallb plain_entry environment_items = true /\
  get_conda_dependencies "environment.yml" (Py.Return environment_yml)
  = [ ("environment.yml", "python", "latest");
      ("environment.yml", "python", "latest");
      ("environment.yml", "numpy", "latest");
      ("environment.yml", "flask", "==2.0.1") ].
Proof.
  split; [reflexivity|].
  exact (get_conda_dependencies_rows "environment.yml" environment_entries
           environment_items eq_refl eq_refl).
Defined.

(** C8 as it is worded fails: the entry [python=3.9] gives two rows, the
    synthetic one and the one that every string entry gives. *)
Lemma get_conda_dependencies_python_entry_twice :
  get_conda_dependencies "environment.yml" (Py.Return environment_yml)
  <> claimed_conda_rows "environment.yml" environment_items.
Proof. vm_compute. discriminate. Qed.

End Conda.

(* ================================================================== *)
(** * Dictionaries *)
(* ================================================================== *)

Module DictFacts.
Import Py.

Section Dict.

Context {V : Type}.

Lemma dict_get_in_keys (k : string) (d : dict V) :
  In k (dict_keys d) <-> exists v, dict_get k d = Some v.
Proof.
  induction d as [|[k' v'] d IH]; simpl.
  - split; [tauto|]. now intros [v H].
  - destruct (String.eqb k k') eqn:E.
    + apply String.eqb_eq in E. subst. split; eauto.
    + apply String.eqb_neq in E. rewrite <- IH. split.
      * intros [H|H]; [congruence|assumption].
      * now right.
Qed.

Lemma dict_set_keys (k : string) (v : V) (d : dict V) :
  dict_keys (dict_set k v d)
  = if dict_mem k d then dict_keys d else dict_keys d ++ [k].
Proof.
  unfold dict_mem. induction d as [|[k' v'] d IH]; simpl; [reflexivity|].
  destruct (String.eqb k k') eqn:E; simpl; [reflexivity|].
  rewrite IH. now destruct (dict_get k d).
Qed.

Lemma dict_mem_in_keys (k : string) (d : dict V) :
  dict_mem k d = true <-> In k (dict_keys d).
Proof.
  rewrite dict_get_in_keys. unfold dict_mem.
  destruct (dict_get k d); split; eauto; try discriminate.
  now intros [v H].
Qed.

Lemma dict_set_keys_nodup (k : string) (v : V) (d : dict V) :
  NoDup (dict_keys d) -> NoDup (dict_keys (dict_set k v d)).
Proof.
  intros H. rewrite dict_set_keys.
  destruct (dict_mem k d) eqn:E; [assumption|].
  apply NoDup_app; [assumption|repeat constructor; simpl; tauto|].
  intros x Hx [<-|[]]. apply dict_mem_in_keys in Hx. congruence.
Qed.

Lemma dict_set_in_keys (k k' : string) (v : V) (d : dict V) :
  In k' (dict_keys (dict_set k v d)) <-> k' = k \/ In k' (dict_keys d).
Proof.
  rewrite dict_set_keys. destruct (dict_mem k d) eqn:E.
  - apply dict_mem_in_keys in E. split; [now right|].
    intros [->|H]; assumption.
  - rewrite in_app_iff. simpl. intuition.
Qed.

End Dict.

End DictFacts.

(* ================================================================== *)
(** * The records of one file *)
(* ================================================================== *)

Module Emission.
Import PyStr Py Ast AnalyzePythonAst DictFacts.

(** ** [import_map] *)

Lemma import_map_fold_nodup (imps : list import_entry) (d : dict import_entry) :
  NoDup (dict_keys d) ->
  NoDup (dict_keys (fold_left (fun d imp => dict_set (im_alias imp) imp d) imps d)).
Proof.
  revert d. induction imps as [|i imps IH]; intros d H; simpl; [assumption|].
  apply IH. now apply dict_set_keys_nodup.
Qed.

Lemma import_map_nodup (imps : list import_entry) :
  NoDup (dict_keys (import_map_of imps)).
Proof. apply import_map_fold_nodup. constructor. Qed.

Lemma import_map_fold_keys (a : string) (imps : list import_entry) (d : dict import_entry) :
  In a (dict_keys (fold_left (fun d imp => dict_set (im_alias imp) imp d) imps d))
  <-> In a (dict_keys d) \/ In a (map im_alias imps).
Proof.
  revert d. induction imps as [|i imps IH]; intros d; simpl; [tauto|].
  rewrite IH, dict_set_in_keys. intuition.
Qed.

(** The keys of [import_map] are the aliases that the visitor recorded. *)
Lemma import_map_keys (a : string) (imps : list import_entry) :
  In a (dict_keys (import_map_of imps)) <-> In a (map im_alias imps).
Proof. unfold import_map_of. rewrite import_map_fold_keys. simpl. tauto. Qed.

(** ** [usage_map] *)

Lemma dict_append_get {V : Type} (k a : string) (x : V) (d : dict (list V)) :
  dict_get a (dict_append k x d)
  = if String.eqb a k then option_map (fun l => l ++ [x]) (dict_get a d)
    else dict_get a d.
Proof.
  induction d as [|[k' l] d IH]; simpl.
  - now destruct (String.eqb a k).
  - destruct (String.eqb k k') eqn:Ek; simpl.
    + apply String.eqb_eq in Ek. subst k'.
      now destruct (String.eqb a k).
    + rewrite IH. destruct (String.eqb a k') eqn:Ea; [|reflexivity].
      destruct (String.eqb a k) eqn:Eak; [|reflexivity].
      apply String.eqb_eq in Ea, Eak. subst. now rewrite String.eqb_refl in Ek.
Qed.

Lemma usage_map_fold (a : string) (us : list usage_entry)
  (m : dict (list usage_entry)) (l : list usage_entry) :
  dict_get a m = Some l ->
  dict_get a
    (fold_left
       (fun m u => if dict_mem (root_name u) m then dict_append (root_name u) u m else m)
       us m)
  = Some (l ++ filter (rooted_at a) us).
Proof.
  revert m l. induction us as [|u us IH]; intros m l H; simpl.
  - now rewrite app_nil_r.
  - unfold rooted_at at 1. rewrite String.eqb_sym.
    destruct (String.eqb a (root_name u)) eqn:E.
    + apply String.eqb_eq in E. subst a.
      assert (Hmem : dict_mem (root_name u) m = true)
        by (unfold dict_mem; now rewrite H).
      rewrite Hmem, (IH _ (l ++ [u])).
      * now rewrite <- app_assoc.
      * now rewrite dict_append_get, String.eqb_refl, H.
    + apply IH. destruct (dict_mem (root_name u) m); [|assumption].
      now rewrite dict_append_get, E.
Qed.

Lemma empty_usage_map_get (a : string) (import_map : dict import_entry) :
  In a (dict_keys import_map) ->
  dict_get a (empty_usage_map import_map) = Some [].
Proof.
  induction import_map as [|[k i] d IH]; simpl; [tauto|].
  destruct (String.eqb a k) eqn:E; [reflexivity|].
  apply String.eqb_neq in E. intros [H|H]; [congruence|now apply IH].
Qed.

(** [usage_map[alias]] never raises [KeyError], and it holds the usages
    rooted at [alias] in the order in which they were recorded. *)
Lemma usage_map_has_alias (a : string) (import_map : dict import_entry)
  (us : list usage_entry) :
  In a (dict_keys import_map) ->
  dict_get a (usage_map_of import_map us) = Some (filter (rooted_at a) us).
Proof.
  intros H. unfold usage_map_of.
  now rewrite (usage_map_fold a us _ [] (empty_usage_map_get a _ H)).
Qed.

Lemma flat_map_same {A B : Type} (f g : A -> list B) (l : list A) :
  (forall a, In a l -> f a = g a) -> flat_map f l = flat_map g l.
Proof.
  induction l as [|a l IH]; simpl; intros H; [reflexivity|].
  rewrite (H a (or_introl eq_refl)), IH; [reflexivity|].
  intros b Hb. apply H. now right.
Qed.

(** The records of a file are the groups of its imports, one after the
    other. *)
Lemma emit_groups (file_path : string) (v : visitor) :
  emit file_path v
  = flat_map (group file_path (usage v)) (import_map_of (imports v)).
Proof.
  unfold emit. apply flat_map_same. intros [a i] H.
  unfold group, usages_of. simpl.
  rewrite usage_map_has_alias; [reflexivity|].
  unfold dict_keys. now apply (in_map fst) in H.
Qed.

(** ** Cutting the records at an import *)

Lemma cut_after_run (us rest l1 l2 : list record) (r : record) :
  Forall (fun x => r_type x = "usage") us ->
  r_type r = "import" ->
  l1 ++ r :: l2 = us ++ rest ->
  exists l1', l1 = us ++ l1' /\ l1' ++ r :: l2 = rest.
Proof.
  intros Hus Hr. revert l1.
  induction Hus as [|u us Hu _ IH]; intros l1 H; simpl in *.
  - now exists l1.
  - destruct l1 as [|x l1]; simpl in H.
    + injection H as -> _. rewrite Hu in Hr. discriminate.
    + injection H as -> H. destruct (IH _ H) as (l1' & -> & H').
      now exists l1'.
Qed.

Lemma usage_records_type (file_path a : string) (us : list usage_entry) :
  Forall (fun x => r_type x = "usage") (map (usage_record file_path a) us).
Proof.
  apply Forall_forall. intros x Hx. apply in_map_iff in Hx as ([[s l] c] & <- & _).
  reflexivity.
Qed.

Lemma usage_records_of (file_path a : string) (us : list usage_entry) :
  Forall (is_usage_of a) (map (usage_record file_path a) us).
Proof.
  apply Forall_forall. intros x Hx. apply in_map_iff in Hx as ([[s l] c] & <- & _).
  now split.
Qed.

Lemma groups_cut (file_path : string) (us : list usage_entry)
  (m : dict import_entry) (pre post : list record) (r : record) :
  flat_map (group file_path us) m = pre ++ r :: post ->
  r_type r = "import" ->
  exists m1 e m2,
    m = m1 ++ e :: m2 /\
    pre = flat_map (group file_path us) m1 /\
    r = import_record file_path (fst e) (snd e) /\
    post = map (usage_record file_path (fst e)) (filter (rooted_at (fst e)) us)
           ++ flat_map (group file_path us) m2.
Proof.
  intros H Hr. revert pre H.
  induction m as [|e m IH]; intros pre H; simpl in H.
  - destruct pre; discriminate.
  - destruct pre as [|x pre]; simpl in H.
    + injection H as <- <-. now exists [], e, m.
    + injection H as <- H. symmetry in H.
      destruct (cut_after_run _ _ _ _ _ (usage_records_type _ _ _) Hr H)
        as (pre' & -> & H').
      destruct (IH _ (eq_sym H')) as (m1 & e' & m2 & -> & -> & -> & ->).
      exists (e :: m1), e', m2. simpl. tauto.
Qed.

(** Every record of a group carries the alias of a key. *)
Lemma groups_alias (file_path : string) (us : list usage_entry)
  (m : dict import_entry) (x : record) :
  In x (flat_map (group file_path us) m) -> In (r_alias x) (dict_keys m).
Proof.
  intros H. apply in_flat_map in H as (e & He & Hx).
  unfold group in Hx. destruct Hx as [<-|Hx].
  - now apply (in_map fst) in He.
  - apply in_map_iff in Hx as ([[s l] c] & <- & _).
    now apply (in_map fst) in He.
Qed.

End Emission.

(* ================================================================== *)
(** * The order and the well-formedness of the records *)
(* ================================================================== *)

Module Records.
Import PyStr PyStrFacts Py Ast AnalyzePythonAst DictFacts Emission Samples.

(** A file gives the records of its visitor or one error record. *)
Lemma analyze_file_cases (file_path : string) (source : res (list string * node)) :
  (exists lines tree v,
      source = Return (lines, tree) /\
      visit lines tree new_visitor = Return v /\
      analyze_file file_path source = emit file_path v)
  \/ (exists msg, analyze_file file_path source = [error_record file_path msg]).
Proof.
  unfold analyze_file. destruct source as [[lines tree]|msg]; simpl.
  - destruct (visit lines tree new_visitor) as [v|msg] eqn:E.
    + left. now exists lines, tree, v.
    + right. now exists msg.
  - right. now exists msg.
Qed.

Lemma nodup_keys_apart {V : Type} (m1 m2 : dict V) (e : string * V) :
  NoDup (dict_keys (m1 ++ e :: m2)) ->
  ~ In (fst e) (dict_keys m1) /\ ~ In (fst e) (dict_keys m2).
Proof.
  unfold dict_keys. rewrite map_app. simpl. intros H.
  apply NoDup_remove_2 in H. rewrite in_app_iff in H. tauto.
Qed.

(** C2, as amended.  In the records of every scanned file, each import
    record is immediately followed by all the usage records of its alias and
    by no other: no record before the import or after that run is a usage of
    the alias.  The run lists the usages in the order in which the visitor
    met them in its walk of the syntax tree, which need not be the order of
    their lines. *)
Theorem import_followed_by_its_usages
  (file_path : string) (source : res (list string * node)) :
  followed_by_usages (analyze_file file_path source)
    (fun r us =>
       exists lines tree v,
         source = Return (lines, tree) /\
         visit lines tree new_visitor = Return v /\
         us = map (usage_record file_path (r_alias r))
                  (filter (rooted_at (r_alias r)) (usage v))).
Proof.
  intros pre r post Hout Hr.
  destruct (analyze_file_cases file_path source)
    as [(lines & tree & v & Hsrc & Hv & E)|(msg & E)]; rewrite E in Hout.
  - rewrite emit_groups in Hout.
    destruct (groups_cut _ _ _ _ _ _ Hout Hr) as (m1 & e & m2 & Hm & -> & -> & ->).
    pose proof (import_map_nodup (imports v)) as Hnd. rewrite Hm in Hnd.
    destruct (nodup_keys_apart _ _ _ Hnd) as [H1 H2]. simpl.
    exists (map (usage_record file_path (fst e)) (filter (rooted_at (fst e)) (usage v))),
           (flat_map (group file_path (usage v)) m2).
    split; [reflexivity|]. split; [apply usage_records_of|]. split.
    + intros x [Hx|Hx] [_ Ha]; apply groups_alias in Hx; rewrite Ha in Hx; tauto.
    + now exists lines, tree, v.
  - destruct pre as [|x [|y pre]]; try discriminate.
    injection Hout as <-. discriminate.
Qed.

Lemma import_followed_by_its_usages_witness :
  exists us rest,
    [ usage_record "app.py" "functools" ("functools.partial", 4%Z, "    functools.partial");
      usage_record "app.py" "functools" ("functools.wraps", 2%Z, "@functools.wraps") ]
    = us ++ rest /\
    Forall (is_usage_of "functools") us /\
    (forall x, In x [] \/ In x rest -> ~ is_usage_of "functools" x) /\
    exists lines tree v,
      Return (decorated_lines, decorated_tree) = Return (lines, tree) /\
      visit lines tree new_visitor = Return v /\
      us = map (usage_record "app.py" "functools")
               (filter (rooted_at "functools") (usage v)).
Proof.
  exact (import_followed_by_its_usages "app.py"
           (Return (decorated_lines, decorated_tree)) [] _ _ eq_refl eq_refl).
Defined.

(** C2 as it is worded fails: in a file with a decorated function the
    visitor records the usage in the body, on line 4, before the usage in
    the decorator, on line 2, and the records keep that order. *)
Lemma decorated_usages_not_in_line_order :
  ~ claimed_ordering (analyze_file "app.py" (Return (decorated_lines, decorated_tree))).
Proof.
  intros H.
  destruct (H [] _ _ eq_refl eq_refl) as (us & rest & Hpost & _ & Hnone & Hasc).
  destruct us as [|a [|b [|c us]]]; simpl in Hpost.
  - subst rest.
    apply (Hnone _ (or_intror (or_introl eq_refl))). now split.
  - injection Hpost as <- <-.
    apply (Hnone _ (or_intror (or_introl eq_refl))). now split.
  - injection Hpost as <- <- _. discriminate.
  - discriminate.
Qed.

End Records.

Module WellFormed.
Import PyStr PyStrFacts Py Ast AnalyzePythonAst DictFacts Emission Records Samples.

(** The full name of a chain of attributes on a name starts with that name,
    followed by nothing or by a dot. *)
Lemma full_name_of_chain (e : node) (id : string) :
  chain_root e = Name id ->
  exists suffix,
    get_full_attribute_name e = (id ++ suffix)%string /\
    (suffix = EmptyString \/ exists t, suffix = String "." t).
Proof.
  induction e as [l ns|l m ns|l f rest _ _|l value attr IH|id'|cs _]
    using node_induction; simpl; try discriminate.
  - intros H. destruct (IH H) as (sfx & -> & Hsfx).
    exists (sfx ++ "." ++ attr)%string. split; [apply append_assoc|].
    right. destruct Hsfx as [->|(t & ->)]; simpl; eauto.
  - intros [= ->]. exists EmptyString. split; [|now left].
    clear. induction id as [|a s IH]; simpl; [reflexivity|now rewrite <- IH].
Qed.

(** The first dotted component of the full name is the root identifier. *)
Lemma root_name_of_chain (e : node) (id : string) (l : Z) (c : string) :
  chain_root e = Name id -> contains "." id = false ->
  root_name (get_full_attribute_name e, l, c) = id.
Proof.
  intros He Hid. destruct (full_name_of_chain e id He) as (sfx & E & Hsfx).
  unfold root_name. simpl. rewrite E.
  destruct Hsfx as [->|(t & ->)].
  - replace (id ++ "")%string with id.
    + now apply split1_absent.
    + clear. induction id as [|a s IH]; simpl; [reflexivity|now rewrite <- IH].
  - now apply split1_before.
Qed.

Lemma is_usage_group (file_path : string) (us : list usage_entry)
  (e : string * import_entry) :
  filter is_usage (group file_path us e)
  = map (usage_record file_path (fst e)) (filter (rooted_at (fst e)) us).
Proof.
  unfold group. simpl. clear.
  induction (filter (rooted_at (fst e)) us) as [|[[s l] c] t IH]; simpl;
    [reflexivity|now rewrite IH].
Qed.

Lemma filter_flat_map {A B : Type} (p : B -> bool) (f : A -> list B) (l : list A) :
  filter p (flat_map f l) = flat_map (fun a => filter p (f a)) l.
Proof.
  induction l as [|a l IH]; simpl; [reflexivity|].
  now rewrite filter_app, IH.
Qed.

(** Over keys without repetition, the usages rooted at one key or another
    are as many as the usages whose root is a key. *)
Lemma count_rooted (ks : list string) (us : list usage_entry) :
  NoDup ks ->
  length (flat_map (fun k => filter (rooted_at k) us) ks)
  = length (filter (fun u => existsb (String.eqb (root_name u)) ks) us).
Proof.
  induction 1 as [|k ks Hk _ IH]; simpl.
  - induction us as [|u us IHu]; simpl; [reflexivity|assumption].
  - rewrite length_app, IH. clear IH.
    induction us as [|u us IHu]; simpl; [reflexivity|].
    unfold rooted_at at 1.
    destruct (String.eqb (root_name u) k) eqn:E; simpl.
    + apply String.eqb_eq in E.
      assert (Hn : existsb (String.eqb (root_name u)) ks = false).
      { destruct (existsb (String.eqb (root_name u)) ks) eqn:Ex; [|reflexivity].
        apply existsb_exists in Ex as (x & Hx & Ex).
        apply String.eqb_eq in Ex. congruence. }
      rewrite Hn. simpl. now rewrite IHu.
    + destruct (existsb (String.eqb (root_name u)) ks); simpl; [|assumption].
      rewrite <- IHu. now rewrite Nat.add_succ_r.
Qed.

Lemma existsb_same {A : Type} (p : A -> bool) (l l' : list A) :
  (forall x, In x l <-> In x l') -> existsb p l = existsb p l'.
Proof.
  intros H. destruct (existsb p l') eqn:E.
  - apply existsb_exists in E as (x & Hx & Px). apply existsb_exists.
    exists x. split; [now apply H|assumption].
  - destruct (existsb p l) eqn:E'; [|reflexivity].
    apply existsb_exists in E' as (x & Hx & Px).
    rewrite <- E. symmetry. apply existsb_exists. exists x.
    split; [now apply H|assumption].
Qed.

(** C9.  In the records of a file, every usage record has the alias of an
    import record of that file, and the first dotted component of its symbol
    is that alias.  The usage records are as many as the call and attribute
    expressions recorded by the visitor whose first component is the alias of
    a recorded import, so an expression rooted elsewhere gives no record; and
    the first component of an expression rooted at an identifier is that
    identifier. *)
Theorem usage_records_refer_to_imports
  (file_path : string) (source : res (list string * node)) :
  let out := analyze_file file_path source in
  (forall r, In r out -> r_type r = "usage" ->
     (exists i, In i out /\ r_type i = "import" /\ r_alias i = r_alias r) /\
     fst (split1 "." (r_symbol r)) = r_alias r) /\
  (forall lines tree v,
     source = Return (lines, tree) -> visit lines tree new_visitor = Return v ->
     length (filter is_usage out)
     = length (filter (known_alias (imports v)) (usage v))) /\
  (forall e id l c,
     chain_root e = Name id -> contains "." id = false ->
     root_name (get_full_attribute_name e, l, c) = id).
Proof.
  split; [|split].
  - intros r Hin Hr.
    destruct (analyze_file_cases file_path source)
      as [(lines & tree & v & _ & _ & E)|(msg & E)]; rewrite E in *.
    + rewrite emit_groups in *.
      apply in_flat_map in Hin as (e & He & Hin).
      destruct Hin as [<-|Hin]; [discriminate|].
      apply in_map_iff in Hin as ([[s l] c] & <- & Hu).
      apply filter_In in Hu as [_ Hu]. apply String.eqb_eq in Hu.
      split; [|exact Hu].
      exists (import_record file_path (fst e) (snd e)). repeat split.
      apply in_flat_map. exists e. split; [assumption|now left].
    + destruct Hin as [<-|[]]. discriminate.
  - intros lines tree v -> Hv. unfold analyze_file. simpl. rewrite Hv.
    rewrite emit_groups, filter_flat_map.
    rewrite (flat_map_same _ _ _ (fun e _ => is_usage_group file_path (usage v) e)).
    assert (Hlen : forall m : dict import_entry,
               length (flat_map (fun e => map (usage_record file_path (fst e))
                                           (filter (rooted_at (fst e)) (usage v))) m)
               = length (flat_map (fun k => filter (rooted_at k) (usage v)) (dict_keys m))).
    { induction m as [|e m IH]; simpl; [reflexivity|].
      now rewrite !length_app, length_map, IH. }
    rewrite Hlen, (count_rooted _ _ (import_map_nodup (imports v))).
    f_equal. apply filter_ext. intros u. unfold known_alias.
    apply existsb_same. intros x. apply import_map_keys.
  - intros e id l c. apply root_name_of_chain.
Qed.

Lemma usage_records_refer_to_imports_witness :
  let out := analyze_file "app.py" (Return (pandas_lines, pandas_tree)) in
  let r := usage_record "app.py" "pd" ("pd.DataFrame", 3%Z, "pd.DataFrame") in
  ((exists i, In i out /\ r_type i = "import" /\ r_alias i = r_alias r) /\
   fst (split1 "." (r_symbol r)) = r_alias r) /\
  length (filter is_usage out)
  = length (filter (known_alias
                      [ {| im_module := "pandas"; im_alias := "pd"; im_lineno := 1;
                           im_code := "import pandas as pd" |} ])
                   [ ("pd.read_csv", 2%Z, "pd.read_csv('data.csv')");
                     ("pd.read_csv", 2%Z, "pd.read_csv('data.csv')");
                     ("pd.DataFrame", 3%Z, "pd.DataFrame") ]) /\
  root_name (get_full_attribute_name (Attribute 3 (Name "pd") "DataFrame"),
             3%Z, "pd.DataFrame") = "pd".
Proof.
  destruct (usage_records_refer_to_imports "app.py" (Return (pandas_lines, pandas_tree)))
    as (H1 & H2 & H3).
  split; [|split].
  - apply H1; [simpl; tauto|reflexivity].
  - exact (H2 pandas_lines pandas_tree _ eq_refl eq_refl).
  - apply H3; reflexivity.
Defined.

End WellFormed.

(* ================================================================== *)
(** * The visitor *)
(* ================================================================== *)

Module Visitor.
Import PyStr PyStrFacts Py Ast AnalyzePythonAst.

Lemma bind_return {A B : Type} (m : res A) (k : A -> res B) (b : B) :
  bind m k = Return b -> exists a, m = Return a /\ k a = Return b.
Proof. destruct m as [a|msg]; simpl; [eauto|discriminate]. Qed.

Lemma extends_refl (v : visitor) : extends v v.
Proof. exists [], []. now rewrite !app_nil_r. Qed.

Lemma extends_trans (v1 v2 v3 : visitor) :
  extends v1 v2 -> extends v2 v3 -> extends v1 v3.
Proof.
  intros (i1 & u1 & Hi1 & Hu1) (i2 & u2 & Hi2 & Hu2).
  exists (i1 ++ i2), (u1 ++ u2). rewrite Hi2, Hu2, Hi1, Hu1.
  now rewrite !app_assoc.
Qed.

Lemma extends_add_import (i : import_entry) (v : visitor) : extends v (add_import i v).
Proof. exists [i], []. simpl. now rewrite app_nil_r. Qed.

Lemma extends_add_usage (u : usage_entry) (v : visitor) : extends v (add_usage u v).
Proof. exists [], [u]. simpl. now rewrite app_nil_r. Qed.

Lemma for_each_cons {A S : Type} (f : A -> S -> res S) (a : A) (l : list A) (s : S) :
  for_each f (a :: l) s = bind (f a s) (for_each f l).
Proof. reflexivity. Qed.

(** A loop whose steps extend the visitor extends it. *)
Lemma for_each_extends {A : Type} (f : A -> visitor -> res visitor) (l : list A) :
  Forall (fun a => forall v v', f a v = Return v' -> extends v v') l ->
  forall v v', for_each f l v = Return v' -> extends v v'.
Proof.
  induction 1 as [|a l Ha _ IH]; intros v v' H.
  - injection H as <-. apply extends_refl.
  - rewrite for_each_cons in H. apply bind_return in H as (v1 & H1 & H2).
    eapply extends_trans; eauto.
Qed.

Section Lines.

Context (source_lines : list string).

Lemma record_call_extends (lineno : Z) (func : node) (v v' : visitor) :
  record_call source_lines lineno func v = Return v' -> extends v v'.
Proof.
  unfold record_call. destruct (nonempty _).
  - intros H. apply bind_return in H as (c & _ & [= <-]). apply extends_add_usage.
  - intros [= <-]. apply extends_refl.
Qed.

Lemma record_attribute_extends (lineno : Z) (n : node) (v v' : visitor) :
  record_attribute source_lines lineno n v = Return v' -> extends v v'.
Proof.
  unfold record_attribute. destruct (is_name _).
  - intros H. apply bind_return in H as (c & _ & [= <-]). apply extends_add_usage.
  - intros [= <-]. apply extends_refl.
Qed.

Lemma visit_Import_extends (lineno : Z) (names : list alias) (v v' : visitor) :
  visit_Import source_lines lineno names v = Return v' -> extends v v'.
Proof.
  apply for_each_extends. apply Forall_forall. intros a _ w w' H.
  apply bind_return in H as (c & _ & [= <-]). apply extends_add_import.
Qed.

Lemma visit_ImportFrom_extends (lineno : Z) (module : option string)
  (names : list alias) (v v' : visitor) :
  visit_ImportFrom source_lines lineno module names v = Return v' -> extends v v'.
Proof.
  apply for_each_extends. apply Forall_forall. intros a _ w w' H.
  apply bind_return in H as (c & _ & [= <-]). apply extends_add_import.
Qed.

(** The visitor only appends to its two lists. *)
Lemma visit_extends (n : node) :
  forall v v', visit source_lines n v = Return v' -> extends v v'.
Proof.
  induction n as [l ns|l m ns|l f rest IHf IHrest|l value attr IH|id|cs IHcs]
    using node_induction; intros v v' H; simpl in H.
  - now apply visit_Import_extends in H.
  - now apply visit_ImportFrom_extends in H.
  - apply bind_return in H as (v1 & H1 & H).
    apply bind_return in H as (v2 & H2 & H3).
    apply record_call_extends in H1. apply IHf in H2.
    apply (for_each_extends _ _ IHrest) in H3.
    eauto using extends_trans.
  - apply bind_return in H as (v1 & H1 & H2).
    apply record_attribute_extends in H1. apply IH in H2.
    eauto using extends_trans.
  - injection H as <-. apply extends_refl.
  - now apply (for_each_extends _ _ IHcs) in H.
Qed.

(** Visiting a list visits each of its nodes, between two states that the
    visit of the list spans. *)
Lemma for_each_visit_in (c : node) (l : list node) (v v' : visitor) :
  In c l -> for_each (visit source_lines) l v = Return v' ->
  exists w w',
    visit source_lines c w = Return w' /\ extends v w /\ extends w' v'.
Proof.
  revert v. induction l as [|a l IH]; intros v Hin H; [destruct Hin|].
  rewrite for_each_cons in H. apply bind_return in H as (v1 & H1 & H2).
  destruct Hin as [->|Hin].
  - exists v, v1. repeat split; [assumption|apply extends_refl|].
    apply (for_each_extends (visit source_lines) l); [|assumption].
    apply Forall_forall. intros x _. apply visit_extends.
  - destruct (IH _ Hin H2) as (w & w' & Hw & E1 & E2).
    exists w, w'. repeat split; try assumption.
    eapply extends_trans; [|exact E1]. now apply (visit_extends a).
Qed.

(** A node that occurs in a tree is visited when the tree is. *)
Lemma visit_occurs (n t : node) :
  occurs n t ->
  forall v v', visit source_lines t v = Return v' ->
  exists w w',
    visit source_lines n w = Return w' /\ extends v w /\ extends w' v'.
Proof.
  induction 1 as [|l f rest _ IH|l f rest c Hc _ IH|l value attr _ IH|cs c Hc _ IH];
    intros v v' H.
  - exists v, v'. auto using extends_refl.
  - simpl in H. apply bind_return in H as (v1 & H1 & H).
    apply bind_return in H as (v2 & H2 & H3).
    destruct (IH _ _ H2) as (w & w' & Hw & E1 & E2).
    exists w, w'. repeat split; [assumption| |].
    + eapply extends_trans; [|exact E1]. now apply record_call_extends in H1.
    + eapply extends_trans; [exact E2|].
      apply (for_each_extends (visit source_lines) rest); [|assumption].
      apply Forall_forall. intros x _. apply visit_extends.
  - simpl in H. apply bind_return in H as (v1 & H1 & H).
    apply bind_return in H as (v2 & H2 & H3).
    destruct (for_each_visit_in _ _ _ _ Hc H3) as (w1 & w1' & Hw1 & E1 & E1').
    destruct (IH _ _ Hw1) as (w & w' & Hw & E2 & E2').
    exists w, w'. repeat split; [assumption| |].
    + apply record_call_extends in H1. apply visit_extends in H2.
      eauto using extends_trans.
    + eauto using extends_trans.
  - simpl in H. apply bind_return in H as (v1 & H1 & H2).
    destruct (IH _ _ H2) as (w & w' & Hw & E1 & E2).
    exists w, w'. repeat split; try assumption.
    eapply extends_trans; [|exact E1]. now apply record_attribute_extends in H1.
  - simpl in H.
    destruct (for_each_visit_in _ _ _ _ Hc H) as (w1 & w1' & Hw1 & E1 & E1').
    destruct (IH _ _ Hw1) as (w & w' & Hw & E2 & E2').
    exists w, w'. eauto using extends_trans.
Qed.

(** ** What a visit appends does not depend on the state it starts from *)

Lemma appended_nil (v : visitor) : appended v [] [] = v.
Proof. destruct v. unfold appended. simpl. now rewrite !app_nil_r. Qed.

Lemma appended_appended (v : visitor) (i1 i2 : list import_entry)
  (u1 u2 : list usage_entry) :
  appended (appended v i1 u1) i2 u2 = appended v (i1 ++ i2) (u1 ++ u2).
Proof. unfold appended. simpl. now rewrite !app_assoc. Qed.

Lemma uniform_return : uniform (fun v => Return v).
Proof. intros v0 w0 _. exists [], []. intros v. now rewrite appended_nil. Qed.

Lemma uniform_bind (f g : visitor -> res visitor) :
  uniform f -> uniform g -> uniform (fun v => bind (f v) g).
Proof.
  intros Hf Hg v0 w0 H. apply bind_return in H as (v1 & H1 & H2).
  destruct (Hf _ _ H1) as (i1 & u1 & E1). destruct (Hg _ _ H2) as (i2 & u2 & E2).
  exists (i1 ++ i2), (u1 ++ u2). intros v.
  rewrite E1. cbn [bind]. now rewrite E2, appended_appended.
Qed.

Lemma uniform_for_each {A : Type} (f : A -> visitor -> res visitor) (l : list A) :
  Forall (fun a => uniform (f a)) l -> uniform (for_each f l).
Proof.
  induction 1 as [|a l Ha _ IH].
  - apply uniform_return.
  - exact (uniform_bind (f a) (for_each f l) Ha IH).
Qed.

Lemma uniform_add_import (step : string -> import_entry) (i : Z) :
  uniform (fun v => bind (index source_lines i)
                         (fun c => Return (add_import (step c) v))).
Proof.
  intros v0 w0 H. destruct (index source_lines i) as [c|msg]; [|discriminate].
  exists [step c], []. intros v. cbn [bind]. unfold add_import, appended.
  now rewrite app_nil_r.
Qed.

Lemma uniform_record_call (lineno : Z) (func : node) :
  uniform (record_call source_lines lineno func).
Proof.
  unfold record_call. destruct (nonempty _); [|apply uniform_return].
  intros v0 w0 H.
  destruct (index source_lines (lineno - 1)) as [c|msg]; [|discriminate].
  exists [], [(get_full_attribute_name func, lineno, c)]. intros v. cbn [bind].
  unfold add_usage, appended. now rewrite app_nil_r.
Qed.

Lemma uniform_record_attribute (lineno : Z) (n : node) :
  uniform (record_attribute source_lines lineno n).
Proof.
  unfold record_attribute. destruct (is_name _); [|apply uniform_return].
  intros v0 w0 H.
  destruct (index source_lines (lineno - 1)) as [c|msg]; [|discriminate].
  exists [], [(get_full_attribute_name n, lineno, c)]. intros v. cbn [bind].
  unfold add_usage, appended. now rewrite app_nil_r.
Qed.

Lemma uniform_visit (n : node) : uniform (visit source_lines n).
Proof.
  induction n as [l ns|l m ns|l f rest IHf IHrest|l value attr IH|id|cs IHcs]
    using node_induction.
  - apply uniform_for_each. apply Forall_forall. intros a _.
    exact (uniform_add_import
             (fun c => {| im_module := name a; im_alias := bound_name a;
                          im_lineno := l; im_code := c |}) (l - 1)).
  - apply uniform_for_each. apply Forall_forall. intros a _.
    exact (uniform_add_import
             (fun c => {| im_module := (module_text m ++ "." ++ name a)%string;
                          im_alias := bound_name a;
                          im_lineno := l; im_code := c |}) (l - 1)).
  - exact (uniform_bind _ _ (uniform_record_call l f)
             (uniform_bind _ _ IHf (uniform_for_each _ _ IHrest))).
  - exact (uniform_bind _ _ (uniform_record_attribute l (Attribute l value attr)) IH).
  - apply uniform_return.
  - exact (uniform_for_each _ _ IHcs).
Qed.

(** Nodes visited from the empty state to [w] append the lists of [w] to
    any state. *)
Lemma for_each_visit_from (l : list node) (w : visitor) :
  for_each (visit source_lines) l new_visitor = Return w ->
  forall v, for_each (visit source_lines) l v
            = Return (appended v (imports w) (usage w)).
Proof.
  intros H.
  destruct (uniform_for_each (visit source_lines) l
              (proj2 (Forall_forall _ _) (fun n _ => uniform_visit n)) _ _ H)
    as (ims & us & E).
  rewrite E in H. injection H as <-. exact E.
Qed.

End Lines.

End Visitor.

(* ================================================================== *)
(** * Call sites *)
(* ================================================================== *)

Module CallSites.
Import PyStr PyStrFacts Py Ast AnalyzePythonAst DictFacts Emission Records
       WellFormed Visitor Samples.

Lemma nonempty_dotted (s t : string) : nonempty (s ++ "." ++ t) = true.
Proof. now destruct s. Qed.

(** The two rules at a call whose callee is an attribute chain on a name:
    [visit_Call] records the chain, then [visit_Attribute] records it again. *)
Lemma visit_call_on_chain (lines : list string) (lineno func_lineno : Z)
  (value : node) (attr id : string) (rest : list node) (w w' : visitor) :
  chain_root value = Name id ->
  visit lines (Call lineno (Attribute func_lineno value attr) rest) w = Return w' ->
  let full_name := get_full_attribute_name (Attribute func_lineno value attr) in
  exists code code' more,
    index lines (lineno - 1) = Return code /\
    index lines (func_lineno - 1) = Return code' /\
    usage w' = usage w ++ (full_name, lineno, code)
                       :: (full_name, func_lineno, code') :: more.
Proof.
  intros Hroot H full_name.
  cbn [visit] in H.
  apply bind_return in H as (v1 & H1 & H).
  apply bind_return in H as (v2 & H2 & H3).
  apply bind_return in H2 as (v1' & H2 & H2').
  unfold record_call in H1. cbn [get_full_attribute_name] in H1.
  rewrite nonempty_dotted in H1.
  apply bind_return in H1 as (code & Hc & [= <-]).
  unfold record_attribute in H2. cbn [chain_root] in H2.
  rewrite Hroot in H2. cbn [is_name] in H2.
  apply bind_return in H2 as (code' & Hc' & [= <-]).
  apply visit_extends in H2' as (i1 & u1 & _ & Hu1).
  assert (E3 : extends v2 w').
  { apply (for_each_extends (visit lines) rest); [|assumption].
    apply Forall_forall. intros x _. apply visit_extends. }
  destruct E3 as (i2 & u2 & _ & Hu2).
  exists code, code', (u1 ++ u2). repeat split; try assumption.
  rewrite Hu2, Hu1. simpl. rewrite <- !app_assoc. reflexivity.
Qed.

Lemma in_keys_split {V : Type} (k : string) (m : dict V) :
  In k (dict_keys m) -> exists m1 v m2, m = m1 ++ (k, v) :: m2.
Proof.
  intros H. unfold dict_keys in H. apply in_map_iff in H as ([k' v] & <- & H).
  apply in_split in H as (m1 & m2 & ->). now exists m1, v, m2.
Qed.

(** C4.  In a file whose visit ends without an exception, a call that
    occurs anywhere in the tree and whose callee is a dotted attribute chain
    rooted at an identifier (a name without a dot) that is the alias of a
    recorded import gives two usage records, one after the other in the
    records of the file: the first comes from the rule for calls and carries
    the line of the call, the second comes from the rule for attributes and
    carries the line of the callee.  Both carry the same symbol; neither is
    dropped. *)
Theorem call_on_chain_recorded_twice
  (file_path : string) (lines : list string) (tree : node) (v : visitor)
  (lineno func_lineno : Z) (value : node) (attr id : string) (rest : list node) :
  visit lines tree new_visitor = Return v ->
  occurs (Call lineno (Attribute func_lineno value attr) rest) tree ->
  chain_root value = Name id ->
  contains "." id = false ->
  In id (map im_alias (imports v)) ->
  let full_name := get_full_attribute_name (Attribute func_lineno value attr) in
  exists code code' pre post,
    index lines (lineno - 1) = Return code /\
    index lines (func_lineno - 1) = Return code' /\
    analyze_file file_path (Return (lines, tree))
    = pre ++ usage_record file_path id (full_name, lineno, code)
          :: usage_record file_path id (full_name, func_lineno, code')
          :: post.
Proof.
  intros Hv Hocc Hroot Hid Hknown full_name.
  destruct (visit_occurs lines _ _ Hocc _ _ Hv) as (w & w' & Hw & E1 & E2).
  destruct (visit_call_on_chain _ _ _ _ _ _ _ _ _ Hroot Hw)
    as (code & code' & more & Hc & Hc' & Hu).
  fold full_name in Hu.
  destruct E1 as (_ & before & _ & Hb). destruct E2 as (_ & after & _ & Ha).
  simpl in Hb. rewrite Hu, Hb in Ha.
  apply import_map_keys in Hknown.
  destruct (in_keys_split _ _ Hknown) as (m1 & imp & m2 & Hm).
  exists code, code'.
  assert (Hr : forall l c, rooted_at id (full_name, l, c) = true).
  { intros l c. unfold rooted_at. apply String.eqb_eq.
    now apply (root_name_of_chain (Attribute func_lineno value attr)). }
  exists (flat_map (group file_path (usage v)) m1
          ++ import_record file_path id imp
          :: map (usage_record file_path id) (filter (rooted_at id) before)),
         (map (usage_record file_path id) (filter (rooted_at id) (more ++ after))
          ++ flat_map (group file_path (usage v)) m2).
  repeat split; try assumption.
  unfold analyze_file. simpl. rewrite Hv, emit_groups, Hm, flat_map_app.
  simpl. unfold group at 2. simpl. rewrite Ha.
  rewrite <- !app_assoc. simpl.
  rewrite filter_app. simpl. rewrite !Hr.
  rewrite map_app. simpl. rewrite <- !app_assoc. reflexivity.
Qed.

Lemma call_on_chain_recorded_twice_witness :
  exists code code' pre post,
    index pandas_lines (2 - 1) = Return code /\
    index pandas_lines (2 - 1) = Return code' /\
    analyze_file "app.py" (Return (pandas_lines, pandas_tree))
    = pre ++ usage_record "app.py" "pd" ("pd.read_csv", 2%Z, code)
          :: usage_record "app.py" "pd" ("pd.read_csv", 2%Z, code')
          :: post.
Proof.
  refine (call_on_chain_recorded_twice "app.py" pandas_lines pandas_tree _
            2 2 (Name "pd") "read_csv" "pd" [leaf] eq_refl _ eq_refl eq_refl _).
  - apply occurs_child with (c := wrap (Call 2 (Attribute 2 (Name "pd") "read_csv") [leaf]));
      [simpl; tauto|].
    apply occurs_child with (c := Call 2 (Attribute 2 (Name "pd") "read_csv") [leaf]);
      [simpl; tauto|].
    apply occurs_here.
  - simpl. tauto.
Defined.

End CallSites.

(* ================================================================== *)
(** * A file with one import, one call and one attribute *)
(* ================================================================== *)

Module PandasFile.
Import PyStr Py Ast AnalyzePythonAst Emission Visitor Samples.

(** C3, as amended.  For a file made of [import pandas as pd], a statement
    calling [pd.read_csv] with arguments that use no import (their visit
    raises no exception and records no import and no call or attribute
    rooted at [pd]; they may call other names), and the bare attribute
    [pd.DataFrame], the records are one import record with alias [pd] and
    symbol [pandas], immediately followed by three usage records: two for
    [pd.read_csv], one from the rule for calls and one from the rule for
    attributes, and one for [pd.DataFrame]; each carries the line of its
    expression and the text of that line. *)
Theorem pandas_file_records
  (file_path : string) (lines : list string) (l1 l2 l3 : Z) (c1 c2 c3 : string)
  (args : list node) (w : visitor) :
  index lines (l1 - 1) = Return c1 ->
  index lines (l2 - 1) = Return c2 ->
  index lines (l3 - 1) = Return c3 ->
  for_each (visit lines) args new_visitor = Return w ->
  imports w = [] ->
  Forall (fun u => rooted_at "pd" u = false) (usage w) ->
  analyze_file file_path
    (Return (lines,
             Other [ Import l1 [ {| name := "pandas"; asname := Some "pd" |} ];
                     wrap (Call l2 (Attribute l2 (Name "pd") "read_csv") args);
                     wrap (Attribute l3 (Name "pd") "DataFrame") ]))
  = [ import_record file_path "pd"
        {| im_module := "pandas"; im_alias := "pd"; im_lineno := l1; im_code := c1 |};
      usage_record file_path "pd" ("pd.read_csv", l2, c2);
      usage_record file_path "pd" ("pd.read_csv", l2, c2);
      usage_record file_path "pd" ("pd.DataFrame", l3, c3) ].
Proof.
  intros H1 H2 H3 Hargs Hi Hu.
  pose proof (for_each_visit_from lines args w Hargs) as Hfrom.
  unfold analyze_file, wrap.
  cbn [bind fst snd visit for_each visit_Import record_call record_attribute
       get_full_attribute_name chain_root is_name nonempty String.append].
  rewrite H1. cbn [bind for_each]. rewrite H2. cbn [bind].
  rewrite Hfrom. cbn [bind]. rewrite H3. cbn [bind].
  rewrite emit_groups. unfold appended, add_usage, add_import, new_visitor.
  cbn [imports usage app]. rewrite Hi. cbn [app import_map_of fold_left dict_set].
  cbn [flat_map group fst snd]. rewrite app_nil_r.
  assert (Hnone : filter (rooted_at "pd") (usage w) = []).
  { clear - Hu. induction Hu as [|u us Hu' _ IH]; [reflexivity|].
    cbn [filter]. now rewrite Hu'. }
  unfold group. cbn [fst snd im_alias bound_name asname name or_else].
  change (("pd.read_csv", l2, c2)
          :: ("pd.read_csv", l2, c2) :: usage w ++ [("pd.DataFrame", l3, c3)])
    with ([("pd.read_csv", l2, c2); ("pd.read_csv", l2, c2)]
          ++ usage w ++ [("pd.DataFrame", l3, c3)]).
  rewrite !filter_app, Hnone. reflexivity.
Qed.

Lemma pandas_file_records_witness :
  analyze_file "app.py"
    (Return ([ "import pandas as pd"; "pd.read_csv(str(p))"; "pd.DataFrame" ],
             Other [ Import 1 [ {| name := "pandas"; asname := Some "pd" |} ];
                     wrap (Call 2 (Attribute 2 (Name "pd") "read_csv")
                             [ Call 2 (Name "str") [ Name "p" ] ]);
                     wrap (Attribute 3 (Name "pd") "DataFrame") ]))
  = [ import_record "app.py" "pd"
        {| im_module := "pandas"; im_alias := "pd"; im_lineno := 1;
           im_code := "import pandas as pd" |};
      usage_record "app.py" "pd" ("pd.read_csv", 2%Z, "pd.read_csv(str(p))");
      usage_record "app.py" "pd" ("pd.read_csv", 2%Z, "pd.read_csv(str(p))");
      usage_record "app.py" "pd" ("pd.DataFrame", 3%Z, "pd.DataFrame") ].
Proof.
  apply (pandas_file_records "app.py"
           [ "import pandas as pd"; "pd.read_csv(str(p))"; "pd.DataFrame" ]
           1 2 3 _ _ _ [ Call 2 (Name "str") [ Name "p" ] ]
           {| imports := []; usage := [ ("str", 2%Z, "pd.read_csv(str(p))") ] |}).
  - reflexivity.
  - reflexivity.
  - reflexivity.
  - reflexivity.
  - reflexivity.
  - repeat constructor.
Defined.

(** C3 as it is worded fails: the call of [pd.read_csv] is recorded twice,
    so the import is followed by three usage records, not by exactly two. *)
Lemma pandas_file_three_usages :
  length (filter is_usage (analyze_file "app.py" (Return (pandas_lines, pandas_tree))))
  <> 2.
Proof. vm_compute. discriminate. Qed.

End PandasFile.

(* ================================================================== *)
(** * Files that import and use nothing *)
(* ================================================================== *)

Module ImportsOnly.
Import PyStr Py Ast AnalyzePythonAst DictFacts Emission Visitor Samples.

Section Lines.

Context (source_lines : list string).

(** ** Nodes without an import leave [imports] as it is *)

Lemma for_each_keeps_imports (l : list node) :
  Forall (fun c => has_import c = false ->
                   forall w w', visit source_lines c w = Return w' ->
                                imports w' = imports w) l ->
  existsb has_import l = false ->
  forall w w', for_each (visit source_lines) l w = Return w' ->
               imports w' = imports w.
Proof.
  induction 1 as [|c l Hc _ IH]; simpl; intros Hl w w' H.
  - now injection H as <-.
  - apply orb_false_iff in Hl as [Hc' Hl].
    apply bind_return in H as (w1 & H1 & H2).
    rewrite (IH Hl _ _ H2). now apply Hc.
Qed.

Lemma record_call_imports (lineno : Z) (func : node) (w w' : visitor) :
  record_call source_lines lineno func w = Return w' -> imports w' = imports w.
Proof.
  unfold record_call. destruct (nonempty _).
  - intros H. apply bind_return in H as (c & _ & [= <-]). reflexivity.
  - now intros [= <-].
Qed.

Lemma record_attribute_imports (lineno : Z) (n : node) (w w' : visitor) :
  record_attribute source_lines lineno n w = Return w' -> imports w' = imports w.
Proof.
  unfold record_attribute. destruct (is_name _).
  - intros H. apply bind_return in H as (c & _ & [= <-]). reflexivity.
  - now intros [= <-].
Qed.

Lemma visit_keeps_imports (n : node) :
  has_import n = false ->
  forall w w', visit source_lines n w = Return w' -> imports w' = imports w.
Proof.
  induction n as [l ns|l m ns|l f rest IHf IHrest|l value attr IH|id|cs IHcs]
    using node_induction; simpl; intros Hn w w' H; try discriminate.
  - apply orb_false_iff in Hn as [Hf Hrest].
    apply bind_return in H as (v1 & H1 & H).
    apply bind_return in H as (v2 & H2 & H3).
    rewrite (for_each_keeps_imports _ IHrest Hrest _ _ H3), (IHf Hf _ _ H2).
    now apply record_call_imports in H1.
  - apply bind_return in H as (v1 & H1 & H2).
    rewrite (IH Hn _ _ H2). now apply record_attribute_imports in H1.
  - now injection H as <-.
  - now apply (for_each_keeps_imports _ IHcs Hn).
Qed.

(** ** Import statements append one entry for each name *)

Lemma import_loop_entries (step : alias -> string -> import_entry) (lineno : Z)
  (names : list alias) :
  (forall a c, im_lineno (step a c) = lineno /\ im_alias (step a c) = bound_name a) ->
  forall w w',
    for_each (fun a v => bind (index source_lines (lineno - 1))
                              (fun c => Return (add_import (step a c) v)))
             names w = Return w' ->
    map im_lineno (imports w') = map im_lineno (imports w) ++ map (fun _ => lineno) names /\
    map im_alias (imports w') = map im_alias (imports w) ++ map bound_name names.
Proof.
  intros Hstep.
  induction names as [|a names IH]; intros w w' H.
  - injection H as <-. now rewrite !app_nil_r.
  - rewrite for_each_cons in H. apply bind_return in H as (w1 & H1 & H2).
    apply bind_return in H1 as (c & _ & [= <-]).
    destruct (IH _ _ H2) as [E1 E2]. rewrite E1, E2.
    cbn [imports add_import]. rewrite !map_app. cbn [map].
    destruct (Hstep a c) as [-> ->].
    now rewrite <- !app_assoc.
Qed.

Lemma visit_import_statement (s : node) (w w' : visitor) :
  is_import_statement s = true ->
  visit source_lines s w = Return w' ->
  map im_lineno (imports w')
  = map im_lineno (imports w) ++ map (fun _ => statement_lineno s) (statement_names s) /\
  map im_alias (imports w') = map im_alias (imports w) ++ statement_aliases s.
Proof.
  destruct s as [l ns|l m ns| | | |]; try discriminate; intros _ H; simpl in H.
  - apply (import_loop_entries
             (fun a c => {| im_module := name a; im_alias := bound_name a;
                            im_lineno := l; im_code := c |}) l ns); [|exact H].
    now intros a c.
  - apply (import_loop_entries
             (fun a c => {| im_module := (module_text m ++ "." ++ name a)%string;
                            im_alias := bound_name a;
                            im_lineno := l; im_code := c |}) l ns); [|exact H].
    now intros a c.
Qed.

(** The imports of a module whose import statements are all at top level. *)
Lemma visit_body (body : list node) :
  (forall s, In s body -> is_import_statement s = false -> has_import s = false) ->
  forall w w',
    for_each (visit source_lines) body w = Return w' ->
    map im_lineno (imports w')
    = map im_lineno (imports w)
      ++ flat_map (fun s => map (fun _ => statement_lineno s) (statement_names s))
                  (filter is_import_statement body) /\
    map im_alias (imports w')
    = map im_alias (imports w)
      ++ flat_map statement_aliases (filter is_import_statement body).
Proof.
  induction body as [|s body IH]; intros Htop w w' H.
  - injection H as <-. simpl. now rewrite !app_nil_r.
  - rewrite for_each_cons in H. apply bind_return in H as (w1 & H1 & H2).
    destruct (IH (fun x Hx => Htop x (or_intror Hx)) _ _ H2) as [E1 E2].
    rewrite E1, E2. simpl.
    destruct (is_import_statement s) eqn:Es.
    + destruct (visit_import_statement _ _ _ Es H1) as [-> ->].
      simpl. now rewrite <- !app_assoc.
    + now rewrite (visit_keeps_imports s (Htop s (or_introl eq_refl) Es) _ _ H1).
Qed.

End Lines.

(** ** Distinct aliases, no usage *)

Lemma dict_set_fresh {V : Type} (k : string) (v : V) (d : dict V) :
  ~ In k (dict_keys d) -> dict_set k v d = d ++ [(k, v)].
Proof.
  induction d as [|[k' v'] d IH]; simpl; intros H; [reflexivity|].
  destruct (String.eqb k k') eqn:E.
  - apply String.eqb_eq in E. subst. tauto.
  - rewrite IH; [reflexivity|tauto].
Qed.

Lemma import_map_fold_distinct (imps : list import_entry) (d : dict import_entry) :
  NoDup (dict_keys d ++ map im_alias imps) ->
  fold_left (fun d imp => dict_set (im_alias imp) imp d) imps d
  = d ++ map (fun i => (im_alias i, i)) imps.
Proof.
  revert d. induction imps as [|i imps IH]; intros d H; simpl.
  - now rewrite app_nil_r.
  - simpl in H. rewrite dict_set_fresh.
    + rewrite IH.
      * now rewrite <- app_assoc.
      * unfold dict_keys. rewrite map_app, <- app_assoc. exact H.
    + apply NoDup_remove_2 in H. rewrite in_app_iff in H. tauto.
Qed.

(** With distinct aliases [import_map] keeps every import, in order. *)
Lemma import_map_distinct (imps : list import_entry) :
  NoDup (map im_alias imps) ->
  import_map_of imps = map (fun i => (im_alias i, i)) imps.
Proof. intros H. now apply (import_map_fold_distinct imps []). Qed.

Lemma no_usage_rooted_at (imps : list import_entry) (us : list usage_entry) (a : string) :
  (forall u, In u us -> known_alias imps u = false) ->
  In a (map im_alias imps) ->
  filter (rooted_at a) us = [].
Proof.
  intros Hus Ha. induction us as [|u us IH]; simpl; [reflexivity|].
  destruct (rooted_at a u) eqn:E.
  - exfalso. specialize (Hus u (or_introl eq_refl)).
    unfold known_alias in Hus. unfold rooted_at in E.
    assert (Hex : existsb (String.eqb (root_name u)) (map im_alias imps) = true)
      by (apply existsb_exists; now exists a).
    congruence.
  - apply IH. intros x Hx. apply Hus. now right.
Qed.

Lemma emit_imports_only (file_path : string) (v : visitor) :
  NoDup (map im_alias (imports v)) ->
  (forall u, In u (usage v) -> known_alias (imports v) u = false) ->
  emit file_path v = map (fun i => import_record file_path (im_alias i) i) (imports v).
Proof.
  intros Hnd Hus. rewrite emit_groups, (import_map_distinct _ Hnd).
  rewrite flat_map_concat_map, map_map.
  rewrite (map_ext_in _ (fun i => [import_record file_path (im_alias i) i])).
  - rewrite <- flat_map_concat_map. clear.
    induction (imports v) as [|i l IH]; simpl; [reflexivity|now rewrite IH].
  - intros i Hi. unfold group. simpl.
    rewrite (no_usage_rooted_at (imports v)); [reflexivity|assumption|].
    now apply in_map.
Qed.

Lemma single_names (statements : list node) :
  Forall (fun s => length (statement_names s) = 1) statements ->
  flat_map (fun s => map (fun _ => statement_lineno s) (statement_names s)) statements
  = map statement_lineno statements.
Proof.
  induction 1 as [|s l Hs _ IH]; simpl; [reflexivity|].
  rewrite IH. destruct (statement_names s) as [|a [|b t]]; try discriminate.
  reflexivity.
Qed.

(** C5, as amended.  For a source file whose import statements are all at
    the top level of the module, N of them, binding pairwise distinct
    aliases, and in which no recorded call or attribute expression is rooted
    at one of these aliases, the scanner emits import records only, one for
    each name that the statements import, in the order of the statements
    and of their names, each with the line of its statement and the alias it
    binds.  When every statement names a single module or name these are
    exactly N records, the k-th with the line of the k-th statement. *)
Theorem imports_without_usages
  (file_path : string) (lines : list string) (body : list node) (v : visitor) :
  let statements := filter is_import_statement body in
  visit lines (Other body) new_visitor = Return v ->
  (forall s, In s body -> is_import_statement s = false -> has_import s = false) ->
  NoDup (flat_map statement_aliases statements) ->
  (forall u, In u (usage v) -> known_alias (imports v) u = false) ->
  let out := analyze_file file_path (Return (lines, Other body)) in
  Forall (fun r => r_type r = "import") out /\
  length out = length (flat_map statement_names statements) /\
  map r_alias out = flat_map statement_aliases statements /\
  map r_lineno out
  = flat_map (fun s => map (fun _ => statement_lineno s) (statement_names s))
             statements /\
  (Forall (fun s => length (statement_names s) = 1) statements ->
   length out = length statements /\
   map r_lineno out = map statement_lineno statements).
Proof.
  intros statements Hv Htop Hnd Hus out.
  destruct (visit_body lines body Htop _ _ Hv) as [Hl Ha].
  simpl in Hl, Ha. fold statements in Hl, Ha.
  assert (Hout : out = map (fun i => import_record file_path (im_alias i) i) (imports v)).
  { unfold out, analyze_file. cbn [bind fst snd]. rewrite Hv.
    apply emit_imports_only; [now rewrite Ha|assumption]. }
  assert (Hlines : map r_lineno out
                   = flat_map (fun s => map (fun _ => statement_lineno s)
                                            (statement_names s)) statements)
    by (rewrite Hout, map_map; exact Hl).
  assert (Haliases : map r_alias out = flat_map statement_aliases statements)
    by (rewrite Hout, map_map; exact Ha).
  split; [|split; [|split; [|split]]].
  - rewrite Hout. apply Forall_forall. intros r Hr.
    apply in_map_iff in Hr as (i & <- & _). reflexivity.
  - rewrite <- (length_map r_alias), Haliases. unfold statement_aliases.
    generalize statements as l. clear. intros l.
    induction l as [|s l IH]; simpl; [reflexivity|].
    now rewrite !length_app, length_map, IH.
  - exact Haliases.
  - exact Hlines.
  - intros Hone. rewrite (single_names _ Hone) in Hlines. split; [|exact Hlines].
    now rewrite <- (length_map r_lineno), Hlines, length_map.
Qed.

Lemma imports_without_usages_witness :
  let out := analyze_file "app.py" (Return (imports_lines, Other imports_body)) in
  Forall (fun r => r_type r = "import") out /\
  length out = 3 /\
  map r_alias out = ["os"; "L"; "sys"] /\
  map r_lineno out = [1; 2; 3]%Z.
Proof.
  destruct (imports_without_usages "app.py" imports_lines imports_body _ eq_refl)
    as (H1 & _ & H3 & _ & H5).
  - intros s [<-|[<-|[<-|[<-|[]]]]]; simpl; intros H;
      first [discriminate H|reflexivity].
  - repeat constructor; simpl; intuition discriminate.
  - intros u [<-|[]]. reflexivity.
  - destruct H5 as [H5 H6]; [repeat constructor|].
    repeat split; assumption.
Defined.

(** C5 as it is worded fails: two statements that bind the same alias give
    one import record, and one statement that names two modules gives two.
    Neither file uses what it imports. *)
Lemma import_records_are_not_one_per_statement :
  length (filter is_import (analyze_file "app.py" (Return (twice_lines, Other twice_body))))
  <> length (filter is_import_statement twice_body) /\
  length (filter is_import (analyze_file "app.py" (Return (pair_lines, Other pair_body))))
  <> length (filter is_import_statement pair_body).
Proof. split; vm_compute; discriminate. Qed.

End ImportsOnly.

(* ================================================================== *)
(** * Failures of one file, and trees with nothing to analyze *)
(* ================================================================== *)

Module Failures.
Import PyStr Py Ast Fs DependencyTools AnalyzePythonAst Samples.

Section Run.

Context (path_join : string -> string -> string).
Context (normpath : string -> string).
Context (is_builtin_module : string -> res bool).
Context (pyproject_body poetry_lock_body pipfile_body setup_py_body : body).
Context (generate_pdf_report : list record -> string -> string -> res bool).

Local Abbreviation files := (dependency_files pyproject_body poetry_lock_body pipfile_body
                     setup_py_body).
Local Abbreviation manifests := (manifest_dependencies path_join pyproject_body
                         poetry_lock_body pipfile_body setup_py_body).
Local Abbreviation fails := (fails_to_parse path_join pyproject_body poetry_lock_body
                     pipfile_body setup_py_body).
Local Abbreviation extract := (extract_project_dependencies path_join is_builtin_module
                       pyproject_body poetry_lock_body pipfile_body setup_py_body).

(** An extractor whose body raises before it appends gives no row, whether
    it catches the exception or the driver does. *)
Lemma contribution_of_failure (h : handling) (b : body) (f : file) (msg : string) :
  b (manifest_path path_join f) f = ([], Some msg) ->
  contribution path_join (run h b) f = [].
Proof.
  intros H. unfold contribution, run. rewrite H. now destruct h.
Qed.

Lemma find_all_files_app (filename : string) (fs1 fs2 : list file) :
  find_all_files (fs1 ++ fs2) filename
  = find_all_files fs1 filename ++ find_all_files fs2 filename.
Proof. apply filter_app. Qed.

Lemma analyze_repo_app (fs1 fs2 : list file) :
  analyze_repo path_join normpath (fs1 ++ fs2)
  = analyze_repo path_join normpath fs1 ++ analyze_repo path_join normpath fs2.
Proof. apply flat_map_app. Qed.

(** An environment file that [yaml.safe_load] rejects fails to parse. *)
Lemma unloadable_environment_fails (f : file) (msg : string) :
  named "environment.yml" f = true -> f_yaml f = Raise msg -> fails f.
Proof.
  intros Hname Hyaml filename h b Hin Hnamed.
  unfold named in Hname, Hnamed.
  apply String.eqb_eq in Hname. rewrite Hname in Hnamed.
  simpl in Hin.
  destruct Hin as [E|[E|[E|[E|[E|[E|[]]]]]]]; injection E as <- <- <-;
    try discriminate Hnamed.
  exists msg. now rewrite Hyaml.
Qed.

(** What a file gives when the body of its extractor ends in an exception
    after [rows]: the rows, when the extractor catches the exception, and
    nothing, when the driver does. *)
Lemma contribution_of_interrupted (h : handling) (b : body) (f : file)
  (rows : list dependency) (msg : string) :
  b (manifest_path path_join f) f = (rows, Some msg) ->
  contribution path_join (run h b) f
  = match h with catching => rows | propagating => [] end.
Proof.
  intros H. unfold contribution, run. rewrite H. now destruct h.
Qed.

Local Abbreviation rows_of entry tree :=
  (flat_map (contribution path_join (run (fst (snd entry)) (snd (snd entry))))
            (find_all_files tree (fst entry))).

Lemma rows_of_other_entry (entry : string * (handling * body))
  (fs1 fs2 : list file) (f : file) :
  named (fst entry) f = false ->
  rows_of entry (fs1 ++ f :: fs2) = rows_of entry (fs1 ++ fs2).
Proof.
  intros H. rewrite !find_all_files_app. unfold find_all_files at 2.
  cbn [filter]. now rewrite H.
Qed.

Lemma rows_of_entry (entry : string * (handling * body))
  (fs1 fs2 : list file) (f : file) :
  named (fst entry) f = true ->
  rows_of entry (fs1 ++ f :: fs2)
  = rows_of entry fs1
    ++ contribution path_join (run (fst (snd entry)) (snd (snd entry))) f
    ++ rows_of entry fs2.
Proof.
  intros H. rewrite !find_all_files_app. unfold find_all_files at 2.
  cbn [filter]. rewrite H. rewrite flat_map_app. reflexivity.
Qed.

(** The rows of the manifests with one more file, which one entry of the
    table names: its contribution comes between the rows of the others. *)
Lemma manifests_with_file (es1 es2 : list (string * (handling * body)))
  (entry : string * (handling * body)) (fs1 fs2 : list file) (f : file) :
  files = es1 ++ entry :: es2 ->
  named (fst entry) f = true ->
  (forall e, In e (es1 ++ es2) -> named (fst e) f = false) ->
  exists before after,
    manifests (fs1 ++ fs2) = before ++ after /\
    manifests (fs1 ++ f :: fs2)
    = before
      ++ contribution path_join (run (fst (snd entry)) (snd (snd entry))) f
      ++ after.
Proof.
  intros Hfiles Hentry Hothers.
  exists (flat_map (fun e => rows_of e (fs1 ++ fs2)) es1 ++ rows_of entry fs1),
         (rows_of entry fs2 ++ flat_map (fun e => rows_of e (fs1 ++ fs2)) es2).
  unfold manifest_dependencies. rewrite Hfiles, !flat_map_app. cbn [flat_map].
  rewrite (rows_of_entry entry fs1 fs2 f Hentry).
  rewrite (Emission.flat_map_same (fun e => rows_of e (fs1 ++ f :: fs2))
             (fun e => rows_of e (fs1 ++ fs2)) es1),
          (Emission.flat_map_same (fun e => rows_of e (fs1 ++ f :: fs2))
             (fun e => rows_of e (fs1 ++ fs2)) es2).
  - split.
    + rewrite find_all_files_app, flat_map_app. now rewrite <- !app_assoc.
    + now rewrite <- !app_assoc.
  - intros e He. apply rows_of_other_entry, Hothers, in_or_app. now right.
  - intros e He. apply rows_of_other_entry, Hothers, in_or_app. now left.
Qed.

(** A file is named by one entry of the table at most. *)
Lemma named_by_one_entry (f : file) (filename : string) (h : handling) (b : body) :
  In (filename, (h, b)) files -> named filename f = true ->
  exists es1 es2,
    files = es1 ++ (filename, (h, b)) :: es2 /\
    forall e, In e (es1 ++ es2) -> named (fst e) f = false.
Proof.
  intros Hin Hnamed. unfold named in Hnamed. apply String.eqb_eq in Hnamed.
  unfold dependency_files in *. simpl in Hin.
  destruct Hin as [E|[E|[E|[E|[E|[E|[]]]]]]]; injection E as <- <- <-.
  - exists [], (skipn 1 files). split; [reflexivity|].
    intros e He. simpl in He.
    destruct He as [<-|[<-|[<-|[<-|[<-|[]]]]]]; unfold named; rewrite Hnamed;
      reflexivity.
  - exists (firstn 1 files), (skipn 2 files). split; [reflexivity|].
    intros e He. simpl in He.
    destruct He as [<-|[<-|[<-|[<-|[<-|[]]]]]]; unfold named; rewrite Hnamed;
      reflexivity.
  - exists (firstn 2 files), (skipn 3 files). split; [reflexivity|].
    intros e He. simpl in He.
    destruct He as [<-|[<-|[<-|[<-|[<-|[]]]]]]; unfold named; rewrite Hnamed;
      reflexivity.
  - exists (firstn 3 files), (skipn 4 files). split; [reflexivity|].
    intros e He. simpl in He.
    destruct He as [<-|[<-|[<-|[<-|[<-|[]]]]]]; unfold named; rewrite Hnamed;
      reflexivity.
  - exists (firstn 4 files), (skipn 5 files). split; [reflexivity|].
    intros e He. simpl in He.
    destruct He as [<-|[<-|[<-|[<-|[<-|[]]]]]]; unfold named; rewrite Hnamed;
      reflexivity.
  - exists (firstn 5 files), []. split; [reflexivity|].
    intros e He. simpl in He.
    destruct He as [<-|[<-|[<-|[<-|[<-|[]]]]]]; unfold named; rewrite Hnamed;
      reflexivity.
Qed.

(** C6, as amended.  A source file that cannot be read or parsed gives
    exactly one record, of type ["error"], with the message of the exception
    as its symbol and line -1, and the files before and after it give the
    records they give without it.  A manifest file of which the extractor
    raises before it has appended a row gives no row: the rows of the
    manifests are those of the tree without the file, and so are the table
    written and the string returned when the file is not also a [.py]
    source, which the line scan of [extract_python_file_dependencies] reads
    on its own.  A manifest file of which the extractor raises after it has
    appended [rows] gives these rows when the extractor catches the
    exception ([poetry.lock], [Pipfile], [environment.yml],
    [requirements.txt]) and no row when the driver does ([pyproject.toml],
    [setup.py]); the rows of the other files are all there, in their order,
    around those of the file.  Neither run is aborted. *)
Theorem failure_of_one_file_is_contained (fs1 fs2 : list file) (f : file) :
  (forall msg,
     endswith (f_name f) ".py" = true -> f_ast f = Raise msg ->
     analyze_repo path_join normpath (fs1 ++ f :: fs2)
     = analyze_repo path_join normpath fs1
       ++ {| r_file := normpath (path_join (f_root f) (f_name f));
             r_type := "error"; r_symbol := msg; r_alias := "";
             r_lineno := (-1)%Z; r_code := "" |}
       :: analyze_repo path_join normpath fs2) /\
  (fails f -> manifests (fs1 ++ f :: fs2) = manifests (fs1 ++ fs2)) /\
  (fails f -> endswith (f_name f) ".py" = false ->
   forall project_path,
     extract project_path (fs1 ++ f :: fs2) = extract project_path (fs1 ++ fs2)) /\
  (forall filename h b rows msg,
     In (filename, (h, b)) files -> named filename f = true ->
     b (manifest_path path_join f) f = (rows, Some msg) ->
     exists before after,
       manifests (fs1 ++ fs2) = before ++ after /\
       manifests (fs1 ++ f :: fs2)
       = before ++ match h with catching => rows | propagating => [] end ++ after /\
       (endswith (f_name f) ".py" = false ->
        forall project_path,
          extract project_path (fs1 ++ f :: fs2)
          = (csv_header
             :: (before ++ match h with catching => rows | propagating => [] end
                 ++ after)
             ++ extract_python_file_dependencies path_join is_builtin_module
                  (fs1 ++ fs2) "latest",
             snd (extract project_path (fs1 ++ fs2))))).
Proof.
  assert (Hm : fails f -> manifests (fs1 ++ f :: fs2) = manifests (fs1 ++ fs2)).
  { intros Hf. unfold manifest_dependencies.
    apply Emission.flat_map_same. intros [filename [h b]] Hin. simpl.
    rewrite !find_all_files_app, !flat_map_app. f_equal.
    unfold find_all_files at 1. simpl.
    destruct (named filename f) eqn:Hnamed; [|reflexivity].
    simpl. destruct (Hf filename h b Hin Hnamed) as (msg & Hb).
    now rewrite (contribution_of_failure h b f msg Hb). }
  assert (Hscan : endswith (f_name f) ".py" = false ->
                  extract_python_file_dependencies path_join is_builtin_module
                    (fs1 ++ f :: fs2) "latest"
                  = extract_python_file_dependencies path_join is_builtin_module
                      (fs1 ++ fs2) "latest").
  { intros Hpy. unfold extract_python_file_dependencies.
    rewrite !fold_left_app. simpl. now rewrite Hpy. }
  split; [|split; [|split]].
  - intros msg Hpy Hast. rewrite analyze_repo_app. f_equal.
    unfold analyze_repo at 1. simpl. now rewrite Hpy, Hast.
  - exact Hm.
  - intros Hf Hpy project_path. unfold extract_project_dependencies.
    now rewrite (Hm Hf), (Hscan Hpy).
  - intros filename h b rows msg Hin Hnamed Hb.
    destruct (named_by_one_entry f filename h b Hin Hnamed) as (es1 & es2 & Hes & Ho).
    destruct (manifests_with_file es1 es2 (filename, (h, b)) fs1 fs2 f Hes Hnamed Ho)
      as (before & after & E1 & E2).
    cbn [fst snd] in E2. rewrite (contribution_of_interrupted h b f rows msg Hb) in E2.
    exists before, after. split; [exact E1|]. split; [exact E2|].
    intros Hpy project_path. unfold extract_project_dependencies.
    now rewrite E2, (Hscan Hpy).
Qed.

(** C7 at a tree with no file.  [extract_project_dependencies] writes a
    table that holds the header alone and returns the string it returns for
    every tree; [generate_ast_usage_pdf] returns the error message of the
    [ValueError] it raises for an empty list of records, which no message of
    success equals. *)
Theorem empty_tree_outcomes (project_path : string) :
  extract project_path []
  = ([csv_header],
     ("Dependencies extracted and saved to "
      ++ path_join project_path "all_dependencies_with_paths.csv")%string) /\
  (forall tree, snd (extract project_path tree) = snd (extract project_path [])) /\
  generate_ast_usage_pdf path_join normpath generate_pdf_report project_path (Some [])
  = (cross_mark
     ++ " Error generating PDF: No Python files or analysis results found in the project path.")%string /\
  (forall tree output_pdf,
     generate_ast_usage_pdf path_join normpath generate_pdf_report project_path tree
     = ("AST usage report saved to: " ++ output_pdf)%string ->
     exists r results, analyze_repo path_join normpath (walk tree) = r :: results).
Proof.
  repeat split.
  intros tree output_pdf. unfold generate_ast_usage_pdf, generate_ast_usage_pdf_body.
  destruct tree as [fs|]; [|discriminate].
  destruct (analyze_repo path_join normpath (walk (Some fs))) as [|r results];
    [discriminate|eauto].
Qed.

End Run.

Lemma failure_of_one_file_is_contained_witness :
  analyze_repo join same
    ([source_file "/p" "a.py" pandas_lines pandas_tree]
     ++ broken_source "/p" "broken.py"
     :: [source_file "/p" "z.py" twice_lines (Other twice_body)])
  = analyze_repo join same [source_file "/p" "a.py" pandas_lines pandas_tree]
    ++ {| r_file := "/p/broken.py"; r_type := "error";
          r_symbol := "invalid syntax (broken.py, line 1)"; r_alias := "";
          r_lineno := (-1)%Z; r_code := "" |}
    :: analyze_repo join same [source_file "/p" "z.py" twice_lines (Other twice_body)]
  /\ manifest_dependencies join no_rows no_rows no_rows no_rows
       ([requirements "/p" requirements_lines] ++ broken_environment "/p/env"
        :: [requirements "/p/sub" ["requests"]])
     = [ ("/p/requirements.txt", "flask", "==2.0.1");
         ("/p/requirements.txt", "requests", "latest");
         ("/p/sub/requirements.txt", "requests", "latest") ]
  /\ extract_project_dependencies join never_builtin no_rows no_rows no_rows no_rows
       "/p" ([requirements "/p" requirements_lines] ++ broken_environment "/p/env"
             :: [requirements "/p/sub" ["requests"]])
     = ([ csv_header;
          ("/p/requirements.txt", "flask", "==2.0.1");
          ("/p/requirements.txt", "requests", "latest");
          ("/p/sub/requirements.txt", "requests", "latest") ],
        "Dependencies extracted and saved to /p/all_dependencies_with_paths.csv")
  /\ exists before after,
       manifest_dependencies join no_rows no_rows no_rows no_rows
         ([requirements "/p" requirements_lines]
          ++ [requirements "/p/sub" ["requests"]])
       = before ++ after /\
       manifest_dependencies join no_rows no_rows no_rows no_rows
         ([requirements "/p" requirements_lines]
          ++ half_read_requirements "/p/half" ["numpy>=1.21"; "rich"]
          :: [requirements "/p/sub" ["requests"]])
       = before
         ++ [ ("/p/half/requirements.txt", "numpy", ">=1.21");
              ("/p/half/requirements.txt", "rich", "latest") ]
         ++ after.
Proof.
  pose proof (unloadable_environment_fails join no_rows no_rows no_rows no_rows
                (broken_environment "/p/env") _ eq_refl eq_refl) as Hfails.
  destruct (failure_of_one_file_is_contained join same never_builtin
              no_rows no_rows no_rows no_rows
              [requirements "/p" requirements_lines]
              [requirements "/p/sub" ["requests"]] (broken_environment "/p/env"))
    as (_ & H2 & H3 & _).
  split; [|split; [|split]].
  - exact (proj1 (failure_of_one_file_is_contained join same never_builtin
                    no_rows no_rows no_rows
                    no_rows _ _ (broken_source "/p" "broken.py")) _ eq_refl eq_refl).
  - exact (H2 Hfails).
  - exact (H3 Hfails eq_refl "/p").
  - destruct (proj2 (proj2 (proj2
                (failure_of_one_file_is_contained join same never_builtin
                   no_rows no_rows no_rows no_rows
                   [requirements "/p" requirements_lines]
                   [requirements "/p/sub" ["requests"]]
                   (half_read_requirements "/p/half" ["numpy>=1.21"; "rich"]))))
              "requirements.txt" catching
              (fun p f => reading (f_text f) (pip_line p))
              [ ("/p/half/requirements.txt", "numpy", ">=1.21");
                ("/p/half/requirements.txt", "rich", "latest") ]
              "'utf-8' codec can't decode byte 0xff")
      as (before & after & E1 & E2 & _).
    + do 4 right. left. reflexivity.
    + reflexivity.
    + reflexivity.
    + exists before, after. split; assumption.
Defined.

(** C6 as it is worded fails: a requirements file of which two lines are
    read before the reader fails has failed, its extractor has caught the
    exception, and it gives two rows; so does an environment file with an
    item of a [pip] sub-list that is not a string. *)
Lemma failed_manifest_keeps_rows :
  snd (reading (f_text (half_read_requirements "/p" ["numpy>=1.21"; "rich"]))
         (pip_line "/p/requirements.txt")) <> None /\
  manifest_dependencies join no_rows no_rows no_rows no_rows
    [ half_read_requirements "/p" ["numpy>=1.21"; "rich"] ]
  = [ ("/p/requirements.txt", "numpy", ">=1.21");
      ("/p/requirements.txt", "rich", "latest") ] /\
  snd (conda_body "environment.yml"
         (Return (Yaml.YDict
                    [ (Yaml.KStr "dependencies",
                       Yaml.YList
                         [ Yaml.YStr "numpy";
                           Yaml.YDict [ (Yaml.KStr "pip",
                                         Yaml.YList [ Yaml.YStr "flask";
                                                      Yaml.YScalar ]) ] ]) ])))
  <> None /\
  get_conda_dependencies "environment.yml"
    (Return (Yaml.YDict
               [ (Yaml.KStr "dependencies",
                  Yaml.YList
                    [ Yaml.YStr "numpy";
                      Yaml.YDict [ (Yaml.KStr "pip",
                                    Yaml.YList [ Yaml.YStr "flask";
                                                 Yaml.YScalar ]) ] ]) ]))
  = [ ("environment.yml", "numpy", "latest");
      ("environment.yml", "flask", "latest") ].
Proof. repeat split; vm_compute; discriminate || reflexivity. Qed.

End Failures.

(* ================================================================== *)
(** * More on Python strings *)
(* ================================================================== *)

Module PyStrMore.
Import PyStr PyStrFacts Formats.

Lemma contains_app (c : ascii) (s t : string) :
  contains c (s ++ t) = contains c s || contains c t.
Proof.
  induction s as [|a s IH]; simpl; [reflexivity|].
  now rewrite IH, orb_assoc.
Qed.

Lemma append_empty (s : string) : (s ++ "")%string = s.
Proof. induction s as [|a s IH]; simpl; [reflexivity|now rewrite IH]. Qed.

Lemma nonempty_app_r (s t : string) : nonempty t = true -> nonempty (s ++ t) = true.
Proof. destruct s; simpl; auto. Qed.

Lemma span_stop (p : ascii -> bool) (s t : string) :
  all_chars p s = true -> stops p t = true -> span p (s ++ t) = (s, t).
Proof.
  intros Hs Ht. induction s as [|a s IH]; simpl in *.
  - destruct t as [|b t]; simpl in *; [reflexivity|].
    now destruct (p b).
  - apply andb_true_iff in Hs as [Ha Hs]. now rewrite Ha, (IH Hs).
Qed.

Lemma stops_of_start (p q : ascii -> bool) (s : string) :
  (forall c, q c = true -> p c = false) ->
  starts_with_char q s = true -> stops p s = true.
Proof.
  intros Hpq. destruct s as [|c s]; simpl; [reflexivity|].
  intros H. now rewrite (Hpq _ H).
Qed.

Lemma starts_app (q : ascii -> bool) (s t : string) :
  starts_with_char q s = true -> starts_with_char q (s ++ t) = true.
Proof. destruct s; simpl; [discriminate|auto]. Qed.

Lemma starts_after_all (p q r : ascii -> bool) (s t : string) :
  (forall c, p c = true -> r c = true) ->
  (forall c, q c = true -> r c = true) ->
  all_chars p s = true -> starts_with_char q t = true ->
  starts_with_char r (s ++ t) = true.
Proof.
  intros Hp Hq Hs Ht. destruct s as [|a s]; simpl in *.
  - destruct t as [|b t]; simpl in *; [discriminate|auto].
  - apply andb_true_iff in Hs as [Ha _]. auto.
Qed.

(** ** [lstrip] and [rstrip] on a concatenation *)

Lemma lstrip_stops (s : string) : stops isspace s = true -> lstrip s = s.
Proof. destruct s as [|a s]; simpl; [reflexivity|]. now destruct (isspace a). Qed.

Lemma stops_lstrip (s : string) : stops isspace (lstrip s) = true.
Proof.
  induction s as [|a s IH]; simpl; [reflexivity|].
  destruct (isspace a) eqn:E; [assumption|]. simpl. now rewrite E.
Qed.

Lemma lstrip_blank (ws s : string) :
  all_chars isspace ws = true -> lstrip (ws ++ s) = lstrip s.
Proof.
  induction ws as [|a ws IH]; simpl; [reflexivity|].
  intros H. apply andb_true_iff in H as [Ha Hws]. now rewrite Ha, IH.
Qed.

Lemma lstrip_app_char (s t : string) (c : ascii) :
  isspace c = false -> lstrip (s ++ String c t) = (lstrip s ++ String c t)%string.
Proof.
  intros Hc. induction s as [|a s IH]; simpl.
  - now rewrite Hc.
  - destruct (isspace a); [assumption|reflexivity].
Qed.

Lemma rstrip_blank (ws : string) : all_chars isspace ws = true -> rstrip ws = EmptyString.
Proof.
  induction ws as [|a ws IH]; simpl; [reflexivity|].
  intros H. apply andb_true_iff in H as [Ha Hws]. now rewrite (IH Hws), Ha.
Qed.

Lemma rstrip_app_keep (s t : string) :
  nonempty (rstrip t) = true -> rstrip (s ++ t) = (s ++ rstrip t)%string.
Proof.
  intros Ht. induction s as [|a s IH]; simpl; [reflexivity|].
  rewrite IH. destruct (s ++ rstrip t)%string as [|b u] eqn:E; [|reflexivity].
  exfalso. destruct s; simpl in E; [|discriminate]. now rewrite E in Ht.
Qed.

Lemma rstrip_app_blank (s ws : string) :
  all_chars isspace ws = true -> rstrip (s ++ ws) = rstrip s.
Proof.
  intros Hws. induction s as [|a s IH]; simpl.
  - now apply rstrip_blank.
  - now rewrite IH.
Qed.

Lemma rstrip_char (c : ascii) (s : string) :
  isspace c = false -> rstrip (String c s) = String c (rstrip s).
Proof.
  intros Hc. simpl. destruct (rstrip s); [now rewrite Hc|reflexivity].
Qed.

Lemma rstrip_ends (s t : string) :
  all_chars not_space t = true -> nonempty t = true -> rstrip (s ++ t) = (s ++ t)%string.
Proof.
  intros Hall Hne. rewrite rstrip_app_keep; rewrite (rstrip_no_space _ Hall); auto.
Qed.

Lemma rstrip_idempotent (s : string) : rstrip (rstrip s) = rstrip s.
Proof.
  induction s as [|a s IH]; simpl; [reflexivity|].
  destruct (rstrip s) as [|b t] eqn:E.
  - destruct (isspace a) eqn:Ea; simpl; [reflexivity|now rewrite Ea].
  - change (rstrip (String a (String b t)) = String a (String b t)).
    simpl in IH |- *. simpl. destruct t as [|c u].
    + simpl in IH. destruct (isspace b); [discriminate|reflexivity].
    + now rewrite IH.
Qed.

Lemma stops_rstrip (s : string) :
  stops isspace s = true -> stops isspace (rstrip s) = true.
Proof.
  destruct s as [|a s]; simpl; [reflexivity|].
  intros H. destruct (rstrip s); [|simpl; assumption].
  destruct (isspace a) eqn:Ea; [reflexivity|]. simpl. now rewrite Ea.
Qed.

(** [strip] is idempotent. *)
Lemma strip_idempotent (s : string) : strip (strip s) = strip s.
Proof.
  unfold strip.
  rewrite (lstrip_stops (rstrip (lstrip s))).
  - apply rstrip_idempotent.
  - apply stops_rstrip, stops_lstrip.
Qed.

(** Blanks around a string do not change what [strip] leaves. *)
Lemma strip_blanks (ws1 s ws2 : string) :
  all_chars isspace ws1 = true -> all_chars isspace ws2 = true ->
  strip (ws1 ++ s ++ ws2) = strip s.
Proof.
  intros H1 H2. unfold strip. rewrite (lstrip_blank _ _ H1). clear H1.
  induction s as [|a s IH]; simpl.
  - rewrite <- (append_empty ws2), (lstrip_blank _ _ H2). reflexivity.
  - destruct (isspace a); [assumption|].
    change (rstrip (String a s ++ ws2) = rstrip (String a s)).
    now apply rstrip_app_blank.
Qed.

End PyStrMore.

(* ================================================================== *)
(** * More on the dependency-spec splitter *)
(* ================================================================== *)

Module SplitterMore.
Import PyStr PyStrFacts PyStrMore DependencyTools Formats SplitDependency.

Lemma space_not_name (c : ascii) : isspace c = true -> name_char c = false.
Proof. each_char c. Qed.

Lemma operator_not_name (c : ascii) : operator_char c = true -> name_char c = false.
Proof. each_char c. Qed.

Lemma operator_not_space (c : ascii) : operator_char c = true -> isspace c = false.
Proof. each_char c. Qed.

Lemma blank_or_operator_not_name (c : ascii) :
  blank_or_operator c = true -> name_char c = false.
Proof. each_char c. Qed.

Lemma blank_or_operator_not_bracket (c : ascii) :
  blank_or_operator c = true -> Ascii.eqb c "[" = false.
Proof. each_char c. Qed.

Lemma blank_or_version_not_equals (c : ascii) :
  blank_or_version c = true -> Ascii.eqb "=" c = false.
Proof. each_char c. Qed.

Lemma version_not_space (c : ascii) : version_char c = true -> isspace c = false.
Proof. each_char c. Qed.

Lemma name_not_space (c : ascii) : name_char c = true -> isspace c = false.
Proof. each_char c. Qed.

Lemma extras_not_rbracket (c : ascii) : extras_char c = true -> not_rbracket c = true.
Proof. each_char c. Qed.

Lemma operator_starts (op t : string) :
  In op operators -> starts_with_char operator_char (op ++ t) = true.
Proof.
  unfold operators. simpl. intros [<-|[<-|[<-|[<-|[<-|[<-|[]]]]]]]; reflexivity.
Qed.

Lemma starts_version (ver : string) :
  nonempty ver = true -> all_chars version_char ver = true ->
  starts_with_char version_char ver = true.
Proof.
  destruct ver as [|c v]; simpl; [discriminate|].
  intros _ H. now apply andb_true_iff in H as [-> _].
Qed.

(** The operator of a specifier is the alternative that the pattern takes. *)
Lemma match_operator_of (op t : string) :
  In op operators -> starts_with_char blank_or_version t = true ->
  match_operator operators (op ++ t) = (Some op, t).
Proof.
  intros Hop Ht.
  destruct t as [|c t]; [discriminate|]. cbn [starts_with_char] in Ht.
  unfold operators in Hop. simpl in Hop.
  destruct Hop as [<-|[<-|[<-|[<-|[<-|[<-|[]]]]]]];
    destruct c as [[] [] [] [] [] [] [] []];
    first [reflexivity|vm_compute in Ht; discriminate Ht].
Qed.

Lemma skip_extras_text (extras : option string) (r : string) :
  plain_extras extras = true ->
  starts_with_char blank_or_operator r = true ->
  skip_extras (extras_text extras ++ r) = r.
Proof.
  destruct extras as [ex|]; simpl; intros Hex Hr.
  - apply andb_true_iff in Hex as [Hne Hall].
    rewrite append_assoc.
    rewrite (span_stop not_rbracket ex ("]" ++ r)).
    + destruct ex; [discriminate|reflexivity].
    + eapply all_chars_impl; [apply extras_not_rbracket|exact Hall].
    + reflexivity.
  - destruct r as [|c r]; simpl in *; [discriminate|].
    pose proof (blank_or_operator_not_bracket _ Hr) as Hc.
    destruct c as [[] [] [] [] [] [] [] []]; try reflexivity; discriminate.
Qed.

Lemma re_match_of_format (name : string) (extras : option string)
  (ws1 op ws2 ver : string) :
  nonempty name = true -> all_chars name_char name = true ->
  plain_extras extras = true ->
  all_chars isspace ws1 = true -> In op operators ->
  all_chars isspace ws2 = true ->
  nonempty ver = true -> all_chars version_char ver = true ->
  re_match_dependency (name ++ extras_text extras ++ ws1 ++ op ++ ws2 ++ ver)
  = Some (name, Some op, Some ver).
Proof.
  intros Hne Hname Hex Hws1 Hop Hws2 Hnv Hver.
  assert (Hstart : starts_with_char blank_or_operator (ws1 ++ op ++ ws2 ++ ver) = true).
  { apply (starts_after_all isspace operator_char); try assumption.
    - intros c Hc. unfold blank_or_operator. now rewrite Hc.
    - intros c Hc. unfold blank_or_operator. rewrite Hc. apply orb_true_r.
    - now apply operator_starts. }
  assert (Htail : starts_with_char blank_or_version (ws2 ++ ver) = true).
  { apply (starts_after_all isspace version_char); try assumption.
    - intros c Hc. unfold blank_or_version. now rewrite Hc.
    - intros c Hc. unfold blank_or_version. rewrite Hc. apply orb_true_r.
    - now apply starts_version. }
  unfold re_match_dependency.
  rewrite (span_stop name_char name); [|assumption|].
  - destruct name as [|c name]; [discriminate|].
    rewrite (skip_extras_text _ _ Hex Hstart).
    rewrite (span_stop isspace ws1); [|assumption|].
    + cbn [snd]. rewrite (match_operator_of _ _ Hop Htail).
      rewrite (span_stop isspace ws2); [|assumption|].
      * cbn [snd]. rewrite (span_whole _ _ Hver). cbn [fst].
        destruct ver; [discriminate|reflexivity].
      * apply (stops_of_start isspace version_char); [apply version_not_space|].
        now apply starts_version.
    + apply (stops_of_start isspace operator_char); [apply operator_not_space|].
      now apply operator_starts.
  - destruct extras as [ex|]; [reflexivity|].
    apply (stops_of_start name_char blank_or_operator);
      [apply blank_or_operator_not_name|exact Hstart].
Qed.

Lemma operator_chars (op : string) (c : ascii) :
  In op operators -> contains c op = true -> operator_char c = true.
Proof.
  unfold operators. simpl.
  intros [<-|[<-|[<-|[<-|[<-|[<-|[]]]]]]]; each_char c.
Qed.

Lemma contains_of_all (p : ascii -> bool) (c : ascii) (s : string) :
  all_chars p s = true -> contains c s = true -> p c = true.
Proof.
  induction s as [|a s IH]; simpl; [discriminate|].
  intros H Hc. apply andb_true_iff in H as [Ha Hs].
  apply orb_true_iff in Hc as [Hc|Hc]; [|now apply IH].
  apply Ascii.eqb_eq in Hc. now subst.
Qed.

(** Neither [';'] nor ['@'] occurs in a specifier of the format. *)
Lemma format_has_no (c : ascii) (name : string) (extras : option string)
  (ws1 op ws2 ver : string) :
  name_char c = false -> isspace c = false -> operator_char c = false ->
  version_char c = false -> extras_char c = false ->
  Ascii.eqb "[" c = false -> Ascii.eqb "]" c = false ->
  all_chars name_char name = true -> plain_extras extras = true ->
  all_chars isspace ws1 = true -> In op operators ->
  all_chars isspace ws2 = true -> all_chars version_char ver = true ->
  contains c (name ++ extras_text extras ++ ws1 ++ op ++ ws2 ++ ver) = false.
Proof.
  intros Hn Hs Ho Hv He Hl Hr Hname Hex Hws1 Hop Hws2 Hver.
  rewrite !contains_app.
  rewrite (contains_false_of_all name_char c name Hn Hname).
  rewrite (contains_false_of_all isspace c ws1 Hs Hws1).
  rewrite (contains_false_of_all isspace c ws2 Hs Hws2).
  rewrite (contains_false_of_all version_char c ver Hv Hver).
  assert (Hcop : contains c op = false).
  { destruct (contains c op) eqn:E; [|reflexivity].
    pose proof (operator_chars op c Hop E). congruence. }
  rewrite Hcop.
  destruct extras as [ex|]; [|reflexivity].
  apply andb_true_iff in Hex as [_ Hall].
  change (contains c (extras_text (Some ex)))
    with (Ascii.eqb "[" c || contains c (ex ++ "]")).
  rewrite Hl, contains_app, (contains_false_of_all extras_char c ex He Hall).
  change (contains c "]") with (Ascii.eqb "]" c || false).
  now rewrite Hr.
Qed.

(** X1.  A specifier written as a name, an optional bracketed list of
    extras, an operator and a version, with or without blanks around the
    operator, is split into the name and the operator followed by the
    version: the extras and the blanks are dropped. *)
Theorem split_dependency_of_format (name : string) (extras : option string)
  (ws1 op ws2 ver : string) :
  nonempty name = true -> all_chars name_char name = true ->
  plain_extras extras = true ->
  all_chars isspace ws1 = true -> In op operators ->
  all_chars isspace ws2 = true ->
  nonempty ver = true -> all_chars version_char ver = true ->
  split_dependency (name ++ extras_text extras ++ ws1 ++ op ++ ws2 ++ ver)
  = (name, (op ++ ver)%string).
Proof.
  intros Hne Hname Hex Hws1 Hop Hws2 Hnv Hver.
  set (dep := (name ++ extras_text extras ++ ws1 ++ op ++ ws2 ++ ver)%string).
  assert (Hsemi : contains ";" dep = false)
    by (apply format_has_no; auto).
  assert (Hat : contains "@" dep = false)
    by (apply format_has_no; auto).
  assert (Hstrip : strip dep = dep).
  { unfold strip. rewrite lstrip_stops.
    - unfold dep. rewrite <- !append_assoc. apply rstrip_ends; [|assumption].
      eapply all_chars_impl; [apply version_char_not_space|exact Hver].
    - unfold dep. destruct name as [|c name]; [discriminate|]. simpl in *.
      apply andb_true_iff in Hname as [Hc _]. now rewrite (name_not_space _ Hc). }
  unfold split_dependency. rewrite (without_marker_plain _ Hsemi), Hstrip, Hat.
  unfold dep. rewrite (re_match_of_format _ _ _ _ _ _ Hne Hname Hex Hws1 Hop Hws2 Hnv Hver).
  cbn [group_or].
  assert (Hop' : or_else op "" = op) by (now destruct op).
  assert (Hver' : or_else ver "" = ver) by (now destruct ver).
  rewrite Hop', Hver'.
  rewrite strip_no_space.
  - destruct op as [|c op]; [|reflexivity].
    exfalso. unfold operators in Hop. simpl in Hop. intuition discriminate.
  - rewrite all_chars_app. apply andb_true_iff. split.
    + now apply operator_no_space.
    + eapply all_chars_impl; [apply version_char_not_space|exact Hver].
Qed.

Lemma split_dependency_of_format_witness :
  split_dependency "uvicorn[standard] >= 0.23.*" = ("uvicorn", ">=0.23.*").
Proof.
  apply (split_dependency_of_format "uvicorn" (Some "standard") " " ">=" " " "0.23.*");
    try reflexivity.
  simpl. tauto.
Defined.

End SplitterMore.

Module SplitterInvariance.
Import PyStr PyStrFacts PyStrMore DependencyTools Formats SplitDependency SplitterMore.

Lemma without_marker_of_strip (d e : string) :
  strip d = strip e -> without_marker d = without_marker e.
Proof. unfold without_marker. now intros ->. Qed.

Lemma split_dependency_of_marker_free (d e : string) :
  without_marker d = without_marker e -> split_dependency d = split_dependency e.
Proof. unfold split_dependency. now intros ->. Qed.

Lemma without_marker_cut (d m : string) :
  contains ";" d = false -> without_marker (d ++ ";" ++ m) = without_marker d.
Proof.
  intros Hd. rewrite (without_marker_plain d Hd).
  unfold without_marker.
  assert (Hstrip : strip (d ++ ";" ++ m) = (lstrip d ++ String ";" (rstrip m))%string).
  { unfold strip. change (d ++ ";" ++ m)%string with (d ++ String ";" m)%string.
    rewrite (lstrip_app_char d m ";" eq_refl).
    rewrite rstrip_app_keep; rewrite (rstrip_char ";" m eq_refl); reflexivity. }
  rewrite Hstrip, contains_app. simpl contains at 2. rewrite orb_true_r.
  rewrite split1_before.
  - cbn [fst]. unfold strip. f_equal.
    apply lstrip_stops, stops_lstrip.
  - now rewrite contains_lstrip.
Qed.

(** X2.  An environment marker never changes the result: a specifier
    without [';'] is split the same with any text put after it behind a
    [';']. *)
Theorem split_dependency_ignores_marker (d m : string) :
  contains ";" d = false ->
  split_dependency (d ++ ";" ++ m) = split_dependency d.
Proof.
  intros Hd. apply split_dependency_of_marker_free. now apply without_marker_cut.
Qed.

Lemma split_dependency_ignores_marker_witness :
  split_dependency ("pywin32 >= 1.0" ++ ";" ++ " sys_platform == 'win32'")
  = split_dependency "pywin32 >= 1.0".
Proof. apply split_dependency_ignores_marker. reflexivity. Defined.

(** X3.  Blanks before and after a specifier never change the result. *)
Theorem split_dependency_ignores_blanks (ws1 d ws2 : string) :
  all_chars isspace ws1 = true -> all_chars isspace ws2 = true ->
  split_dependency (ws1 ++ d ++ ws2) = split_dependency d.
Proof.
  intros H1 H2. apply split_dependency_of_marker_free, without_marker_of_strip.
  now apply strip_blanks.
Qed.

Lemma split_dependency_ignores_blanks_witness :
  split_dependency ("  " ++ "numpy<2" ++ " ") = split_dependency "numpy<2".
Proof. apply split_dependency_ignores_blanks; reflexivity. Defined.

Lemma without_marker_clean (dep : string) :
  contains ";" (without_marker dep) = false /\
  strip (without_marker dep) = without_marker dep.
Proof.
  unfold without_marker. destruct (contains ";" (strip dep)) eqn:E.
  - split; [|apply strip_idempotent].
    rewrite contains_strip by reflexivity. apply split1_first.
  - split; [exact E|apply strip_idempotent].
Qed.

Lemma re_match_package (dep p : string) (g2 g3 : option string) :
  re_match_dependency dep = Some (p, g2, g3) ->
  all_chars name_char p = true.
Proof.
  unfold re_match_dependency.
  pose proof (span_all name_char dep) as Hall.
  destruct (span name_char dep) as [g1 r1]. simpl in Hall.
  destruct g1 as [|c g1]; [discriminate|].
  destruct (match_operator operators (snd (span isspace (skip_extras r1)))).
  now intros [= <- _ _].
Qed.

(** X4.  Whatever the specifier, the package that the splitter returns has
    no blank at either end and contains neither [';'] nor ['@']. *)
Theorem split_dependency_package_clean (dep : string) :
  let package := fst (split_dependency dep) in
  strip package = package /\
  contains ";" package = false /\
  contains "@" package = false.
Proof.
  destruct (without_marker_clean dep) as [Hsemi Hstrip].
  unfold split_dependency.
  destruct (contains "@" (without_marker dep)) eqn:Hat.
  - pose proof (split1_first "@" (without_marker dep)) as Hfirst.
    pose proof (split1_app "@" _ Hat) as Happ.
    destruct (split1 "@" (without_marker dep)) as [l r]. simpl in *.
    split; [apply strip_idempotent|].
    rewrite !contains_strip by reflexivity. split; [|assumption].
    rewrite Happ, contains_app in Hsemi. now apply orb_false_iff in Hsemi as [-> _].
  - destruct (re_match_dependency (without_marker dep)) as [[[p g2] g3]|] eqn:E;
      simpl.
    + pose proof (re_match_package _ _ _ _ E) as Hp. split; [|split].
      * apply strip_no_space.
        eapply all_chars_impl; [apply name_char_not_space|exact Hp].
      * now apply (contains_false_of_all name_char).
      * now apply (contains_false_of_all name_char).
    + auto.
Qed.

End SplitterInvariance.

(* ================================================================== *)
(** * The rows of the extractors *)
(* ================================================================== *)

Module ExtractorRows.
Import PyStr PyStrFacts PyStrMore Py Fs DependencyTools Formats Rows Yaml Conda
       SplitterInvariance.

Lemma version_never_empty (dep : string) : snd (split_dependency dep) <> EmptyString.
Proof.
  unfold split_dependency. destruct (contains "@" (without_marker dep)).
  - destruct (split1 "@" (without_marker dep)). discriminate.
  - destruct (re_match_dependency (without_marker dep)) as [[[p g2] g3]|];
      [|discriminate].
    simpl. destruct (strip _); discriminate.
Qed.

Lemma row_is_row_of (path s : string) : row_of path (row path s).
Proof. split; [reflexivity|apply version_never_empty]. Qed.

(** ** Appending computations that keep a property of the rows *)

Lemma keeps_and_then (P : dependency -> Prop) (a b : appending) :
  keeps P a -> keeps P b -> keeps P (a ;;; b).
Proof.
  unfold keeps. destruct a as [ds [e|]]; simpl; [auto|].
  intros Ha Hb. apply Forall_app. now split.
Qed.

Lemma keeps_for_appending {A : Type} (P : dependency -> Prop) (f : A -> appending)
  (l : list A) :
  (forall a, keeps P (f a)) -> keeps P (for_appending f l).
Proof.
  intros Hf. induction l as [|a l IH]; simpl; [constructor|].
  now apply keeps_and_then.
Qed.

Lemma keeps_for_iter (P : dependency -> Prop) (v : res (list yaml))
  (f : yaml -> appending) :
  (forall a, keeps P (f a)) -> keeps P (for_iter v f).
Proof.
  intros Hf. destruct v as [items|msg]; simpl; [|constructor].
  now apply keeps_for_appending.
Qed.

Lemma keeps_split_value (env_file : string) (v : yaml) :
  keeps (row_of env_file) (split_value env_file v).
Proof.
  destruct v as [s| | | |]; try constructor.
  rewrite split_value_string. repeat constructor. apply version_never_empty.
Qed.

Lemma keeps_python_entry (env_file : string) (item : yaml) :
  keeps (row_of env_file) (python_entry env_file item).
Proof.
  destruct item as [s| | | |]; try constructor. simpl.
  destruct (startswith s "python"); repeat constructor. apply version_never_empty.
Qed.

Lemma keeps_conda_entry (env_file : string) (dep : yaml) :
  keeps (row_of env_file) (conda_entry env_file dep).
Proof.
  destruct dep as [s|items|entries|items|]; try constructor.
  - apply keeps_split_value.
  - simpl. destruct (lookup "pip" entries); [|constructor].
    apply keeps_for_iter, keeps_split_value.
Qed.

(** X5.  Whatever the document of an environment file is, well formed or
    not, loaded or not, every row that [get_conda_dependencies] returns
    carries the path of the file and a version that is not empty.  When
    [dependencies] is not a list but another iterable, a set for one, the
    first loop is skipped and the second one runs: the extractor returns
    the rows of the entries, in the order in which the iteration yields
    them, without a synthetic row for the entries that start with
    ["python"]. *)
Theorem get_conda_dependencies_rows_sound (env_file : string) (doc : res yaml) :
  Forall (row_of env_file) (get_conda_dependencies env_file doc) /\
  (forall entries items,
     doc = Return (YDict entries) ->
     lookup "dependencies" entries = Some (YIter items) ->
     forallb plain_entry items = true ->
     get_conda_dependencies env_file doc = flat_map (entry_rows env_file) items).
Proof.
  split.
  - unfold get_conda_dependencies.
    change (keeps (row_of env_file) (conda_body env_file doc)).
    unfold conda_body. destruct doc as [env_data|msg]; [|constructor].
    destruct (get_dependencies env_data) as [python_version|msg]; [|constructor].
    apply keeps_and_then.
    + destruct python_version; try constructor.
      apply keeps_for_appending, keeps_python_entry.
    + apply keeps_for_iter, keeps_conda_entry.
  - intros entries items -> Hdeps Hplain.
    unfold get_conda_dependencies, conda_body, get_dependencies.
    rewrite Hdeps. cbn [iter for_iter].
    rewrite (for_appending_completed _ (entry_rows env_file)); [reflexivity|].
    rewrite forallb_forall in Hplain. apply Forall_forall. intros dep Hdep.
    apply conda_entry_rows. now apply Hplain.
Qed.

Lemma get_conda_dependencies_rows_sound_witness :
  get_conda_dependencies "environment.yml"
    (Return (YDict [ (KStr "dependencies",
                      YIter [ YStr "python=3.9"; YStr "numpy" ]) ]))
  = [ ("environment.yml", "python", "latest");
      ("environment.yml", "numpy", "latest") ].
Proof.
  exact (proj2 (get_conda_dependencies_rows_sound "environment.yml"
                  (Return (YDict [ (KStr "dependencies",
                                    YIter [ YStr "python=3.9"; YStr "numpy" ]) ])))
           [ (KStr "dependencies", YIter [ YStr "python=3.9"; YStr "numpy" ]) ]
           [ YStr "python=3.9"; YStr "numpy" ] eq_refl eq_refl eq_refl).
Defined.

Lemma for_appending_app {A : Type} (f : A -> appending) (l1 l2 : list A) :
  for_appending f (l1 ++ l2) = for_appending f l1 ;;; for_appending f l2.
Proof.
  induction l1 as [|a l1 IH]; simpl.
  - now destruct (for_appending f l2).
  - rewrite IH. destruct (f a) as [ds [e|]]; [reflexivity|].
    destruct (for_appending f l1) as [ds1 [e1|]]; simpl; [reflexivity|].
    now rewrite app_assoc.
Qed.

(** A loop that meets an item on which its body raises keeps the rows of
    the items before it and those that the body appended, and stops. *)
Lemma for_appending_interrupted {A : Type} (f : A -> appending)
  (g : A -> list dependency) (l1 l2 : list A) (a : A)
  (rows : list dependency) (msg : string) :
  Forall (fun x => f x = (g x, None)) l1 ->
  f a = (rows, Some msg) ->
  for_appending f (l1 ++ a :: l2) = (flat_map g l1 ++ rows, Some msg).
Proof.
  intros Hl1 Ha. rewrite for_appending_app, (for_appending_completed f g l1 Hl1).
  simpl. now rewrite Ha.
Qed.

(** X6.  When an entry of the [dependencies] list has a [pip] sub-list with
    an item that is not a string, [get_conda_dependencies] returns the
    synthetic python rows of the whole list, the rows of the entries before
    that entry and the rows of the [pip] items before that item; the items
    and entries after it give nothing. *)
Theorem get_conda_dependencies_interrupted
  (env_file : string) (entries : list (key * yaml))
  (before after : list yaml) (pip_entry : list (key * yaml))
  (strings more : list yaml) (item : yaml) :
  lookup "dependencies" entries
  = Some (YList (before ++ YDict pip_entry :: after)) ->
  forallb plain_entry before = true ->
  lookup "pip" pip_entry = Some (YList (strings ++ item :: more)) ->
  forallb is_string strings = true ->
  is_string item = false ->
  get_conda_dependencies env_file (Return (YDict entries))
  = flat_map (synthetic_rows env_file) (before ++ YDict pip_entry :: after)
    ++ flat_map (entry_rows env_file) before
    ++ flat_map (string_rows env_file) strings.
Proof.
  intros Hdeps Hbefore Hpip Hstrings Hitem.
  unfold get_conda_dependencies, conda_body, get_dependencies.
  rewrite Hdeps. cbn [iter for_iter].
  rewrite (for_appending_completed _ (synthetic_rows env_file)).
  - rewrite and_then_completed.
    assert (Hentry : conda_entry env_file (YDict pip_entry)
                     = (flat_map (string_rows env_file) strings,
                        Some "object has no attribute 'strip'")).
    { simpl. rewrite Hpip. cbn [iter for_iter].
      rewrite (for_appending_interrupted _ (string_rows env_file) strings more item
                 [] "object has no attribute 'strip'").
      - now rewrite app_nil_r.
      - rewrite forallb_forall in Hstrings. apply Forall_forall. intros v Hv.
        specialize (Hstrings v Hv). destruct v; try discriminate.
        apply split_value_string.
      - destruct item; try reflexivity. discriminate. }
    assert (Hrows : Forall (fun x => conda_entry env_file x
                                     = (entry_rows env_file x, None)) before).
    { rewrite forallb_forall in Hbefore. apply Forall_forall. intros dep Hdep.
      apply conda_entry_rows. now apply Hbefore. }
    now rewrite (for_appending_interrupted _ (entry_rows env_file) before after _ _ _
                   Hrows Hentry).
  - apply Forall_forall. intros x _. apply python_entry_rows.
Qed.

Lemma get_conda_dependencies_interrupted_witness :
  get_conda_dependencies "environment.yml"
    (Return (YDict [ (KStr "dependencies",
                      YList ([YStr "numpy"]
                             ++ YDict [ (KStr "pip",
                                         YList ([YStr "flask"] ++ YScalar :: [YStr "rich"])) ]
                             :: [YStr "python=3.9"])) ]))
  = [ ("environment.yml", "python", "latest");
      ("environment.yml", "numpy", "latest");
      ("environment.yml", "flask", "latest") ].
Proof.
  exact (get_conda_dependencies_interrupted "environment.yml"
           [ (KStr "dependencies",
              YList ([YStr "numpy"]
                     ++ YDict [ (KStr "pip",
                                 YList ([YStr "flask"] ++ YScalar :: [YStr "rich"])) ]
                     :: [YStr "python=3.9"])) ]
           [YStr "numpy"] [YStr "python=3.9"]
           [ (KStr "pip", YList ([YStr "flask"] ++ YScalar :: [YStr "rich"])) ]
           [YStr "flask"] [YStr "rich"] YScalar
           eq_refl eq_refl eq_refl eq_refl eq_refl).
Defined.

Lemma pip_line_row (p line : string) :
  pip_line p line = ((if is_requirement line then [row p line] else []), None).
Proof.
  unfold pip_line, is_requirement.
  destruct (nonempty (strip line) && negb (startswith (strip line) "#")); [|reflexivity].
  unfold row.
  assert (E : split_dependency (strip line) = split_dependency line).
  { apply split_dependency_of_marker_free, without_marker_of_strip, strip_idempotent. }
  rewrite <- E. now destruct (split_dependency (strip line)).
Qed.

(** X7.  [get_pip_dependencies] returns one row for each line read that is
    neither blank nor a comment, in the order of the lines, split as the
    line is; the rows of the lines read before a failure of the reader are
    kept.  Every row carries the path of the file and a version that is not
    empty. *)
Theorem get_pip_dependencies_rows (requirements_file : string)
  (lines : list string) (failure : option string) :
  get_pip_dependencies requirements_file (lines, failure)
  = map (row requirements_file) (filter is_requirement lines) /\
  Forall (row_of requirements_file)
         (get_pip_dependencies requirements_file (lines, failure)).
Proof.
  assert (E : get_pip_dependencies requirements_file (lines, failure)
              = map (row requirements_file) (filter is_requirement lines)).
  { unfold get_pip_dependencies, reading. cbn [fst snd].
    rewrite (for_appending_completed _
               (fun line => if is_requirement line then [row requirements_file line]
                            else [])).
    - rewrite and_then_completed.
      assert (Hend : forall rows : list dependency,
                 fst (rows ++ fst (match failure with
                                   | Some msg => raise msg
                                   | None => skip
                                   end),
                      snd (match failure with
                           | Some msg => raise msg
                           | None => skip
                           end)) = rows)
        by (intros rows; destruct failure; simpl; apply app_nil_r).
      rewrite Hend. clear.
      induction lines as [|l lines IH]; simpl; [reflexivity|].
      rewrite IH. now destruct (is_requirement l).
    - apply Forall_forall. intros line _. apply pip_line_row. }
  split; [exact E|]. rewrite E. apply Forall_forall. intros r Hr.
  apply in_map_iff in Hr as (line & <- & _). apply row_is_row_of.
Qed.

End ExtractorRows.

(* ================================================================== *)
(** * The line scan of source files *)
(* ================================================================== *)

Module LineScan.
Import PyStr PyStrFacts PyStrMore Py Fs DependencyTools Formats Rows.

Lemma dependency_eqb_eq (a b : dependency) : dependency_eqb a b = true <-> a = b.
Proof.
  destruct a as [[p m] v], b as [[p' m'] v']. unfold dependency_eqb.
  rewrite !andb_true_iff, !String.eqb_eq. split.
  - now intros [[-> ->] ->].
  - now intros [= -> -> ->].
Qed.

Lemma set_add_in (d x : dependency) (s : list dependency) :
  In x (set_add d s) <-> x = d \/ In x s.
Proof.
  unfold set_add. destruct (existsb (dependency_eqb d) s) eqn:E.
  - split; [now right|]. intros [->|H]; [|assumption].
    apply existsb_exists in E as (y & Hy & Ey).
    apply dependency_eqb_eq in Ey. now subst.
  - rewrite in_app_iff. simpl. intuition.
Qed.

(** [set.add] keeps the elements distinct. *)
Lemma set_add_nodup (d : dependency) (s : list dependency) :
  NoDup s -> NoDup (set_add d s).
Proof.
  intros H. unfold set_add. destruct (existsb (dependency_eqb d) s) eqn:E;
    [assumption|].
  apply NoDup_app; [assumption|repeat constructor; simpl; tauto|].
  intros x Hx [Hd|[]]. subst x.
  assert (Hex : existsb (dependency_eqb d) s = true).
  { apply existsb_exists. exists d. split; [assumption|now apply dependency_eqb_eq]. }
  congruence.
Qed.

Section Scan.

Context (path_join : string -> string -> string).
Context (is_builtin_module : string -> res bool).

Local Abbreviation scan_rows :=
  (extract_python_file_dependencies path_join is_builtin_module).
Local Abbreviation from_scan := (scanned path_join is_builtin_module).

(** What one line adds to the set. *)
Lemma scan_line_adds (file_path python_version line : string)
  (s s' : list dependency) :
  scan_line is_builtin_module file_path python_version line s = Return s' ->
  (NoDup s -> NoDup s') /\
  forall x, In x s' ->
    In x s \/
    exists g, re_match_import line = Some g /\
              is_builtin_module (fst (split1 "." g)) = Return false /\
              x = (file_path, fst (split1 "." g), python_version).
Proof.
  unfold scan_line. destruct (re_match_import line) as [g|].
  - destruct (is_builtin_module (fst (split1 "." g))) as [[|]|msg] eqn:E; simpl;
      try discriminate; intros [= <-].
    + split; [auto|]. intros x Hx. now left.
    + split; [apply set_add_nodup|]. intros x Hx.
      apply set_add_in in Hx as [->|Hx]; [|now left].
      right. now exists g.
  - intros [= <-]. split; [auto|]. intros x Hx. now left.
Qed.

Lemma scan_lines_adds (file_path python_version : string) (lines : list string) :
  forall s,
    (NoDup s -> NoDup (scan_lines is_builtin_module file_path python_version lines s)) /\
    forall x, In x (scan_lines is_builtin_module file_path python_version lines s) ->
      In x s \/
      exists line g,
        In line lines /\ re_match_import line = Some g /\
        is_builtin_module (fst (split1 "." g)) = Return false /\
        x = (file_path, fst (split1 "." g), python_version).
Proof.
  induction lines as [|line lines IH]; intros s; simpl.
  - split; [auto|]. intros x Hx. now left.
  - destruct (scan_line is_builtin_module file_path python_version line s)
      as [s'|msg] eqn:E.
    + destruct (scan_line_adds _ _ _ _ _ E) as [Hnd Hin].
      destruct (IH s') as [Hnd' Hin']. split; [auto|].
      intros x Hx. destruct (Hin' x Hx) as [Hx'|(l & g & Hl & Hg & Hb & ->)].
      * destruct (Hin x Hx') as [Hs|(g & Hg & Hb & ->)]; [now left|].
        right. exists line, g. auto.
      * right. exists l, g. auto.
    + split; [auto|]. intros x Hx. now left.
Qed.

Lemma scan_files (python_version : string) (tree fs : list file) :
  (forall f, In f fs -> In f tree) ->
  forall s,
    NoDup s -> Forall (from_scan tree python_version) s ->
    let s' := fold_left
                (fun s f =>
                   if endswith (f_name f) ".py"
                   then scan_lines is_builtin_module (manifest_path path_join f)
                          python_version (fst (f_text f)) s
                   else s) fs s in
    NoDup s' /\ Forall (from_scan tree python_version) s'.
Proof.
  induction fs as [|f fs IH]; intros Hsub s Hnd Hall; simpl; [auto|].
  apply IH.
  - intros x Hx. apply Hsub. now right.
  - destruct (endswith (f_name f) ".py"); [|assumption].
    now apply scan_lines_adds.
  - destruct (endswith (f_name f) ".py") eqn:Epy; [|assumption].
    apply Forall_forall. intros x Hx.
    destruct (proj2 (scan_lines_adds _ python_version (fst (f_text f)) s) x Hx)
      as [Hs|(line & g & Hl & Hg & Hb & ->)].
    + rewrite Forall_forall in Hall. now apply Hall.
    + exists f, line, g. repeat split; auto. apply Hsub. now left.
Qed.

(** X8.  The rows that the line scan of the source files returns are
    pairwise distinct.  Each comes from a line of a [.py] file of the tree
    that starts, after blanks, with [import] or [from]: it carries the path
    of that file, the first dotted component of the module named on the
    line, for which the builtin probe answered no, and the version passed
    by the caller; the module in a row contains no dot. *)
Theorem extract_python_file_dependencies_rows (tree : list file)
  (python_version : string) :
  NoDup (scan_rows tree python_version) /\
  Forall (from_scan tree python_version) (scan_rows tree python_version) /\
  Forall (fun r => contains "." (row_package r) = false /\
                   row_version r = python_version)
         (scan_rows tree python_version).
Proof.
  destruct (scan_files python_version tree tree (fun f H => H) [] (NoDup_nil _)
              (Forall_nil _)) as [Hnd Hall].
  split; [exact Hnd|]. split; [exact Hall|].
  eapply Forall_impl; [|exact Hall].
  intros r (f & line & g & _ & _ & _ & _ & _ & ->). split; [|reflexivity].
  apply split1_first.
Qed.

(** *** Every import line is listed, until a probe raises *)

Local Abbreviation scan_file python_version :=
  (fun s f =>
     if endswith (f_name f) ".py"
     then scan_lines is_builtin_module (manifest_path path_join f)
            python_version (fst (f_text f)) s
     else s).

Lemma set_add_incl (d : dependency) (s : list dependency) : incl s (set_add d s).
Proof. intros x Hx. apply set_add_in. now right. Qed.

Lemma scan_line_grows (file_path python_version line : string)
  (s s' : list dependency) :
  scan_line is_builtin_module file_path python_version line s = Return s' ->
  incl s s'.
Proof.
  unfold scan_line. destruct (re_match_import line) as [g|].
  - destruct (is_builtin_module (fst (split1 "." g))) as [[|]|msg]; simpl;
      try discriminate; intros [= <-]; [apply incl_refl|apply set_add_incl].
  - intros [= <-]. apply incl_refl.
Qed.

Lemma scan_lines_grows (file_path python_version : string) (lines : list string) :
  forall s, incl s (scan_lines is_builtin_module file_path python_version lines s).
Proof.
  induction lines as [|line lines IH]; intros s; simpl; [apply incl_refl|].
  destruct (scan_line is_builtin_module file_path python_version line s)
    as [s'|msg] eqn:E; [|apply incl_refl].
  eapply incl_tran; [exact (scan_line_grows _ _ _ _ _ E)|apply IH].
Qed.

Lemma scan_files_grow (python_version : string) (fs : list file) :
  forall s, incl s (fold_left (scan_file python_version) fs s).
Proof.
  induction fs as [|f fs IH]; intros s; simpl; [apply incl_refl|].
  eapply incl_tran; [|apply IH].
  destruct (endswith (f_name f) ".py"); [apply scan_lines_grows|apply incl_refl].
Qed.

Lemma scan_line_probed (file_path python_version line : string)
  (s : list dependency) :
  probed is_builtin_module line ->
  exists s', scan_line is_builtin_module file_path python_version line s = Return s'.
Proof.
  unfold probed, scan_line. destruct (re_match_import line) as [g|]; [|eauto].
  intros [builtin ->]. simpl. eauto.
Qed.

Lemma scan_lines_reach (file_path python_version : string)
  (pre post : list string) (line g : string) :
  Forall (probed is_builtin_module) pre ->
  re_match_import line = Some g ->
  is_builtin_module (fst (split1 "." g)) = Return false ->
  forall s,
    In (file_path, fst (split1 "." g), python_version)
       (scan_lines is_builtin_module file_path python_version
          (pre ++ line :: post) s).
Proof.
  intros Hpre Hg Hb. induction Hpre as [|l pre Hl _ IH]; intros s.
  - cbn [app scan_lines]. unfold scan_line. rewrite Hg, Hb. simpl.
    apply scan_lines_grows. apply set_add_in. now left.
  - cbn [app scan_lines].
    destruct (scan_line_probed file_path python_version l s Hl) as [s' ->].
    apply IH.
Qed.

(** X9.  A line of a [.py] file of the tree that the pattern recognises as
    an import of a module whose first component the probe does not take for
    a builtin gives a row in the result of the line scan, with the path of
    the file, that component and the version passed, provided the probe
    raised no exception on an earlier import line of the same file. *)
Theorem every_import_line_is_listed (tree : list file) (python_version : string)
  (f : file) (pre post : list string) (line g : string) :
  In f tree -> endswith (f_name f) ".py" = true ->
  fst (f_text f) = pre ++ line :: post ->
  Forall (probed is_builtin_module) pre ->
  re_match_import line = Some g ->
  is_builtin_module (fst (split1 "." g)) = Return false ->
  In (manifest_path path_join f, fst (split1 "." g), python_version)
     (scan_rows tree python_version).
Proof.
  intros Hin Hpy Hlines Hpre Hg Hb.
  apply in_split in Hin as (t1 & t2 & ->).
  unfold extract_python_file_dependencies. rewrite fold_left_app. cbn [fold_left].
  apply scan_files_grow. rewrite Hpy, Hlines. now apply scan_lines_reach.
Qed.

Lemma scan_lines_cut (file_path python_version : string)
  (pre post : list string) (line g msg : string) :
  re_match_import line = Some g ->
  is_builtin_module (fst (split1 "." g)) = Raise msg ->
  forall s,
    scan_lines is_builtin_module file_path python_version (pre ++ line :: post) s
    = scan_lines is_builtin_module file_path python_version pre s.
Proof.
  intros Hg Hb. induction pre as [|l pre IH]; intros s; cbn [app scan_lines].
  - unfold scan_line. now rewrite Hg, Hb.
  - destruct (scan_line is_builtin_module file_path python_version l s);
      [apply IH|reflexivity].
Qed.

(** X10.  When the probe raises an exception for the module of an import
    line, the lines of that file after it are not scanned: the result of
    the line scan is what it would be if the file ended before that line.
    The rows of the earlier lines and of the other files are kept. *)
Theorem scan_stops_at_failed_probe (tree1 tree2 : list file) (python_version : string)
  (f : file) (pre post : list string) (line g msg : string) :
  fst (f_text f) = pre ++ line :: post ->
  re_match_import line = Some g ->
  is_builtin_module (fst (split1 "." g)) = Raise msg ->
  scan_rows (tree1 ++ f :: tree2) python_version
  = scan_rows (tree1 ++ with_lines pre f :: tree2) python_version.
Proof.
  intros Hlines Hg Hb. unfold extract_python_file_dependencies.
  rewrite !fold_left_app. cbn [fold_left]. f_equal.
  unfold with_lines, manifest_path. cbn [f_name f_root f_text fst].
  destruct (endswith (f_name f) ".py"); [|reflexivity].
  rewrite Hlines. now apply scan_lines_cut with (g := g) (msg := msg).
Qed.

End Scan.

Lemma every_import_line_is_listed_witness :
  In ("proj/app.py", "requests", "latest")
     (extract_python_file_dependencies Samples.join MoreSamples.os_is_builtin
        [ MoreSamples.text_file "proj" "app.py" MoreSamples.app_lines ] "latest").
Proof.
  apply (every_import_line_is_listed Samples.join MoreSamples.os_is_builtin
           [ MoreSamples.text_file "proj" "app.py" MoreSamples.app_lines ]
           "latest"
           (MoreSamples.text_file "proj" "app.py" MoreSamples.app_lines)
           [ ("import os" ++ Samples.nl)%string ] [] "import requests.adapters"
           "requests.adapters").
  - now left.
  - reflexivity.
  - reflexivity.
  - repeat constructor. exists true. reflexivity.
  - reflexivity.
  - reflexivity.
Defined.

Lemma scan_stops_at_failed_probe_witness :
  extract_python_file_dependencies Samples.join MoreSamples.main_has_no_spec
    [ MoreSamples.text_file "proj" "app.py" MoreSamples.main_lines ] "latest"
  = [ ("proj/app.py", "numpy", "latest") ].
Proof.
  exact (eq_trans
           (scan_stops_at_failed_probe Samples.join MoreSamples.main_has_no_spec
              [] [] "latest"
              (MoreSamples.text_file "proj" "app.py" MoreSamples.main_lines)
              [ ("import numpy" ++ Samples.nl)%string ] [ "import requests" ]
              ("import __main__" ++ Samples.nl)%string "__main__"
              "__main__.__spec__ is None" eq_refl eq_refl eq_refl)
           eq_refl).
Defined.

Lemma module_not_space (c : ascii) : module_char c = true -> isspace c = false.
Proof. each_char c. Qed.

Lemma after_keyword_of (keyword rest : string) :
  keyword = "import" \/ keyword = "from" ->
  after_keyword (keyword ++ rest) = Some rest.
Proof. intros [->| ->]; reflexivity. Qed.

(** X11.  A line made of optional blanks, the word [import] or [from], one
    blank or more and a dotted module name that ends the line or is followed
    by a character that cannot be part of it, is recognised as an import of
    that name; the module that the scan lists is its first dotted
    component. *)
Theorem re_match_import_of_line (indent keyword blanks module rest : string) :
  all_chars isspace indent = true ->
  keyword = "import" \/ keyword = "from" ->
  nonempty blanks = true -> all_chars isspace blanks = true ->
  nonempty module = true -> all_chars module_char module = true ->
  stops module_char rest = true ->
  re_match_import (indent ++ keyword ++ blanks ++ module ++ rest) = Some module.
Proof.
  intros Hindent Hkw Hnb Hblanks Hnm Hmodule Hrest.
  unfold re_match_import.
  rewrite (span_stop isspace indent); [|assumption|].
  - cbn [snd]. rewrite (after_keyword_of _ _ Hkw).
    rewrite (span_stop isspace blanks); [|assumption|].
    + destruct blanks as [|b blanks]; [discriminate|].
      rewrite (span_stop module_char module _ Hmodule Hrest). cbn [fst].
      destruct module; [discriminate|reflexivity].
    + destruct module as [|c m]; [discriminate|]. simpl in *.
      apply andb_true_iff in Hmodule as [Hc _]. now rewrite (module_not_space _ Hc).
  - destruct Hkw as [->| ->]; reflexivity.
Qed.

Lemma re_match_import_of_line_witness :
  re_match_import ("    " ++ "from" ++ " " ++ "os.path" ++ " import join")
  = Some "os.path".
Proof.
  apply (re_match_import_of_line "    " "from" " " "os.path" " import join");
    try reflexivity.
  now right.
Defined.

End LineScan.

(* ================================================================== *)
(** * The table of manifest files *)
(* ================================================================== *)

Module ManifestTable.
Import PyStr Py Fs DependencyTools.

Section Table.

Context (path_join : string -> string -> string).
Context (pyproject_body poetry_lock_body pipfile_body setup_py_body : body).

Local Abbreviation table :=
  (dependency_files pyproject_body poetry_lock_body pipfile_body setup_py_body).
Local Abbreviation manifest_rows :=
  (manifest_dependencies path_join pyproject_body poetry_lock_body pipfile_body
     setup_py_body).

(** X12.  The six manifest names differ even when case is ignored, so a
    file is read by one extractor at most: the manifest rows of a file whose
    name matches an entry of the table are the rows that the extractor of
    that entry gives for it, and no other extractor adds any. *)
Theorem manifest_file_has_one_extractor
  (f : file) (filename : string) (h : handling) (b : body) :
  In (filename, (h, b)) table ->
  named filename f = true ->
  manifest_rows [f] = contribution path_join (run h b) f.
Proof.
  intros Hin Hnamed. unfold named in Hnamed. apply String.eqb_eq in Hnamed.
  unfold manifest_dependencies, find_all_files, dependency_files in *.
  simpl in Hin.
  destruct Hin as [E|[E|[E|[E|[E|[E|[]]]]]]]; injection E as <- <- <-;
    cbn [flat_map filter fst snd]; unfold named; rewrite Hnamed;
    cbn [lower lower_char]; vm_compute String.eqb; cbn [flat_map app];
    now rewrite ?app_nil_r.
Qed.

End Table.

Lemma manifest_file_has_one_extractor_witness :
  manifest_dependencies Samples.join Samples.no_rows Samples.no_rows Samples.no_rows
    Samples.no_rows [Samples.requirements "/p" Samples.requirements_lines]
  = [ ("/p/requirements.txt", "flask", "==2.0.1");
      ("/p/requirements.txt", "requests", "latest") ].
Proof.
  exact (manifest_file_has_one_extractor Samples.join Samples.no_rows Samples.no_rows
           Samples.no_rows Samples.no_rows
           (Samples.requirements "/p" Samples.requirements_lines)
           "requirements.txt" catching _
           (or_intror (or_intror (or_intror (or_intror (or_introl eq_refl)))))
           eq_refl).
Defined.

End ManifestTable.

(* ================================================================== *)
(** * More on the records of the scanner *)
(* ================================================================== *)

Module RecordsMore.
Import PyStr PyStrFacts Py Ast Fs AnalyzePythonAst DictFacts Emission Records
       Visitor Chains.

Lemma import_map_empty (imps : list import_entry) :
  import_map_of imps = [] -> imps = [].
Proof.
  intros H. destruct imps as [|i imps]; [reflexivity|].
  assert (Hin : In (im_alias i) (dict_keys (import_map_of (i :: imps))))
    by (apply import_map_keys; now left).
  rewrite H in Hin. destruct Hin.
Qed.

Lemma emit_empty (file_path : string) (v : visitor) :
  emit file_path v = [] <-> imports v = [].
Proof.
  rewrite emit_groups. split.
  - intros H. apply import_map_empty.
    destruct (import_map_of (imports v)) as [|e m]; [reflexivity|discriminate].
  - now intros ->.
Qed.

Lemma analyze_file_empty (file_path : string) (source : res (list string * node)) :
  analyze_file file_path source = [] <->
  exists lines tree v,
    source = Return (lines, tree) /\
    visit lines tree new_visitor = Return v /\ imports v = [].
Proof.
  split.
  - intros H.
    destruct (analyze_file_cases file_path source)
      as [(lines & tree & v & Hsrc & Hv & E)|(msg & E)]; rewrite E in H.
    + exists lines, tree, v. repeat split; try assumption. now apply emit_empty in H.
    + discriminate.
  - intros (lines & tree & v & -> & Hv & Hi). unfold analyze_file. simpl.
    rewrite Hv. now apply emit_empty.
Qed.

Section Repo.

Context (path_join : string -> string -> string).
Context (normpath : string -> string).
Context (generate_pdf_report : list record -> string -> string -> res bool).

Local Abbreviation records := (analyze_repo path_join normpath).

Lemma analyze_repo_empty (tree : list file) :
  records tree = [] <->
  forall f, In f tree -> endswith (f_name f) ".py" = true -> import_free f.
Proof.
  unfold analyze_repo. induction tree as [|f tree IH]; simpl.
  - split; [intros _ f []|reflexivity].
  - split.
    + intros H. apply app_eq_nil in H as [Hf Ht]. intros x [<-|Hx] Hpy.
      * rewrite Hpy in Hf. now apply analyze_file_empty in Hf.
      * now apply IH.
    + intros H. rewrite (proj2 IH) by auto. rewrite app_nil_r.
      destruct (endswith (f_name f) ".py") eqn:Hpy; [|reflexivity].
      apply analyze_file_empty. apply H; [now left|exact Hpy].
Qed.

(** X13.  The scanner returns no record at all exactly when every [.py]
    file of the tree is read, parsed and visited without an exception and
    contains no import statement, whatever else it contains.  For such a
    tree, also when it holds Python files, [generate_ast_usage_pdf] returns
    the error message for a project without Python files. *)
Theorem no_record_without_imports (project_path : string) (tree : list file) :
  (records tree = [] <->
   forall f, In f tree -> endswith (f_name f) ".py" = true -> import_free f) /\
  ((forall f, In f tree -> endswith (f_name f) ".py" = true -> import_free f) ->
   generate_ast_usage_pdf path_join normpath generate_pdf_report project_path
     (Some tree)
   = (cross_mark
      ++ " Error generating PDF: No Python files or analysis results found in the project path.")%string).
Proof.
  split; [apply analyze_repo_empty|].
  intros H. apply analyze_repo_empty in H.
  unfold generate_ast_usage_pdf, generate_ast_usage_pdf_body, walk. now rewrite H.
Qed.

(** X14.  Every record of the scanner names a [.py] file of the tree, by
    its normalised path, and has one of the three types. *)
Theorem records_name_source_files (tree : list file) :
  Forall (fun r =>
            (exists f, In f tree /\ endswith (f_name f) ".py" = true /\
                       r_file r = scan_path path_join normpath f) /\
            (r_type r = "import" \/ r_type r = "usage" \/ r_type r = "error"))
         (records tree).
Proof.
  apply Forall_forall. intros r Hr. unfold analyze_repo in Hr.
  apply in_flat_map in Hr as (f & Hf & Hr).
  destruct (endswith (f_name f) ".py") eqn:Hpy; [|destruct Hr].
  assert (Hfile : r_file r = scan_path path_join normpath f /\
                  (r_type r = "import" \/ r_type r = "usage" \/ r_type r = "error")).
  { destruct (analyze_file_cases (scan_path path_join normpath f) (f_ast f))
      as [(lines & t & v & _ & _ & E)|(msg & E)]; rewrite E in Hr.
    - rewrite emit_groups in Hr. apply in_flat_map in Hr as (e & _ & Hr).
      destruct Hr as [<-|Hr]; [auto|].
      apply in_map_iff in Hr as ([[s l] c] & <- & _). auto.
    - destruct Hr as [<-|[]]. auto. }
  destruct Hfile as [Hfile Htype]. split; [|exact Htype]. now exists f.
Qed.

End Repo.

Lemma no_record_without_imports_witness :
  generate_ast_usage_pdf Samples.join Samples.same (fun _ _ _ => Return true) "proj"
    (Some [ Samples.source_file "proj" "run.py"
              MoreSamples.script_lines MoreSamples.script_tree ])
  = (cross_mark
     ++ " Error generating PDF: No Python files or analysis results found in the project path.")%string.
Proof.
  apply (proj2 (no_record_without_imports Samples.join Samples.same
                  (fun _ _ _ => Return true) "proj"
                  [ Samples.source_file "proj" "run.py"
                      MoreSamples.script_lines MoreSamples.script_tree ])).
  intros f [<-|[]] _.
  exists MoreSamples.script_lines, MoreSamples.script_tree,
    {| imports := []; usage := [("print", 1%Z, "print('x')")] |}.
  repeat split; reflexivity.
Defined.

(** X15.  The alias of a usage record never contains a dot: an import that
    binds a dotted name, as [import os.path] does, is never credited with
    a usage. *)
Theorem usage_alias_has_no_dot (file_path : string)
  (source : res (list string * node)) :
  Forall (fun r => contains "." (r_alias r) = false)
         (filter is_usage (analyze_file file_path source)).
Proof.
  apply Forall_forall. intros r Hin. apply filter_In in Hin as [Hin Hr].
  apply String.eqb_eq in Hr.
  destruct (analyze_file_cases file_path source)
    as [(lines & tree & v & _ & _ & E)|(msg & E)]; rewrite E in Hin.
  - rewrite emit_groups in Hin. apply in_flat_map in Hin as (e & _ & Hin).
    destruct Hin as [<-|Hin]; [discriminate|].
    apply in_map_iff in Hin as ([[s l] c] & <- & Hu).
    apply filter_In in Hu as [_ Hu]. apply String.eqb_eq in Hu.
    simpl. rewrite <- Hu. apply split1_first.
  - destruct Hin as [<-|[]]. discriminate.
Qed.

End RecordsMore.

(* ================================================================== *)
(** * Aliases bound more than once, and attribute chains *)
(* ================================================================== *)

Module AliasesAndChains.
Import PyStr PyStrFacts Py Ast Fs AnalyzePythonAst DictFacts Emission Records
       Visitor Chains MoreSamples.

Lemma import_map_snoc (imps : list import_entry) (i : import_entry) :
  import_map_of (imps ++ [i]) = dict_set (im_alias i) i (import_map_of imps).
Proof. unfold import_map_of. now rewrite fold_left_app. Qed.

Lemma dict_get_set {V : Type} (a k : string) (v : V) (d : dict V) :
  dict_get a (dict_set k v d) = if String.eqb a k then Some v else dict_get a d.
Proof.
  induction d as [|[k' v'] d IH]; simpl.
  - reflexivity.
  - destruct (String.eqb k k') eqn:Ek; simpl.
    + apply String.eqb_eq in Ek. subst k'. now destruct (String.eqb a k).
    + rewrite IH. destruct (String.eqb a k') eqn:Ea; [|reflexivity].
      destruct (String.eqb a k) eqn:Eak; [|reflexivity].
      apply String.eqb_eq in Ea, Eak. subst. now rewrite String.eqb_refl in Ek.
Qed.

(** Looking an alias up gives the last import that binds it. *)
Lemma import_map_get (a : string) (imps : list import_entry) :
  dict_get a (import_map_of imps) = last_import a imps.
Proof.
  unfold last_import. induction imps as [|i imps IH] using rev_ind; [reflexivity|].
  rewrite import_map_snoc, dict_get_set, rev_app_distr. simpl.
  rewrite String.eqb_sym. now destruct (String.eqb (im_alias i) a).
Qed.

Lemma distinct_in (x : string) (l : list string) : In x (distinct l) <-> In x l.
Proof.
  induction l as [|y l IH]; simpl; [tauto|].
  rewrite filter_In, IH. split.
  - intros [H|[H _]]; auto.
  - intros [H|H]; [now left|].
    destruct (String.eqb x y) eqn:E.
    + apply String.eqb_eq in E. now left.
    + right. split; [assumption|]. now apply negb_true_iff.
Qed.

Lemma filter_absent (x : string) (l : list string) :
  ~ In x l -> filter (fun y => negb (String.eqb y x)) l = l.
Proof.
  induction l as [|y l IH]; simpl; [reflexivity|]. intros H.
  destruct (String.eqb y x) eqn:E.
  - apply String.eqb_eq in E. tauto.
  - simpl. rewrite IH; [reflexivity|tauto].
Qed.

Lemma distinct_snoc (l : list string) (k : string) :
  distinct (l ++ [k])
  = if existsb (String.eqb k) l then distinct l else distinct l ++ [k].
Proof.
  induction l as [|x l IH]; simpl; [reflexivity|].
  rewrite IH. destruct (String.eqb k x) eqn:E; simpl.
  - apply String.eqb_eq in E. subst x.
    destruct (existsb (String.eqb k) l); [reflexivity|].
    rewrite filter_app. simpl. rewrite String.eqb_refl. simpl.
    now rewrite app_nil_r.
  - destruct (existsb (String.eqb k) l); [reflexivity|].
    rewrite filter_app. simpl. rewrite E. reflexivity.
Qed.

(** The keys of [import_map] are the aliases in the order in which each is
    bound first. *)
Lemma import_map_key_order (imps : list import_entry) :
  dict_keys (import_map_of imps) = distinct (map im_alias imps).
Proof.
  induction imps as [|i imps IH] using rev_ind; [reflexivity|].
  rewrite import_map_snoc, dict_set_keys, map_app. cbn [map].
  rewrite distinct_snoc, IH.
  assert (E : dict_mem (im_alias i) (import_map_of imps)
              = existsb (String.eqb (im_alias i)) (map im_alias imps)).
  { destruct (existsb (String.eqb (im_alias i)) (map im_alias imps)) eqn:Ex.
    - apply dict_mem_in_keys, import_map_keys.
      apply existsb_exists in Ex as (x & Hx & Ex).
      apply String.eqb_eq in Ex. now subst.
    - destruct (dict_mem (im_alias i) (import_map_of imps)) eqn:Em; [|reflexivity].
      apply dict_mem_in_keys, import_map_keys in Em.
      rewrite <- Ex. symmetry. apply existsb_exists.
      exists (im_alias i). split; [assumption|apply String.eqb_refl]. }
  now rewrite E.
Qed.

(** A dictionary lists, for each of its keys in order, the value that a
    lookup of the key gives. *)
Lemma dict_by_keys {V : Type} (d : dict V) :
  NoDup (dict_keys d) ->
  d = flat_map (fun k => match dict_get k d with
                         | Some v => [(k, v)]
                         | None => []
                         end) (dict_keys d).
Proof.
  induction d as [|[k v] d IH]; simpl; [reflexivity|].
  intros H. inversion H as [|? ? Hk Hd]; subst.
  rewrite String.eqb_refl. simpl. f_equal.
  rewrite (IH Hd) at 1. apply flat_map_same. intros k' Hk'.
  destruct (String.eqb k' k) eqn:E; [|reflexivity].
  apply String.eqb_eq in E. subst. tauto.
Qed.

Lemma is_import_group (file_path : string) (us : list usage_entry)
  (e : string * import_entry) :
  filter is_import (group file_path us e) = [import_record file_path (fst e) (snd e)].
Proof.
  unfold group. simpl. f_equal.
  induction (filter (rooted_at (fst e)) us) as [|[[s l] c] t IH]; simpl;
    [reflexivity|assumption].
Qed.

(** X16.  The import records of a file are one for each alias that the
    file binds, in the order in which the aliases are bound first; when an
    alias is bound more than once its record carries the symbol, the line
    and the code of the last import that binds it. *)
Theorem import_records_by_alias
  (file_path : string) (lines : list string) (tree : node) (v : visitor) :
  visit lines tree new_visitor = Return v ->
  filter is_import (analyze_file file_path (Return (lines, tree)))
  = flat_map (fun a => match last_import a (imports v) with
                       | Some i => [import_record file_path a i]
                       | None => []
                       end)
             (distinct (map im_alias (imports v))).
Proof.
  intros Hv. unfold analyze_file. cbn [bind fst snd]. rewrite Hv.
  rewrite emit_groups, WellFormed.filter_flat_map.
  rewrite (flat_map_same _ _ _ (fun e _ => is_import_group file_path (usage v) e)).
  rewrite (dict_by_keys _ (import_map_nodup (imports v))) at 1.
  rewrite import_map_key_order.
  induction (distinct (map im_alias (imports v))) as [|a l IH]; simpl;
    [reflexivity|].
  rewrite flat_map_app, IH, import_map_get.
  now destruct (last_import a (imports v)).
Qed.

Lemma import_records_by_alias_witness :
  filter is_import (analyze_file "m.py" (Return (rebound_lines, rebound_tree)))
  = [ {| r_file := "m.py"; r_type := "import"; r_symbol := "simplejson";
         r_alias := "j"; r_lineno := 3; r_code := "import simplejson as j" |};
      {| r_file := "m.py"; r_type := "import"; r_symbol := "os";
         r_alias := "os"; r_lineno := 2; r_code := "import os" |} ].
Proof.
  exact (import_records_by_alias "m.py" rebound_lines rebound_tree _ eq_refl).
Defined.

Lemma chain_root_of (id : string) (attrs : list (Z * string)) :
  chain_root (chain_of id attrs) = Name id.
Proof. induction attrs as [|[l a] t IH]; simpl; [reflexivity|assumption]. Qed.

(** X17.  Visiting a bare attribute chain on a name, [id.a1. ... .an],
    whose lines exist, records one usage for the chain and one for each of
    its shorter prefixes down to [id.a1], from the longest to the shortest,
    each with the line of its own node; nothing else changes. *)
Theorem chain_records_every_prefix
  (lines : list string) (id : string) (attrs : list (Z * string)) (v : visitor) :
  lines_exist lines attrs ->
  exists us,
    visit lines (chain_of id attrs) v
    = Return {| imports := imports v; usage := usage v ++ us |} /\
    map usage_symbol us
    = map (fun t => get_full_attribute_name (chain_of id t)) (tails attrs) /\
    map usage_line us = map fst attrs.
Proof.
  intros H. revert v. induction H as [|[l a] t (c & Hc) _ IH]; intros v.
  - exists []. simpl. rewrite app_nil_r. now destruct v.
  - set (full := (get_full_attribute_name (chain_of id t) ++ "." ++ a)%string).
    destruct (IH (add_usage (full, l, c) v)) as (us & Hvisit & Hsym & Hline).
    exists ((full, l, c) :: us).
    split; [|split].
    + cbn [chain_of visit]. unfold record_attribute.
      change (chain_root (Attribute l (chain_of id t) a))
        with (chain_root (chain_of id t)).
      rewrite chain_root_of. cbn [is_name]. simpl fst in Hc. rewrite Hc.
      cbn [bind get_full_attribute_name]. fold full. rewrite Hvisit.
      cbn [add_usage imports usage].
      now rewrite <- app_assoc.
    + cbn [map tails]. now rewrite Hsym.
    + cbn [map]. now rewrite Hline.
Qed.

Lemma chain_records_every_prefix_witness :
  exists us,
    visit chain_lines (chain_of "os" [(2%Z, "sep"); (2%Z, "path")]) new_visitor
    = Return {| imports := []; usage := [] ++ us |} /\
    map usage_symbol us = [ "os.path.sep"; "os.path" ] /\
    map usage_line us = [ 2%Z; 2%Z ].
Proof.
  apply (chain_records_every_prefix chain_lines "os" [(2%Z, "sep"); (2%Z, "path")]
           new_visitor).
  repeat constructor; now exists "os.path.sep".
Defined.

End AliasesAndChains.

(* ================================================================== *)
(** * The report *)
(* ================================================================== *)

Module ReportFacts.
Import PyStr PyStrFacts Py Ast Fs AnalyzePythonAst DictFacts Emission Records
       Report.

(** ** [safe_text] *)







(** ** The two loops *)

Section Loops.

Context (versions : dict string).

Lemma usage_header_after (usage_count : Z) :
  usage_header (if (usage_count =? 0)%Z then (usage_count + 1)%Z else usage_count) = [].
Proof.
  unfold usage_header. destruct (usage_count =? 0)%Z eqn:E.
  - apply Z.eqb_eq in E. now subst.
  - now rewrite E.
Qed.

(** The inner loop draws the run of usage records that continue the
    import, then leaves the rest to the outer loop. *)
Lemma usage_run_draws (item : record) (continue : list record -> list call)
  (us rest : list record) :
  continue [] = [] ->
  Forall (fun u => continues item u = true) us ->
  match rest with [] => True | r :: _ => continues item r = false end ->
  forall usage_count,
    usage_run item continue usage_count (us ++ rest)
    = (match us with [] => [] | _ => usage_header usage_count end)
      ++ flat_map usage_cells us ++ ln 2 :: continue rest.
Proof.
  intros Hnil Hus Hrest. induction Hus as [|u us Hu _ IH]; intros usage_count.
  - simpl. destruct rest as [|r rest]; simpl; [now rewrite Hnil|now rewrite Hrest].
  - cbn [app usage_run]. rewrite Hu. rewrite IH.
    destruct us; [|rewrite usage_header_after]; cbn [flat_map app];
      now rewrite <- !app_assoc.
Qed.

Lemma clean_does_not_continue (item : record) (rest : list record) :
  starts_clean rest ->
  match rest with [] => True | r :: _ => continues item r = false end.
Proof.
  destruct rest as [|r rest]; simpl; [auto|]. intros H. unfold continues.
  destruct (String.eqb (r_type r) "usage") eqn:E; [|reflexivity].
  apply String.eqb_eq in E. contradiction.
Qed.

Lemma report_loop_section (count : Z) (s : section) (rest : list record) :
  well_grouped s -> starts_clean rest ->
  report_loop versions count (fst s :: snd s ++ rest)
  = heading versions count (fst s) ++ usage_block (snd s)
    ++ ln 2 :: report_loop versions (count + 1) rest.
Proof.
  intros [Himp Hus] Hrest. cbn [report_loop]. rewrite Himp. cbn [String.eqb].
  change (("import" =? "import")%string) with true. cbv iota.
  rewrite (usage_run_draws (fst s) (report_loop versions (count + 1)) (snd s) rest
             eq_refl Hus (clean_does_not_continue _ _ Hrest)).
  unfold usage_block. now destruct (snd s).
Qed.

Lemma starts_clean_sections (sections : list section) (rest : list record) :
  Forall well_grouped sections -> starts_clean rest ->
  starts_clean (section_records sections ++ rest).
Proof.
  intros H Hrest. destruct H as [|s l [Himp _] _]; simpl; [assumption|].
  rewrite Himp. discriminate.
Qed.

Lemma draw_sections_app (count : Z) (s1 s2 : list section) :
  draw_sections versions count (s1 ++ s2)
  = draw_sections versions count s1
    ++ draw_sections versions (count + Z.of_nat (length s1)) s2.
Proof.
  revert count. induction s1 as [|[i us] s1 IH]; intros count.
  - simpl. now rewrite Z.add_0_r.
  - cbn [app draw_sections length]. rewrite IH.
    replace (count + Z.of_nat (S (length s1)))%Z
      with (count + 1 + Z.of_nat (length s1))%Z by lia.
    repeat (rewrite <- ?app_assoc, <- ?app_comm_cons; f_equal).
Qed.

(** The loops draw well-grouped sections one by one. *)
Lemma report_loop_sections (sections : list section) (rest : list record) :
  Forall well_grouped sections -> starts_clean rest ->
  forall count,
    report_loop versions count (section_records sections ++ rest)
    = draw_sections versions count sections
      ++ report_loop versions (count + Z.of_nat (length sections)) rest.
Proof.
  intros H Hrest. induction H as [|[i us] l Hs Hl IH]; intros count.
  - simpl. now rewrite Z.add_0_r.
  - cbn [section_records flat_map fst snd]. rewrite <- app_assoc, <- app_comm_cons.
    fold (section_records l).
    change (i :: us ++ section_records l ++ rest)
      with (fst (i, us) :: snd (i, us) ++ section_records l ++ rest).
    rewrite (report_loop_section count (i, us) (section_records l ++ rest) Hs
               (starts_clean_sections _ _ Hl Hrest)).
    rewrite IH. cbn [draw_sections fst snd length].
    replace (count + Z.of_nat (S (length l)))%Z
      with (count + 1 + Z.of_nat (length l))%Z by lia.
    repeat (rewrite <- ?app_assoc, <- ?app_comm_cons; f_equal).
Qed.

End Loops.

(** ** The records of the scanner, drawn *)

Lemma continues_usage_record (file_path alias : string) (imp : import_entry)
  (u : usage_entry) :
  continues (import_record file_path alias imp) (usage_record file_path alias u) = true.
Proof.
  destruct u as [[symbol lineno] code]. unfold continues. simpl.
  now rewrite String.eqb_refl.
Qed.

Lemma file_sections_grouped (file_path : string) (source : res (list string * node)) :
  Forall well_grouped (file_sections file_path source).
Proof.
  unfold file_sections.
  destruct (x <- source ;; visit (fst x) (snd x) new_visitor) as [v|msg]; [|constructor].
  apply Forall_forall. intros s Hs. apply in_map_iff in Hs.
  destruct Hs as ([alias imp] & <- & _). split; [reflexivity|]. simpl.
  apply Forall_forall. intros r Hr. apply in_map_iff in Hr.
  destruct Hr as (u & <- & _). apply continues_usage_record.
Qed.

Lemma file_sections_records (file_path : string) (source : res (list string * node)) :
  analyze_file file_path source = section_records (file_sections file_path source)
  \/ (exists msg, analyze_file file_path source = [error_record file_path msg]
                  /\ file_sections file_path source = []).
Proof.
  unfold analyze_file, file_sections.
  destruct (x <- source ;; visit (fst x) (snd x) new_visitor) as [v|msg].
  - left. rewrite emit_groups. unfold section_records. rewrite flat_map_concat_map.
    rewrite (flat_map_concat_map _ (map _ _)), map_map. reflexivity.
  - right. now exists msg.
Qed.

Lemma starts_clean_app (l1 l2 : list record) :
  starts_clean l1 -> starts_clean l2 -> starts_clean (l1 ++ l2).
Proof. now destruct l1. Qed.

Lemma analyze_file_clean (file_path : string) (source : res (list string * node)) :
  starts_clean (analyze_file file_path source).
Proof.
  destruct (file_sections_records file_path source) as [->|(msg & -> & _)].
  - rewrite <- (app_nil_r (section_records _)).
    apply starts_clean_sections; [apply file_sections_grouped|exact I].
  - discriminate.
Qed.

Section Scanned.

Context (path_join : string -> string -> string).
Context (normpath : string -> string).

Lemma analyze_repo_clean (tree : list file) :
  starts_clean (analyze_repo path_join normpath tree).
Proof.
  induction tree as [|f tree IH]; [exact I|].
  unfold analyze_repo. cbn [flat_map]. apply starts_clean_app; [|exact IH].
  destruct (endswith (f_name f) ".py"); [apply analyze_file_clean|exact I].
Qed.

(** X19.  From the records of the scanner, the loops of
    [generate_pdf_report] draw one numbered section for each import record,
    in the order of the records, with every usage record of the file rooted
    at the alias listed under it; the error records draw nothing and take
    no number. *)
Theorem report_of_scan (versions : dict string) (tree : list file) (count : Z) :
  report_loop versions count (analyze_repo path_join normpath tree)
  = draw_sections versions count (repo_sections path_join normpath tree).
Proof.
  revert count. induction tree as [|f tree IH]; intros count; [reflexivity|].
  unfold analyze_repo, repo_sections. cbn [flat_map].
  fold (analyze_repo path_join normpath tree).
  fold (repo_sections path_join normpath tree).
  destruct (endswith (f_name f) ".py"); [|apply IH].
  destruct (file_sections_records (scan_path path_join normpath f) (f_ast f))
    as [->|(msg & -> & ->)].
  - rewrite report_loop_sections;
      [|apply file_sections_grouped|apply analyze_repo_clean].
    now rewrite IH, draw_sections_app.
  - simpl. apply IH.
Qed.

End Scanned.

(** ** The versions of the report *)

Lemma find_app {A : Type} (f : A -> bool) (l1 l2 : list A) :
  find f (l1 ++ l2) = match find f l1 with Some x => Some x | None => find f l2 end.
Proof.
  induction l1 as [|a l1 IH]; simpl; [reflexivity|]. now destruct (f a).
Qed.

Section Loaded.

Context (metadata_version : string -> res (option string)).

Lemma resolve_row_sets (row : string * string) (d d' : dict string) :
  resolve_row metadata_version row d = Return d' ->
  d' = dict_set (fst row) (kept_version metadata_version row) d.
Proof.
  destruct row as [package version_cell]. unfold resolve_row, kept_version.
  cbn [fst snd].
  destruct (existsb (String.eqb (lower (strip version_cell))) sentinels).
  - destruct (metadata_version package) as [[v|]|msg]; simpl;
      intros H; congruence.
  - intros H. congruence.
Qed.

Lemma loaded_versions (rows : list (string * string)) :
  forall d0 d,
    for_each (resolve_row metadata_version) rows d0 = Return d ->
    forall package,
      dict_get package d
      = match last_row package rows with
        | Some row => Some (kept_version metadata_version row)
        | None => dict_get package d0
        end.
Proof.
  induction rows as [|row rows IH]; intros d0 d H package.
  - simpl in H. now inversion H.
  - rewrite Visitor.for_each_cons in H. apply Visitor.bind_return in H.
    destruct H as (d1 & H1 & H). apply resolve_row_sets in H1. subst d1.
    rewrite (IH _ _ H). unfold last_row. cbn [rev]. rewrite find_app.
    destruct (find _ (rev rows)); [reflexivity|].
    rewrite AliasesAndChains.dict_get_set. cbn [find].
    rewrite String.eqb_sym. now destruct (String.eqb (fst row) package).
Qed.

(** X20.  When the table of the project is loaded, the version that the
    report shows for a package is the one kept for the last row of the
    table that names the package: its version cell trimmed and in lower
    case or, when that is empty, [latest] or [python], the installed
    version, and [latest] when none is installed.  It is [unknown] for a
    package that no row names. *)
Theorem version_of_last_row (rows : list (string * string)) (versions : dict string)
  (package : string) :
  load_dependency_versions_with_resolution metadata_version (Return rows)
  = Return versions ->
  version_of versions package
  = match last_row package rows with
    | Some row => kept_version metadata_version row
    | None => "unknown"
    end.
Proof.
  unfold load_dependency_versions_with_resolution. simpl. intros H.
  unfold version_of. rewrite (loaded_versions rows [] versions H package).
  now destruct (last_row package rows).
Qed.

End Loaded.

Lemma version_of_last_row_witness :
  version_of [("numpy", "1.26.4"); ("flask", "3.0.0")] "numpy" = "1.26.4".
Proof.
  apply (version_of_last_row (fun _ => Return (Some "3.0.0"))
           [("numpy", "1.21.0"); ("flask", "latest"); ("numpy", " 1.26.4 ")]
           [("numpy", "1.26.4"); ("flask", "3.0.0")] "numpy").
  reflexivity.
Defined.

End ReportFacts.
